(** * PTCP (vertex): packet codec, sequence arithmetic, RFC 793 state machine,
      connection engine and multiplexer, embedded from [vertex/ptcp.py] and
      [vertex/tcpdfa.py].

    Python integers are unbounded, so every integer is a [Z]; the places where
    the source reduces modulo 2^32 or 2^16 are written out.  A [str] used as a
    byte string is a [list byte].  Exceptions are values of [Exn]; a loop that
    never ends is the outcome [Hang]. *)

From Stdlib Require Import ZArith List Lia Bool Sorted.
From Stdlib Require Import Strings.Byte.
From stdpp Require Import base gmap list strings.

Local Open Scope Z_scope.

(** ** Outcomes of a call *)

Inductive Exn :=
  | AttributeError (attr : string)
  | AssertionError
  | BadPacketError
  | ChecksumMismatchError (expected received : Z)
  | TruncatedDataError
  | GarbageDataError
  | NoTransition
  | KeyError
  | struct_error
  | RuntimeError
  | UnboundLocalError
  | TypeError
  | AlreadyCalled
  | ApplicationError.

Inductive Res (A : Type) :=
  | Ok (a : A)
  | Raise (e : Exn)
  | Hang.
Arguments Ok {A} a.
Arguments Raise {A} e.
Arguments Hang {A}.

Definition res_bind {A B} (r : Res A) (k : A -> Res B) : Res B :=
  match r with
  | Ok a => k a
  | Raise e => Raise e
  | Hang => Hang
  end.

(** ** Byte strings *)

Abbreviation bytes := (list byte).

Definition byte_of_Z (z : Z) : byte :=
  match Byte.of_N (Z.to_N (z mod 256)) with
  | Some b => b
  | None => x00
  end.

Definition Z_of_byte (b : byte) : Z := Z.of_N (Byte.to_N b).

Definition len {A} (l : list A) : Z := Z.of_nat (length l).

(** Python's normalisation of a slice bound against a sequence of length [n]. *)
Definition py_index (n i : Z) : Z :=
  if i <? 0 then Z.max (i + n) 0 else Z.min i n.

(** [l[lo:hi]], [l[lo:]] and [l[:hi]]. *)
Definition py_slice {A} (l : list A) (lo hi : Z) : list A :=
  let lo' := py_index (len l) lo in
  let hi' := py_index (len l) hi in
  take (Z.to_nat (hi' - lo')) (drop (Z.to_nat lo') l).

Definition py_slice_from {A} (l : list A) (lo : Z) : list A :=
  drop (Z.to_nat (py_index (len l) lo)) l.

Definition py_slice_to {A} (l : list A) (hi : Z) : list A :=
  take (Z.to_nat (py_index (len l) hi)) l.

(** ** The [struct] module, for the format characters of [_packetFormat]
    in network byte order ([!]: standard sizes, no padding). *)

Module struct.

Inductive code := H | L | B | l.

Definition size (c : code) : nat :=
  match c with
  | H => 2
  | L => 4
  | B => 1
  | l => 4
  end.

Definition signed (c : code) : bool :=
  match c with
  | l => true
  | _ => false
  end.

Definition calcsize (fmt : list code) : Z :=
  fold_right (fun c n => Z.of_nat (size c) + n) 0 fmt.

Definition in_range (c : code) (v : Z) : bool :=
  let bits := 8 * Z.of_nat (size c) in
  if signed c
  then (- 2 ^ (bits - 1) <=? v) && (v <? 2 ^ (bits - 1))
  else (0 <=? v) && (v <? 2 ^ bits).

(** [n] bytes, most significant first; a negative value comes out in two's
    complement. *)
Fixpoint pack_be (n : nat) (v : Z) : bytes :=
  match n with
  | O => []
  | S n' => byte_of_Z (v / 256 ^ Z.of_nat n') :: pack_be n' v
  end.

Definition unpack_be (bs : bytes) : Z :=
  fold_left (fun acc b => acc * 256 + Z_of_byte b) bs 0.

Definition to_signed (n : nat) (u : Z) : Z :=
  if u <? 2 ^ (8 * Z.of_nat n - 1) then u else u - 2 ^ (8 * Z.of_nat n).

Definition pack1 (c : code) (v : Z) : Res bytes :=
  if in_range c v then Ok (pack_be (size c) v) else Raise struct_error.

Definition unpack1 (c : code) (bs : bytes) : Z :=
  if signed c then to_signed (size c) (unpack_be bs) else unpack_be bs.

Fixpoint pack (fmt : list code) (vals : list Z) : Res bytes :=
  match fmt, vals with
  | [], [] => Ok []
  | c :: fmt', v :: vals' =>
      res_bind (pack1 c v) (fun b =>
      res_bind (pack fmt' vals') (fun bs => Ok (b ++ bs)))
  | _, _ => Raise struct_error
  end.

Fixpoint unpack_fields (fmt : list code) (bs : bytes) : list Z :=
  match fmt with
  | [] => []
  | c :: fmt' =>
      unpack1 c (take (size c) bs) :: unpack_fields fmt' (drop (size c) bs)
  end.

Definition unpack (fmt : list code) (bs : bytes) : Res (list Z) :=
  if len bs =? calcsize fmt then Ok (unpack_fields fmt bs)
  else Raise struct_error.

End struct.

(** ** [binascii.crc32]: the reflected CRC-32 (polynomial 0xEDB88320), returned
    as a signed 32-bit integer as Python 2 does. *)

Module binascii.

Definition crc_shift (crc : Z) : Z :=
  if Z.testbit crc 0
  then Z.lxor (Z.shiftr crc 1) 0xEDB88320
  else Z.shiftr crc 1.

Definition crc_update (crc : Z) (b : byte) : Z :=
  Nat.iter 8 crc_shift (Z.lxor crc (Z_of_byte b)).

Definition crc32 (data : bytes) : Z :=
  struct.to_signed 4
    (Z.lxor (fold_left crc_update data 0xFFFFFFFF) 0xFFFFFFFF mod 2 ^ 32).

End binascii.

(** ** Module-level constants of [ptcp.py] *)

Definition MAX_PSEUDO_PORT : Z := 2 ^ 16.

Definition _packetFormat : list struct.code :=
  [ struct.H   (* sourcePseudoPort *)
  ; struct.H   (* destPseudoPort *)
  ; struct.L   (* sequenceNumber *)
  ; struct.L   (* acknowledgementNumber *)
  ; struct.L   (* window *)
  ; struct.B   (* flags *)
  ; struct.l   (* checksum *)
  ; struct.H   (* dlen *)
  ].

Definition _fixedSize : Z := struct.calcsize _packetFormat.

(** [_SYN, _ACK, _FIN, _RST, _STB = [1 << n for n in range(5)]] *)
Definition _SYN : Z := Z.shiftl 1 0.
Definition _ACK : Z := Z.shiftl 1 1.
Definition _FIN : Z := Z.shiftl 1 2.
Definition _RST : Z := Z.shiftl 1 3.
Definition _STB : Z := Z.shiftl 1 4.

Definition relativeSequence (wireSequence initialSequence lapNumber : Z) : Z :=
  (wireSequence + lapNumber * 2 ^ 32) - initialSequence.

(** A datagram address [(host, port)]. *)
Definition Addr : Type := string * Z.

(** ** [PTCPPacket] *)

Module PTCPPacket.

(** The attributes set by [__init__], the class attribute [retransmitCount],
    and [destination], which only [create] binds: [None] is the attribute not
    bound (reading it raises [AttributeError]), [Some d] is the attribute
    bound to [d]. *)
Record t := mk {
  sourcePseudoPort : Z;
  destPseudoPort : Z;
  seqNum : Z;
  ackNum : Z;
  window : Z;
  flags : Z;
  checksum : Z;
  dlen : Z;
  data : bytes;
  peerAddressTuple : option Addr;
  seqOffset : Z;
  ackOffset : Z;
  seqLaps : Z;
  ackLaps : Z;
  destination : option (option Addr);
  retransmitCount : Z
}.

Definition set_flags (v : Z) (p : t) : t :=
  mk (sourcePseudoPort p) (destPseudoPort p) (seqNum p) (ackNum p) (window p)
     v (checksum p) (dlen p) (data p) (peerAddressTuple p)
     (seqOffset p) (ackOffset p) (seqLaps p) (ackLaps p)
     (destination p) (retransmitCount p).

Definition set_checksum (v : Z) (p : t) : t :=
  mk (sourcePseudoPort p) (destPseudoPort p) (seqNum p) (ackNum p) (window p)
     (flags p) v (dlen p) (data p) (peerAddressTuple p)
     (seqOffset p) (ackOffset p) (seqLaps p) (ackLaps p)
     (destination p) (retransmitCount p).

Definition set_ackNum (v : Z) (p : t) : t :=
  mk (sourcePseudoPort p) (destPseudoPort p) (seqNum p) v (window p)
     (flags p) (checksum p) (dlen p) (data p) (peerAddressTuple p)
     (seqOffset p) (ackOffset p) (seqLaps p) (ackLaps p)
     (destination p) (retransmitCount p).

Definition set_destination (v : option (option Addr)) (p : t) : t :=
  mk (sourcePseudoPort p) (destPseudoPort p) (seqNum p) (ackNum p) (window p)
     (flags p) (checksum p) (dlen p) (data p) (peerAddressTuple p)
     (seqOffset p) (ackOffset p) (seqLaps p) (ackLaps p)
     v (retransmitCount p).

Definition set_retransmitCount (v : Z) (p : t) : t :=
  mk (sourcePseudoPort p) (destPseudoPort p) (seqNum p) (ackNum p) (window p)
     (flags p) (checksum p) (dlen p) (data p) (peerAddressTuple p)
     (seqOffset p) (ackOffset p) (seqLaps p) (ackLaps p)
     (destination p) v.

(** [__init__] with its defaults [seqOffset=0, ackOffset=0, seqLaps=0,
    ackLaps=0]; the class attribute [retransmitCount = 50] is what a new
    instance reads. *)
Definition init (sourcePseudoPort destPseudoPort seqNum ackNum window flags
                 checksum dlen : Z) (data : bytes)
                (peerAddressTuple : option Addr) : t :=
  mk sourcePseudoPort destPseudoPort seqNum ackNum window flags
     checksum dlen data peerAddressTuple 0 0 0 0 None 50.

(** [_flagprop(flag)]: getter [bool(self.flags & flag)] and setter. *)
Definition flag_get (flag : Z) (p : t) : bool :=
  negb (Z.land (flags p) flag =? 0).

Definition flag_set (flag : Z) (value : bool) (p : t) : t :=
  if value
  then set_flags (Z.lor (flags p) flag) p
  else set_flags (Z.land (flags p) (Z.lnot flag)) p.

Definition syn := flag_get _SYN.
Definition ack := flag_get _ACK.
Definition fin := flag_get _FIN.
Definition rst := flag_get _RST.
Definition stb := flag_get _STB.

Definition computeChecksum (self : t) : Z := binascii.crc32 (data self).

Definition create (sourcePseudoPort destPseudoPort seqNum ackNum : Z)
    (data : bytes) (window : Z) (syn ack fin rst stb : bool)
    (destination : option Addr) : t :=
  let i := init sourcePseudoPort destPseudoPort seqNum ackNum window
                0 0 (len data) data None in
  let i := flag_set _SYN syn i in
  let i := flag_set _ACK ack i in
  let i := flag_set _FIN fin i in
  let i := flag_set _RST rst i in
  let i := flag_set _STB stb i in
  let i := set_checksum (computeChecksum i) i in
  set_destination (Some destination) i.

(** The default [window=(1 << 15)] of [create]. *)
Definition default_window : Z := Z.shiftl 1 15.

Definition segmentLength (self : t) : Z :=
  dlen self + Z.b2z (syn self) + Z.b2z (fin self).

Definition relativeSeq (self : t) : Z :=
  relativeSequence (seqNum self) (seqOffset self) (seqLaps self).

Definition relativeAck (self : t) : Z :=
  relativeSequence (ackNum self) (ackOffset self) (ackLaps self).

Definition verifyChecksum (self : t) : Res unit :=
  if negb (len (data self) =? dlen self) then
    if len (data self) >? dlen self
    then Raise GarbageDataError
    else Raise TruncatedDataError
  else
    let expected := computeChecksum self in
    let received := checksum self in
    if negb (expected =? received)
    then Raise (ChecksumMismatchError expected received)
    else Ok tt.

Definition decode (bs : bytes) (hostPortPair : option Addr) : Res t :=
  res_bind (struct.unpack _packetFormat (py_slice_to bs _fixedSize))
    (fun fields =>
       match fields with
       | [sourcePseudoPort; destPseudoPort; seq; ack; window; flags;
          checksum; dlen] =>
           let data := py_slice_from bs _fixedSize in
           Ok (init sourcePseudoPort destPseudoPort seq ack window flags
                    checksum dlen data hostPortPair)
       | _ => Raise struct_error
       end).

Definition mustRetransmit (self : t) : bool :=
  syn self || fin self || negb (dlen self =? 0).

Definition encode (self : t) : Res bytes :=
  let dlen := len (data self) in
  let checksum := computeChecksum self in
  res_bind
    (struct.pack _packetFormat
       [sourcePseudoPort self; destPseudoPort self; seqNum self; ackNum self;
        window self; flags self; checksum; dlen])
    (fun header => Ok (header ++ data self)).

(** [iterchunks(data, chunksize)]: the chunks the generator yields.  The
    [while] loop is run with fuel; [None] is a loop that never ends. *)
Fixpoint iterchunks_from (fuel : nat) (data : bytes) (chunksize offt : Z)
  : option (list bytes) :=
  match fuel with
  | O => if offt <? len data then None else Some []
  | S fuel' =>
      if offt <? len data then
        match iterchunks_from fuel' data chunksize (offt + chunksize) with
        | Some rest => Some (py_slice data offt (offt + chunksize) :: rest)
        | None => None
        end
      else Some []
  end.

Definition iterchunks (data : bytes) (chunksize : Z) : option (list bytes) :=
  iterchunks_from (length data) data chunksize 0.

(** The body of the [for chunk in iterchunks(...)] loop of [fragment], with
    [self.destination] bound to [destination]. *)
Fixpoint fragment_children (self : t) (destination : option Addr)
    (chunks : list bytes) (seqOfft : Z) : list t :=
  match chunks with
  | [] => []
  | chunk :: rest =>
      create (sourcePseudoPort self) (destPseudoPort self)
             (seqNum self + seqOfft) (ackNum self) chunk (window self)
             false (ack self) false false false destination
      :: fragment_children self destination rest (seqOfft + len chunk)
  end.

(** The [for] loop of [fragment].  The generator is consumed chunk by chunk,
    and the loop body reads [self.destination]: where the attribute is not
    bound, the body raises on the first chunk, and only data that yields no
    chunk gets past the loop. *)
Definition fragment_loop (self : t) (mtu : Z) : Res (list t) :=
  match destination self with
  | Some destination =>
      match iterchunks (data self) mtu with
      | None => Hang
      | Some chunks => Ok (fragment_children self destination chunks 0)
      end
  | None =>
      if 0 <? len (data self)
      then Raise (AttributeError "destination")
      else Ok []
  end.

Definition fragment (self : t) (mtu : Z) : Res (list t) :=
  if dlen self <? mtu then Ok [self]
  else if syn self then Raise AssertionError
  else
    res_bind (fragment_loop self mtu) (fun L =>
      if fin self then
        match last L with
        | None => Raise UnboundLocalError
        | Some last_ =>
            let last_ := flag_set _FIN (fin self) last_ in
            let last_ := set_checksum (computeChecksum last_) last_ in
            Ok (removelast L ++ [last_])
        end
      else Ok L).

End PTCPPacket.

(** ** Sequence predicates *)

Definition segmentAcceptable (RCV_NXT RCV_WND SEG_SEQ SEG_LEN : Z) : Res bool :=
  if (SEG_LEN =? 0) && (RCV_WND =? 0) then
    Ok (SEG_SEQ =? RCV_NXT)
  else if (SEG_LEN =? 0) && (RCV_WND >? 0) then
    Ok ((RCV_NXT <=? SEG_SEQ) && (SEG_SEQ <? RCV_NXT + RCV_WND))
  else if (SEG_LEN >? 0) && (RCV_WND =? 0) then
    Ok false
  else if (SEG_LEN >? 0) && (RCV_WND >? 0) then
    Ok (((RCV_NXT <=? SEG_SEQ) && (SEG_SEQ <? RCV_NXT + RCV_WND))
        || ((RCV_NXT <=? SEG_SEQ + SEG_LEN - 1)
            && (SEG_SEQ + SEG_LEN - 1 <? RCV_NXT + RCV_WND)))
  else Raise AssertionError.

Definition ackAcceptable (SND_UNA SEG_ACK SND_NXT : Z) : bool :=
  (SND_UNA <? SEG_ACK) && (SEG_ACK <=? SND_NXT).

(** ** [tcpdfa.TCP]: the automaton declared with automat's [MethodicalMachine] *)

Module TCP.

Inductive State :=
  | closed
  | synSent
  | synRcvd
  | listen
  | established
  | closeWait
  | lastAck
  | finWait1
  | finWait2
  | closing
  | timeWait.

(** [broken = closed]: the same state object under a second name. *)
Definition broken : State := closed.

Inductive Input :=
  | appPassiveOpen
  | appActiveOpen
  | timeout
  | appClose
  | synAck
  | ack
  | rst
  | appSendData
  | syn
  | fin
  | segmentReceived.

Inductive Output :=
  | sendSyn
  | sendFin
  | sendSynAck
  | sendAck
  | sendRst
  | appNotifyConnected
  | appNotifyDisconnected
  | releaseResources
  | startTimeWaiting
  | appNotifyListen
  | appNotifyHalfClose
  | appNotifyAttemptFailed.

#[global] Instance State_eq_dec : EqDecision State.
Proof. solve_decision. Defined.

#[global] Instance Input_eq_dec : EqDecision Input.
Proof. solve_decision. Defined.

#[global] Instance Output_eq_dec : EqDecision Output.
Proof. solve_decision. Defined.

(** One [state.upon(input, enter=..., outputs=[...])] declaration. *)
Record Transition := upon {
  from : State;
  input : Input;
  enter : State;
  outputs : list Output
}.

(** The [upon] declarations of the class body, in source order; the trailing
    [for noDataState in [finWait1, finWait2, closing]] loop is the [map]. *)
Definition transitions : list Transition :=
  [ upon closed appPassiveOpen listen [appNotifyListen]
  ; upon closed appActiveOpen synSent [sendSyn]

  ; upon synSent timeout closed [appNotifyAttemptFailed; releaseResources]
  ; upon synSent appClose closed [appNotifyAttemptFailed; releaseResources]
  ; upon synSent synAck established [sendAck; appNotifyConnected]

  ; upon synRcvd ack established [appNotifyConnected]
  ; upon synRcvd appClose finWait1 [sendFin]
  ; upon synRcvd timeout closed [sendRst; releaseResources]
  ; upon synRcvd rst broken [releaseResources]

  ; upon listen appSendData synSent [sendSyn]
  ; upon listen syn synRcvd [sendSynAck]

  ; upon established segmentReceived established [sendAck]

  ; upon established appClose finWait1 [appNotifyDisconnected; sendFin]
  ; upon established fin closeWait [appNotifyHalfClose; sendAck]
  ; upon established timeout broken [appNotifyDisconnected; releaseResources]

  ; upon closeWait appClose lastAck [sendFin; appNotifyDisconnected]
  ; upon closeWait timeout broken [appNotifyDisconnected; releaseResources]

  ; upon lastAck ack closed [releaseResources]
  ; upon lastAck timeout broken [releaseResources]

  ; upon finWait1 ack finWait2 []
  ; upon finWait1 fin closing [sendAck]
  ; upon finWait1 timeout broken [releaseResources]

  ; upon finWait2 timeout broken [releaseResources]
  ; upon finWait2 fin timeWait [sendAck; startTimeWaiting]

  ; upon closing timeout broken [releaseResources]
  ; upon closing ack timeWait [startTimeWaiting]

  ; upon timeWait timeout closed [releaseResources]
  ]
  ++ map (fun noDataState => upon noDataState segmentReceived noDataState [])
         [finWait1; finWait2; closing].

(** automat's lookup of the transition for an input in a state: the new state
    and the outputs to run, or nothing (automat then raises [NoTransition]). *)
Definition outputForInput (s : State) (i : Input)
  : option (State * list Output) :=
  match
    List.find (fun tr => bool_decide (from tr = s) && bool_decide (input tr = i))
              transitions
  with
  | Some tr => Some (enter tr, outputs tr)
  | None => None
  end.

(** The names the class body of [TCP] binds, with [_impl] set by [__init__]:
    what [getattr] finds on a [TCP] instance. *)
Definition state_names : list string :=
  [ "closed"; "broken"; "synSent"; "synRcvd"; "listen"; "established"
  ; "closeWait"; "lastAck"; "finWait1"; "finWait2"; "closing"; "timeWait" ]%string.

Definition input_names : list (string * Input) :=
  [ ("appPassiveOpen", appPassiveOpen); ("appActiveOpen", appActiveOpen)
  ; ("timeout", timeout); ("appClose", appClose); ("synAck", synAck)
  ; ("ack", ack); ("rst", rst); ("appSendData", appSendData); ("syn", syn)
  ; ("fin", fin); ("segmentReceived", segmentReceived) ]%string.

Definition output_names : list string :=
  [ "sendSyn"; "sendFin"; "sendSynAck"; "sendAck"; "sendRst"
  ; "appNotifyConnected"; "appNotifyDisconnected"; "releaseResources"
  ; "startTimeWaiting"; "appNotifyListen"; "appNotifyHalfClose"
  ; "appNotifyAttemptFailed" ]%string.

Definition attributes : list string :=
  ["_machine"; "__init__"; "_impl"]%string
  ++ state_names ++ map fst input_names ++ output_names.

Definition input_named (name : string) : option Input :=
  match List.find (fun ni => bool_decide (fst ni = name)) input_names with
  | Some ni => Some (snd ni)
  | None => None
  end.

End TCP.

(** ** Objects around a connection *)

(** An application object (a factory, a protocol or a producer), by identity. *)
Definition object : Type := nat.

(** The key of the multiplexer's connection map:
    [(peer pseudo-port, host pseudo-port, peer address)]. *)
Definition Key : Type := Z * Z * option Addr.

(** The functions the connection hands to [reactor.callLater]. *)
Inductive CallbackKind :=
  | cb_reallyWrite
  | cb_reallyRetransmit
  | cb_originateAck
  | cb_do2mslTimeout
  | cb_appCloseNow.

(** A delayed call: the connection (its place in the heap) and the function. *)
Definition Callback : Type := nat * CallbackKind.

(** Calls made on the collaborators that are not part of this code: the
    datagram transport, the application's factory, protocol and producer, the
    log, and the callbacks the application has added to a Deferred of
    [_allConnectionsClosed]. *)
Inductive Effect :=
  | transport_write (datagram : bytes) (addr : option Addr)
  | transport_stopListening
  | allConnectionsClosed_callback
  | factory_buildProtocol (conn : nat)
  | factory_clientConnectionFailed (conn : nat)
  | protocol_makeConnection (conn : nat)
  | protocol_dataReceived (conn : nat) (data : bytes)
  | protocol_connectionLost (conn : nat)
  | producer_resumeProducing (conn : nat)
  | producer_pauseProducing (conn : nat)
  | producer_stopProducing (conn : nat)
  | log_msg.

(** ** [PTCPConnection]: instance attributes, with the class-level defaults *)

Module PTCPConnection.

(** [oid] is the identity of the object (its place in the heap); [machine] is
    the current state of the connection's [TCP] automaton; a timer attribute
    holds the delayed call it refers to. *)
Record t := mk {
  oid : nat;
  hostPseudoPort : Z;
  peerPseudoPort : Z;
  factory : option object;
  retransmissionQueue : list PTCPPacket.t;
  peerAddressTuple : option Addr;
  oldestUnackedSendSeqNum : Z;
  nextSendSeqNum : Z;
  hostSendISN : Z;
  nextRecvSeqNum : Z;
  peerSendISN : Z;
  setPeerISN : bool;
  machine : TCP.State;
  mtu : Z;
  recvWindow : Z;
  sendWindow : Z;
  sendWindowRemaining : Z;
  protocol : option object;
  _outgoingBytes : bytes;
  _nagle : option nat;
  _retransmitter : option nat;
  disconnecting : bool;
  disconnected : bool;
  producer : option object;
  producerPaused : bool;
  streamingProducer : bool;
  _paused : bool;
  _ackTimer : option nat;
  wasEverListen : bool;
  _timeWaitCall : option nat;
  _closeWaitLoseConnection : option nat
}.

Definition set_retransmissionQueue (v : list PTCPPacket.t) (x : t) : t :=
  mk (oid x) (hostPseudoPort x) (peerPseudoPort x) (factory x) v
    (peerAddressTuple x) (oldestUnackedSendSeqNum x) (nextSendSeqNum x)
    (hostSendISN x) (nextRecvSeqNum x) (peerSendISN x) (setPeerISN x)
    (machine x) (mtu x) (recvWindow x) (sendWindow x) (sendWindowRemaining x)
    (protocol x) (_outgoingBytes x) (_nagle x) (_retransmitter x)
    (disconnecting x) (disconnected x) (producer x) (producerPaused x)
    (streamingProducer x) (_paused x) (_ackTimer x) (wasEverListen x)
    (_timeWaitCall x) (_closeWaitLoseConnection x).

Definition set_peerAddressTuple (v : option Addr) (x : t) : t :=
  mk (oid x) (hostPseudoPort x) (peerPseudoPort x) (factory x)
    (retransmissionQueue x) v (oldestUnackedSendSeqNum x) (nextSendSeqNum x)
    (hostSendISN x) (nextRecvSeqNum x) (peerSendISN x) (setPeerISN x)
    (machine x) (mtu x) (recvWindow x) (sendWindow x) (sendWindowRemaining x)
    (protocol x) (_outgoingBytes x) (_nagle x) (_retransmitter x)
    (disconnecting x) (disconnected x) (producer x) (producerPaused x)
    (streamingProducer x) (_paused x) (_ackTimer x) (wasEverListen x)
    (_timeWaitCall x) (_closeWaitLoseConnection x).

Definition set_oldestUnackedSendSeqNum (v : Z) (x : t) : t :=
  mk (oid x) (hostPseudoPort x) (peerPseudoPort x) (factory x)
    (retransmissionQueue x) (peerAddressTuple x) v (nextSendSeqNum x)
    (hostSendISN x) (nextRecvSeqNum x) (peerSendISN x) (setPeerISN x)
    (machine x) (mtu x) (recvWindow x) (sendWindow x) (sendWindowRemaining x)
    (protocol x) (_outgoingBytes x) (_nagle x) (_retransmitter x)
    (disconnecting x) (disconnected x) (producer x) (producerPaused x)
    (streamingProducer x) (_paused x) (_ackTimer x) (wasEverListen x)
    (_timeWaitCall x) (_closeWaitLoseConnection x).

Definition set_nextSendSeqNum (v : Z) (x : t) : t :=
  mk (oid x) (hostPseudoPort x) (peerPseudoPort x) (factory x)
    (retransmissionQueue x) (peerAddressTuple x) (oldestUnackedSendSeqNum x) v
    (hostSendISN x) (nextRecvSeqNum x) (peerSendISN x) (setPeerISN x)
    (machine x) (mtu x) (recvWindow x) (sendWindow x) (sendWindowRemaining x)
    (protocol x) (_outgoingBytes x) (_nagle x) (_retransmitter x)
    (disconnecting x) (disconnected x) (producer x) (producerPaused x)
    (streamingProducer x) (_paused x) (_ackTimer x) (wasEverListen x)
    (_timeWaitCall x) (_closeWaitLoseConnection x).

Definition set_nextRecvSeqNum (v : Z) (x : t) : t :=
  mk (oid x) (hostPseudoPort x) (peerPseudoPort x) (factory x)
    (retransmissionQueue x) (peerAddressTuple x) (oldestUnackedSendSeqNum x)
    (nextSendSeqNum x) (hostSendISN x) v (peerSendISN x) (setPeerISN x)
    (machine x) (mtu x) (recvWindow x) (sendWindow x) (sendWindowRemaining x)
    (protocol x) (_outgoingBytes x) (_nagle x) (_retransmitter x)
    (disconnecting x) (disconnected x) (producer x) (producerPaused x)
    (streamingProducer x) (_paused x) (_ackTimer x) (wasEverListen x)
    (_timeWaitCall x) (_closeWaitLoseConnection x).

Definition set_peerSendISN (v : Z) (x : t) : t :=
  mk (oid x) (hostPseudoPort x) (peerPseudoPort x) (factory x)
    (retransmissionQueue x) (peerAddressTuple x) (oldestUnackedSendSeqNum x)
    (nextSendSeqNum x) (hostSendISN x) (nextRecvSeqNum x) v (setPeerISN x)
    (machine x) (mtu x) (recvWindow x) (sendWindow x) (sendWindowRemaining x)
    (protocol x) (_outgoingBytes x) (_nagle x) (_retransmitter x)
    (disconnecting x) (disconnected x) (producer x) (producerPaused x)
    (streamingProducer x) (_paused x) (_ackTimer x) (wasEverListen x)
    (_timeWaitCall x) (_closeWaitLoseConnection x).

Definition set_setPeerISN (v : bool) (x : t) : t :=
  mk (oid x) (hostPseudoPort x) (peerPseudoPort x) (factory x)
    (retransmissionQueue x) (peerAddressTuple x) (oldestUnackedSendSeqNum x)
    (nextSendSeqNum x) (hostSendISN x) (nextRecvSeqNum x) (peerSendISN x) v
    (machine x) (mtu x) (recvWindow x) (sendWindow x) (sendWindowRemaining x)
    (protocol x) (_outgoingBytes x) (_nagle x) (_retransmitter x)
    (disconnecting x) (disconnected x) (producer x) (producerPaused x)
    (streamingProducer x) (_paused x) (_ackTimer x) (wasEverListen x)
    (_timeWaitCall x) (_closeWaitLoseConnection x).

Definition set_machine (v : TCP.State) (x : t) : t :=
  mk (oid x) (hostPseudoPort x) (peerPseudoPort x) (factory x)
    (retransmissionQueue x) (peerAddressTuple x) (oldestUnackedSendSeqNum x)
    (nextSendSeqNum x) (hostSendISN x) (nextRecvSeqNum x) (peerSendISN x)
    (setPeerISN x) v (mtu x) (recvWindow x) (sendWindow x)
    (sendWindowRemaining x) (protocol x) (_outgoingBytes x) (_nagle x)
    (_retransmitter x) (disconnecting x) (disconnected x) (producer x)
    (producerPaused x) (streamingProducer x) (_paused x) (_ackTimer x)
    (wasEverListen x) (_timeWaitCall x) (_closeWaitLoseConnection x).

Definition set_mtu (v : Z) (x : t) : t :=
  mk (oid x) (hostPseudoPort x) (peerPseudoPort x) (factory x)
    (retransmissionQueue x) (peerAddressTuple x) (oldestUnackedSendSeqNum x)
    (nextSendSeqNum x) (hostSendISN x) (nextRecvSeqNum x) (peerSendISN x)
    (setPeerISN x) (machine x) v (recvWindow x) (sendWindow x)
    (sendWindowRemaining x) (protocol x) (_outgoingBytes x) (_nagle x)
    (_retransmitter x) (disconnecting x) (disconnected x) (producer x)
    (producerPaused x) (streamingProducer x) (_paused x) (_ackTimer x)
    (wasEverListen x) (_timeWaitCall x) (_closeWaitLoseConnection x).

Definition set_sendWindowRemaining (v : Z) (x : t) : t :=
  mk (oid x) (hostPseudoPort x) (peerPseudoPort x) (factory x)
    (retransmissionQueue x) (peerAddressTuple x) (oldestUnackedSendSeqNum x)
    (nextSendSeqNum x) (hostSendISN x) (nextRecvSeqNum x) (peerSendISN x)
    (setPeerISN x) (machine x) (mtu x) (recvWindow x) (sendWindow x) v
    (protocol x) (_outgoingBytes x) (_nagle x) (_retransmitter x)
    (disconnecting x) (disconnected x) (producer x) (producerPaused x)
    (streamingProducer x) (_paused x) (_ackTimer x) (wasEverListen x)
    (_timeWaitCall x) (_closeWaitLoseConnection x).

Definition set_protocol (v : option object) (x : t) : t :=
  mk (oid x) (hostPseudoPort x) (peerPseudoPort x) (factory x)
    (retransmissionQueue x) (peerAddressTuple x) (oldestUnackedSendSeqNum x)
    (nextSendSeqNum x) (hostSendISN x) (nextRecvSeqNum x) (peerSendISN x)
    (setPeerISN x) (machine x) (mtu x) (recvWindow x) (sendWindow x)
    (sendWindowRemaining x) v (_outgoingBytes x) (_nagle x) (_retransmitter x)
    (disconnecting x) (disconnected x) (producer x) (producerPaused x)
    (streamingProducer x) (_paused x) (_ackTimer x) (wasEverListen x)
    (_timeWaitCall x) (_closeWaitLoseConnection x).

Definition set__outgoingBytes (v : bytes) (x : t) : t :=
  mk (oid x) (hostPseudoPort x) (peerPseudoPort x) (factory x)
    (retransmissionQueue x) (peerAddressTuple x) (oldestUnackedSendSeqNum x)
    (nextSendSeqNum x) (hostSendISN x) (nextRecvSeqNum x) (peerSendISN x)
    (setPeerISN x) (machine x) (mtu x) (recvWindow x) (sendWindow x)
    (sendWindowRemaining x) (protocol x) v (_nagle x) (_retransmitter x)
    (disconnecting x) (disconnected x) (producer x) (producerPaused x)
    (streamingProducer x) (_paused x) (_ackTimer x) (wasEverListen x)
    (_timeWaitCall x) (_closeWaitLoseConnection x).

Definition set__nagle (v : option nat) (x : t) : t :=
  mk (oid x) (hostPseudoPort x) (peerPseudoPort x) (factory x)
    (retransmissionQueue x) (peerAddressTuple x) (oldestUnackedSendSeqNum x)
    (nextSendSeqNum x) (hostSendISN x) (nextRecvSeqNum x) (peerSendISN x)
    (setPeerISN x) (machine x) (mtu x) (recvWindow x) (sendWindow x)
    (sendWindowRemaining x) (protocol x) (_outgoingBytes x) v
    (_retransmitter x) (disconnecting x) (disconnected x) (producer x)
    (producerPaused x) (streamingProducer x) (_paused x) (_ackTimer x)
    (wasEverListen x) (_timeWaitCall x) (_closeWaitLoseConnection x).

Definition set__retransmitter (v : option nat) (x : t) : t :=
  mk (oid x) (hostPseudoPort x) (peerPseudoPort x) (factory x)
    (retransmissionQueue x) (peerAddressTuple x) (oldestUnackedSendSeqNum x)
    (nextSendSeqNum x) (hostSendISN x) (nextRecvSeqNum x) (peerSendISN x)
    (setPeerISN x) (machine x) (mtu x) (recvWindow x) (sendWindow x)
    (sendWindowRemaining x) (protocol x) (_outgoingBytes x) (_nagle x) v
    (disconnecting x) (disconnected x) (producer x) (producerPaused x)
    (streamingProducer x) (_paused x) (_ackTimer x) (wasEverListen x)
    (_timeWaitCall x) (_closeWaitLoseConnection x).

Definition set_disconnecting (v : bool) (x : t) : t :=
  mk (oid x) (hostPseudoPort x) (peerPseudoPort x) (factory x)
    (retransmissionQueue x) (peerAddressTuple x) (oldestUnackedSendSeqNum x)
    (nextSendSeqNum x) (hostSendISN x) (nextRecvSeqNum x) (peerSendISN x)
    (setPeerISN x) (machine x) (mtu x) (recvWindow x) (sendWindow x)
    (sendWindowRemaining x) (protocol x) (_outgoingBytes x) (_nagle x)
    (_retransmitter x) v (disconnected x) (producer x) (producerPaused x)
    (streamingProducer x) (_paused x) (_ackTimer x) (wasEverListen x)
    (_timeWaitCall x) (_closeWaitLoseConnection x).

Definition set_disconnected (v : bool) (x : t) : t :=
  mk (oid x) (hostPseudoPort x) (peerPseudoPort x) (factory x)
    (retransmissionQueue x) (peerAddressTuple x) (oldestUnackedSendSeqNum x)
    (nextSendSeqNum x) (hostSendISN x) (nextRecvSeqNum x) (peerSendISN x)
    (setPeerISN x) (machine x) (mtu x) (recvWindow x) (sendWindow x)
    (sendWindowRemaining x) (protocol x) (_outgoingBytes x) (_nagle x)
    (_retransmitter x) (disconnecting x) v (producer x) (producerPaused x)
    (streamingProducer x) (_paused x) (_ackTimer x) (wasEverListen x)
    (_timeWaitCall x) (_closeWaitLoseConnection x).

Definition set_producer (v : option object) (x : t) : t :=
  mk (oid x) (hostPseudoPort x) (peerPseudoPort x) (factory x)
    (retransmissionQueue x) (peerAddressTuple x) (oldestUnackedSendSeqNum x)
    (nextSendSeqNum x) (hostSendISN x) (nextRecvSeqNum x) (peerSendISN x)
    (setPeerISN x) (machine x) (mtu x) (recvWindow x) (sendWindow x)
    (sendWindowRemaining x) (protocol x) (_outgoingBytes x) (_nagle x)
    (_retransmitter x) (disconnecting x) (disconnected x) v (producerPaused x)
    (streamingProducer x) (_paused x) (_ackTimer x) (wasEverListen x)
    (_timeWaitCall x) (_closeWaitLoseConnection x).

Definition set_producerPaused (v : bool) (x : t) : t :=
  mk (oid x) (hostPseudoPort x) (peerPseudoPort x) (factory x)
    (retransmissionQueue x) (peerAddressTuple x) (oldestUnackedSendSeqNum x)
    (nextSendSeqNum x) (hostSendISN x) (nextRecvSeqNum x) (peerSendISN x)
    (setPeerISN x) (machine x) (mtu x) (recvWindow x) (sendWindow x)
    (sendWindowRemaining x) (protocol x) (_outgoingBytes x) (_nagle x)
    (_retransmitter x) (disconnecting x) (disconnected x) (producer x) v
    (streamingProducer x) (_paused x) (_ackTimer x) (wasEverListen x)
    (_timeWaitCall x) (_closeWaitLoseConnection x).

Definition set_streamingProducer (v : bool) (x : t) : t :=
  mk (oid x) (hostPseudoPort x) (peerPseudoPort x) (factory x)
    (retransmissionQueue x) (peerAddressTuple x) (oldestUnackedSendSeqNum x)
    (nextSendSeqNum x) (hostSendISN x) (nextRecvSeqNum x) (peerSendISN x)
    (setPeerISN x) (machine x) (mtu x) (recvWindow x) (sendWindow x)
    (sendWindowRemaining x) (protocol x) (_outgoingBytes x) (_nagle x)
    (_retransmitter x) (disconnecting x) (disconnected x) (producer x)
    (producerPaused x) v (_paused x) (_ackTimer x) (wasEverListen x)
    (_timeWaitCall x) (_closeWaitLoseConnection x).

Definition set__paused (v : bool) (x : t) : t :=
  mk (oid x) (hostPseudoPort x) (peerPseudoPort x) (factory x)
    (retransmissionQueue x) (peerAddressTuple x) (oldestUnackedSendSeqNum x)
    (nextSendSeqNum x) (hostSendISN x) (nextRecvSeqNum x) (peerSendISN x)
    (setPeerISN x) (machine x) (mtu x) (recvWindow x) (sendWindow x)
    (sendWindowRemaining x) (protocol x) (_outgoingBytes x) (_nagle x)
    (_retransmitter x) (disconnecting x) (disconnected x) (producer x)
    (producerPaused x) (streamingProducer x) v (_ackTimer x) (wasEverListen x)
    (_timeWaitCall x) (_closeWaitLoseConnection x).

Definition set__ackTimer (v : option nat) (x : t) : t :=
  mk (oid x) (hostPseudoPort x) (peerPseudoPort x) (factory x)
    (retransmissionQueue x) (peerAddressTuple x) (oldestUnackedSendSeqNum x)
    (nextSendSeqNum x) (hostSendISN x) (nextRecvSeqNum x) (peerSendISN x)
    (setPeerISN x) (machine x) (mtu x) (recvWindow x) (sendWindow x)
    (sendWindowRemaining x) (protocol x) (_outgoingBytes x) (_nagle x)
    (_retransmitter x) (disconnecting x) (disconnected x) (producer x)
    (producerPaused x) (streamingProducer x) (_paused x) v (wasEverListen x)
    (_timeWaitCall x) (_closeWaitLoseConnection x).

Definition set_wasEverListen (v : bool) (x : t) : t :=
  mk (oid x) (hostPseudoPort x) (peerPseudoPort x) (factory x)
    (retransmissionQueue x) (peerAddressTuple x) (oldestUnackedSendSeqNum x)
    (nextSendSeqNum x) (hostSendISN x) (nextRecvSeqNum x) (peerSendISN x)
    (setPeerISN x) (machine x) (mtu x) (recvWindow x) (sendWindow x)
    (sendWindowRemaining x) (protocol x) (_outgoingBytes x) (_nagle x)
    (_retransmitter x) (disconnecting x) (disconnected x) (producer x)
    (producerPaused x) (streamingProducer x) (_paused x) (_ackTimer x) v
    (_timeWaitCall x) (_closeWaitLoseConnection x).

Definition set__timeWaitCall (v : option nat) (x : t) : t :=
  mk (oid x) (hostPseudoPort x) (peerPseudoPort x) (factory x)
    (retransmissionQueue x) (peerAddressTuple x) (oldestUnackedSendSeqNum x)
    (nextSendSeqNum x) (hostSendISN x) (nextRecvSeqNum x) (peerSendISN x)
    (setPeerISN x) (machine x) (mtu x) (recvWindow x) (sendWindow x)
    (sendWindowRemaining x) (protocol x) (_outgoingBytes x) (_nagle x)
    (_retransmitter x) (disconnecting x) (disconnected x) (producer x)
    (producerPaused x) (streamingProducer x) (_paused x) (_ackTimer x)
    (wasEverListen x) v (_closeWaitLoseConnection x).

Definition set__closeWaitLoseConnection (v : option nat) (x : t) : t :=
  mk (oid x) (hostPseudoPort x) (peerPseudoPort x) (factory x)
    (retransmissionQueue x) (peerAddressTuple x) (oldestUnackedSendSeqNum x)
    (nextSendSeqNum x) (hostSendISN x) (nextRecvSeqNum x) (peerSendISN x)
    (setPeerISN x) (machine x) (mtu x) (recvWindow x) (sendWindow x)
    (sendWindowRemaining x) (protocol x) (_outgoingBytes x) (_nagle x)
    (_retransmitter x) (disconnecting x) (disconnected x) (producer x)
    (producerPaused x) (streamingProducer x) (_paused x) (_ackTimer x)
    (wasEverListen x) (_timeWaitCall x) v.

(** Class attributes [mtu = 512 - _fixedSize], [recvWindow = mtu],
    [sendWindow = mtu], [sendWindowRemaining = mtu * 2], and [__init__]. *)
Definition class_mtu : Z := 512 - _fixedSize.

Definition init (oid : nat) (hostPseudoPort peerPseudoPort : Z)
    (factory : option object) (peerAddressTuple : option Addr) : t :=
  mk oid hostPseudoPort peerPseudoPort factory [] peerAddressTuple
     0 0 0 0 0 false TCP.closed
     class_mtu class_mtu class_mtu (class_mtu * 2)
     None [] None None false false None false false false None false None None.

End PTCPConnection.

(** ** [PTCP]: the multiplexer's attributes (after [startProtocol]) *)

Module PTCP.

(** [_allConnectionsClosed] is the [_PendingEvent] made by [__init__].  Its
    [listeners] are the Deferreds handed out by
    [waitForAllConnectionsToClose], the only caller of [deferred()], and each
    of them carries the same callback, [self._stop]: the list is kept as the
    number of its elements. *)
Record t := mk {
  factory : option object;
  _connections : gmap Key nat;
  transportGoneAway : bool;
  stopped : bool;
  _allConnectionsClosed : nat
}.

Definition set__connections (v : gmap Key nat) (x : t) : t :=
  mk (factory x) v (transportGoneAway x) (stopped x) (_allConnectionsClosed x).

Definition set_transportGoneAway (v : bool) (x : t) : t :=
  mk (factory x) (_connections x) v (stopped x) (_allConnectionsClosed x).

Definition set_stopped (v : bool) (x : t) : t :=
  mk (factory x) (_connections x) (transportGoneAway x) v
     (_allConnectionsClosed x).

Definition set__allConnectionsClosed (v : nat) (x : t) : t :=
  mk (factory x) (_connections x) (transportGoneAway x) (stopped x) v.

End PTCP.

(** ** Everything outside the connection objects: the multiplexer, the
    reactor's pending delayed calls, the calls made on collaborators so far
    (oldest first), [oracle], which says for each coming call made inside a
    [try] block whether it raises, and the module-level counter behind
    [genConnID]. *)

Record World := mkWorld {
  ptcp : PTCP.t;
  reactor : list (nat * Callback);
  next_call : nat;
  trace : list Effect;
  oracle : list bool;
  genConnID : Z
}.

Definition set_ptcp (v : PTCP.t) (x : World) : World :=
  mkWorld v (reactor x) (next_call x) (trace x) (oracle x) (genConnID x).

Definition set_reactor (v : list (nat * Callback)) (x : World) : World :=
  mkWorld (ptcp x) v (next_call x) (trace x) (oracle x) (genConnID x).

Definition set_next_call (v : nat) (x : World) : World :=
  mkWorld (ptcp x) (reactor x) v (trace x) (oracle x) (genConnID x).

Definition set_trace (v : list Effect) (x : World) : World :=
  mkWorld (ptcp x) (reactor x) (next_call x) v (oracle x) (genConnID x).

Definition set_oracle (v : list bool) (x : World) : World :=
  mkWorld (ptcp x) (reactor x) (next_call x) (trace x) v (genConnID x).

Definition set_genConnID (v : Z) (x : World) : World :=
  mkWorld (ptcp x) (reactor x) (next_call x) (trace x) (oracle x) v.

(** ** State and exceptions

    A method is a function from the state it runs in to its outcome and the
    state it leaves; a raised exception keeps the attribute updates made
    before it, as in Python. *)

Definition M (S A : Type) : Type := S -> Res A * S.

Definition ret {S A} (a : A) : M S A := fun s => (Ok a, s).

Definition bind {S A B} (m : M S A) (k : A -> M S B) : M S B :=
  fun s =>
    match m s with
    | (Ok a, s') => k a s'
    | (Raise e, s') => (Raise e, s')
    | (Hang, s') => (Hang, s')
    end.

Definition raise {S A} (e : Exn) : M S A := fun s => (Raise e, s).

Definition hang {S A} : M S A := fun s => (Hang, s).

Definition lift {S A} (r : Res A) : M S A := fun s => (r, s).

Definition get {S} : M S S := fun s => (Ok s, s).

Definition modify {S} (f : S -> S) : M S unit := fun s => (Ok tt, f s).

(** [try: body except: handler] with a bare [except]. *)
Definition try_except {S A} (body handler : M S A) : M S A :=
  fun s =>
    match body s with
    | (Raise _, s') => handler s'
    | r => r
    end.

(** [try: body except: handler else: orelse]. *)
Definition try_except_else {S A B} (body : M S A) (handler : M S B)
    (orelse : A -> M S B) : M S B :=
  fun s =>
    match body s with
    | (Ok a, s') => orelse a s'
    | (Raise _, s') => handler s'
    | (Hang, s') => (Hang, s')
    end.

Declare Scope M_scope.
Delimit Scope M_scope with M.
Notation "x ← y ; z" := (bind y (fun x => z))
  (at level 20, y at level 100, z at level 200, only parsing) : M_scope.
Notation "x ;; z" := (bind x (fun _ => z))
  (at level 100, z at level 200, only parsing, right associativity) : M_scope.
Local Open Scope M_scope.

Definition assert {S} (b : bool) : M S unit :=
  if b then ret tt else raise AssertionError.

Definition when {S} (b : bool) (m : M S unit) : M S unit :=
  if b then m else ret tt.

Module C := PTCPConnection.
Module P := PTCPPacket.

(** A method of a connection runs on the connection and the world; a method
    of the multiplexer, or a call on the reactor, runs on the world. *)
Definition ConnM (A : Type) : Type := M (C.t * World) A.
Definition WorldM (A : Type) : Type := M World A.

Definition self : ConnM C.t := fun s => (Ok (fst s), s).

Definition update (f : C.t -> C.t) : ConnM unit :=
  fun s => (Ok tt, (f (fst s), snd s)).

Definition in_world {A} (m : WorldM A) : ConnM A :=
  fun s => let '(r, w) := m (snd s) in (r, (fst s, w)).

Definition update_ptcp (f : PTCP.t -> PTCP.t) : WorldM unit :=
  modify (fun w => set_ptcp (f (ptcp w)) w).

(** A call on a collaborator that this code does not guard. *)
Definition effect (e : Effect) : WorldM unit :=
  modify (fun w => set_trace (trace w ++ [e]) w).

(** A call on a collaborator made inside a [try] block: [oracle] says whether
    it raises. *)
Definition guarded (e : Effect) : WorldM unit :=
  effect e;;
  w ← get;
  match oracle w with
  | [] => ret tt
  | raises :: rest =>
      modify (set_oracle rest);;
      if raises then raise ApplicationError else ret tt
  end.

(** *** The reactor: [callLater], [DelayedCall.cancel], [DelayedCall.reset] *)

Definition pending (id : nat) (w : World) : bool :=
  existsb (fun c => Nat.eqb (fst c) id) (reactor w).

Definition callLater (conn : nat) (f : CallbackKind) : WorldM nat :=
  w ← get;
  let id := next_call w in
  modify (fun w => set_next_call (S id) (set_reactor (reactor w ++ [(id, (conn, f))]) w));;
  ret id.

Definition cancel (id : nat) : WorldM unit :=
  w ← get;
  if pending id w
  then modify (set_reactor
                 (List.filter (fun c => negb (Nat.eqb (fst c) id)) (reactor w)))
  else raise AlreadyCalled.

Definition reset (id : nat) : WorldM unit :=
  w ← get;
  if pending id w then ret tt else raise AlreadyCalled.

(** *** [PTCP.sendPacket], [PTCP._stop], [PTCP.connectionClosed] *)

Definition PTCP_sendPacket (packet : P.t) : WorldM unit :=
  w ← get;
  if PTCP.transportGoneAway (ptcp w) then ret tt
  else
    datagram ← lift (P.encode packet);
    match P.destination packet with
    | Some destination => effect (transport_write datagram destination)
    | None => raise (AttributeError "destination")
    end.

Definition PTCP__stop : WorldM unit :=
  w ← get;
  if negb (PTCP.stopped (ptcp w)) then
    update_ptcp (PTCP.set_stopped true);;
    effect transport_stopListening
  else ret tt.

(** [d.callback(result)] for each of [listeners] Deferreds: the Deferred runs
    its first callback, [self._stop], and then what the application added. *)
Fixpoint fire_listeners (listeners : nat) : WorldM unit :=
  match listeners with
  | O => ret tt
  | S rest =>
      PTCP__stop;;
      effect allConnectionsClosed_callback;;
      fire_listeners rest
  end.

(** [_PendingEvent.callback]: [l = self.listeners; self.listeners = []] and
    then the loop over [l]. *)
Definition _PendingEvent_callback : WorldM unit :=
  w ← get;
  update_ptcp (PTCP.set__allConnectionsClosed 0);;
  fire_listeners (PTCP._allConnectionsClosed (ptcp w)).

(** [_PendingEvent.deferred]: a new Deferred joins the listeners. *)
Definition _PendingEvent_deferred : WorldM unit :=
  update_ptcp (fun p =>
    PTCP.set__allConnectionsClosed (S (PTCP._allConnectionsClosed p)) p).

Definition packey_of (ptcpConn : C.t) : Key :=
  (C.peerPseudoPort ptcpConn, C.hostPseudoPort ptcpConn,
   C.peerAddressTuple ptcpConn).

Definition no_connections (w : World) : bool :=
  bool_decide (PTCP._connections (ptcp w) = ∅).

Definition PTCP_connectionClosed (ptcpConn : C.t) : WorldM unit :=
  let packey := packey_of ptcpConn in
  w ← get;
  match PTCP._connections (ptcp w) !! packey with
  | None => raise KeyError
  | Some _ =>
      update_ptcp (fun p =>
        PTCP.set__connections (delete packey (PTCP._connections p)) p);;
      w ← get;
      when (negb (PTCP.transportGoneAway (ptcp w))
            && no_connections w
            && bool_decide (PTCP.factory (ptcp w) = None))
           PTCP__stop;;
      w ← get;
      when (no_connections w) _PendingEvent_callback
  end.

(** *** [PTCPConnection]: the outbound path *)

Definition currentAckNum : ConnM Z :=
  c ← self;
  ret ((C.nextRecvSeqNum c + C.peerSendISN c) mod 2 ^ 32).

Definition _retransmitLater : ConnM unit :=
  c ← self;
  match C._retransmitter c with
  | None =>
      call ← in_world (callLater (C.oid c) cb_reallyRetransmit);
      update (C.set__retransmitter (Some call))
  | Some _ => ret tt
  end.

Definition _writeBufferFull : ConnM unit :=
  c ← self;
  if bool_decide (C.producer c ≠ None) && negb (C.producerPaused c) then
    update (C.set_producerPaused true);;
    in_world (effect (producer_pauseProducing (C.oid c)))
  else ret tt.

Definition originate (data : bytes) (syn ack fin rst : bool) : ConnM P.t :=
  c ← self;
  match C._ackTimer c with
  | Some call =>
      in_world (cancel call);;
      update (C.set__ackTimer None)
  | None => ret tt
  end;;
  c ← self;
  when syn (assert (C.nextSendSeqNum c =? 0);;
            assert (C.hostSendISN c =? 0));;
  ackNum ← currentAckNum;
  let p := P.create (C.hostPseudoPort c) (C.peerPseudoPort c)
                    ((C.nextSendSeqNum c + C.hostSendISN c) mod 2 ^ 32)
                    ackNum data (C.recvWindow c)
                    syn ack fin rst false (C.peerAddressTuple c) in
  let sl := P.segmentLength p in
  update (fun c => C.set_nextSendSeqNum (C.nextSendSeqNum c + sl) c);;
  when (P.mustRetransmit p)
    (c ← self;
     match last (C.retransmissionQueue c) with
     | Some q => if P.fin q then raise AssertionError else ret tt
     | None => ret tt
     end;;
     update (fun c =>
       C.set_retransmissionQueue (C.retransmissionQueue c ++ [p]) c);;
     _retransmitLater;;
     c ← self;
     if C.sendWindowRemaining c =? 0 then _writeBufferFull else ret tt);;
  in_world (PTCP_sendPacket p);;
  ret p.

Definition _originateOneData : ConnM unit :=
  c ← self;
  let amount := Z.min (C.sendWindowRemaining c) (C.mtu c) in
  let sendOut := py_slice_to (C._outgoingBytes c) amount in
  update (C.set__outgoingBytes (py_slice_from (C._outgoingBytes c) amount));;
  update (fun c =>
    C.set_sendWindowRemaining (C.sendWindowRemaining c - len sendOut) c);;
  originate sendOut false true false false;;
  ret tt.

(** [while self.sendWindowRemaining and self._outgoingBytes], run with fuel:
    without fuel left and with the condition still true the loop is taken
    never to end. *)
Fixpoint _reallyWrite_loop (fuel : nat) : ConnM unit :=
  c ← self;
  if negb (C.sendWindowRemaining c =? 0)
     && negb (bool_decide (C._outgoingBytes c = []))
  then
    match fuel with
    | O => hang
    | S fuel' => _originateOneData;; _reallyWrite_loop fuel'
    end
  else ret tt.

Definition _reallyWrite : ConnM unit :=
  update (C.set__nagle None);;
  c ← self;
  if negb (bool_decide (C._outgoingBytes c = []))
  then _reallyWrite_loop (length (C._outgoingBytes c))
  else ret tt.

Definition _writeLater : ConnM unit :=
  c ← self;
  match C._nagle c with
  | None =>
      call ← in_world (callLater (C.oid c) cb_reallyWrite);
      update (C.set__nagle (Some call))
  | Some _ => ret tt
  end.

Definition write (data : bytes) : ConnM unit :=
  c ← self;
  assert (negb (C.disconnected c));;
  update (fun c => C.set__outgoingBytes (C._outgoingBytes c ++ data) c);;
  _writeLater.

Definition ackSoon : ConnM unit :=
  c ← self;
  match C._ackTimer c with
  | None =>
      call ← in_world (callLater (C.oid c) cb_originateAck);
      update (C.set__ackTimer (Some call))
  | Some call => in_world (reset call)
  end.

(** *** The methods the outputs of the automaton call *)

Definition outgoingConnectionFailed : ConnM unit :=
  c ← self;
  match C.factory c with
  | None => raise (AttributeError "clientConnectionFailed")
  | Some _ => in_world (effect (factory_clientConnectionFailed (C.oid c)))
  end.

Definition nowListeningSocket : ConnM unit :=
  update (C.set_wasEverListen true).

Definition _stopRetransmitting : ConnM unit :=
  c ← self;
  match C._retransmitter c with
  | Some call => in_world (cancel call);; update (C.set__retransmitter None)
  | None => ret tt
  end;;
  c ← self;
  match C._nagle c with
  | Some call => in_world (cancel call);; update (C.set__nagle None)
  | None => ret tt
  end;;
  c ← self;
  match C._closeWaitLoseConnection c with
  | Some call =>
      in_world (cancel call);; update (C.set__closeWaitLoseConnection None)
  | None => ret tt
  end.

Definition releaseConnectionResources : ConnM unit :=
  c ← self;
  in_world (PTCP_connectionClosed c);;
  _stopRetransmitting;;
  c ← self;
  match C._timeWaitCall c with
  | Some call => in_world (cancel call);; update (C.set__timeWaitCall None)
  | None => ret tt
  end;;
  c ← self;
  match C._ackTimer c with
  | Some call => in_world (cancel call);; update (C.set__ackTimer None)
  | None => ret tt
  end.

Definition scheduleTimeWaitTimeout : ConnM unit :=
  _stopRetransmitting;;
  c ← self;
  call ← in_world (callLater (C.oid c) cb_do2mslTimeout);
  update (C.set__timeWaitCall (Some call)).

Definition nowHalfClosed : ConnM unit :=
  c ← self;
  call ← in_world (callLater (C.oid c) cb_appCloseNow);
  update (C.set__closeWaitLoseConnection (Some call)).

Definition connectionJustEnded : ConnM unit :=
  c ← self;
  assert (negb (C.disconnected c));;
  update (C.set_disconnected true);;
  try_except
    (match C.protocol c with
     | None => raise (AttributeError "connectionLost")
     | Some _ => in_world (guarded (protocol_connectionLost (C.oid c)))
     end)
    (in_world (effect log_msg));;
  update (C.set_protocol None);;
  match C.producer c with
  | Some _ =>
      try_except
        (in_world (guarded (producer_stopProducing (C.oid c))))
        (in_world (effect log_msg));;
      update (C.set_producer None)
  | None => ret tt
  end.

(** The methods below can feed [appClose] to the automaton while an output of
    another input is still running; [machine_appClose] is that inner call. *)
Section Reentrant.

Variable machine_appClose : ConnM unit.

Definition _writeBufferEmpty : ConnM unit :=
  c ← self;
  if negb (bool_decide (C._outgoingBytes c = [])) then _reallyWrite
  else if bool_decide (C.producer c ≠ None) then
    if negb (C.streamingProducer c) || C.producerPaused c then
      update (C.set_producerPaused false);;
      in_world (effect (producer_resumeProducing (C.oid c)))
    else ret tt
  else if C.disconnecting c && negb (C.disconnected c) then machine_appClose
  else ret tt.

Definition loseConnection : ConnM unit :=
  c ← self;
  if negb (C.disconnecting c) then
    update (C.set_disconnecting true);;
    if bool_decide (C._outgoingBytes c = []) then _writeBufferEmpty
    else ret tt
  else ret tt.

Definition connectionJustEstablished : ConnM unit :=
  c ← self;
  assert (negb (C.disconnecting c));;
  assert (negb (C.disconnected c));;
  try_except_else
    (match C.factory c, C.peerAddressTuple c with
     | None, _ => raise (AttributeError "buildProtocol")
     | Some _, None => raise TypeError
     | Some _, Some _ =>
         in_world (guarded (factory_buildProtocol (C.oid c)));;
         in_world (guarded (protocol_makeConnection (C.oid c)));;
         ret (C.oid c)
     end)
    (in_world (effect log_msg);;
     in_world (effect log_msg);;
     loseConnection)
    (fun p => update (C.set_protocol (Some p))).

Definition run_output (o : TCP.Output) : ConnM unit :=
  match o with
  | TCP.sendSyn => originate [] true false false false;; ret tt
  | TCP.sendFin => originate [] false false true false;; ret tt
  | TCP.sendSynAck => originate [] true true false false;; ret tt
  | TCP.sendAck => originate [] false true false false;; ret tt
  | TCP.sendRst => originate [] false false false true;; ret tt
  | TCP.appNotifyConnected => connectionJustEstablished
  | TCP.appNotifyDisconnected => connectionJustEnded
  | TCP.releaseResources => releaseConnectionResources
  | TCP.startTimeWaiting => scheduleTimeWaitTimeout
  | TCP.appNotifyListen => nowListeningSocket
  | TCP.appNotifyHalfClose => nowHalfClosed
  | TCP.appNotifyAttemptFailed => outgoingConnectionFailed
  end.

Fixpoint run_outputs (os : list TCP.Output) : ConnM unit :=
  match os with
  | [] => ret tt
  | o :: rest => run_output o;; run_outputs rest
  end.

End Reentrant.

(** Feeding an input to the automaton, as automat does it: look the
    transition up, raise [NoTransition] when there is none, otherwise move to
    the new state and then run the outputs in order.  [depth] bounds how many
    inputs can be in progress at once; two is all the code ever nests. *)
Fixpoint machine_input (depth : nat) (i : TCP.Input) : ConnM unit :=
  match depth with
  | O => hang
  | S depth' =>
      c ← self;
      match TCP.outputForInput (C.machine c) i with
      | None => raise NoTransition
      | Some (enter, outputs) =>
          update (C.set_machine enter);;
          run_outputs (machine_input depth' TCP.appClose) outputs
      end
  end.

Definition feed (i : TCP.Input) : ConnM unit := machine_input 2 i.

(** [self.machine.<name>()]: the attribute is looked up on the [TCP] object. *)
Definition machine_call (name : string) : ConnM unit :=
  match TCP.input_named name with
  | Some i => feed i
  | None => raise (AttributeError name)
  end.

(** *** [PTCPConnection.packetReceived] *)

(** [for pkt in self.retransmissionQueue: rq.extend(pkt.fragment(self.mtu))] *)
Fixpoint refragment (queue : list P.t) (mtu : Z) : Res (list P.t) :=
  match queue with
  | [] => Ok []
  | pkt :: rest =>
      res_bind (P.fragment pkt mtu) (fun children =>
      res_bind (refragment rest mtu) (fun rq => Ok (children ++ rq)))
  end.

(** [while rq and rq[0].relativeSeq() + rq[0].segmentLength() <= relativeAck:
        self.sendWindowRemaining += rq.pop(0).segmentLength()]
    where [rq] is the connection's own queue object. *)
Fixpoint ack_drain (rq : list P.t) (relativeAck : Z) : ConnM unit :=
  match rq with
  | [] => ret tt
  | head :: rest =>
      if P.relativeSeq head + P.segmentLength head <=? relativeAck then
        update (C.set_retransmissionQueue rest);;
        update (fun c =>
          C.set_sendWindowRemaining
            (C.sendWindowRemaining c + P.segmentLength head) c);;
        ack_drain rest relativeAck
      else ret tt
  end.

(** The [if packet.stb:] block. *)
Definition shrink_mtu (packet : P.t) : ConnM unit :=
  fields ← lift (struct.unpack [struct.H] (P.data packet));
  match fields with
  | [mtu] =>
      update (C.set_mtu mtu);;
      c ← self;
      rq ← lift (refragment (C.retransmissionQueue c) (C.mtu c));
      update (C.set_retransmissionQueue rq)
  | _ => raise struct_error
  end.

(** The [if packet.syn:] block; the result says whether the method goes on
    ([false] is the [return] after a repeated SYN). *)
Definition syn_received (packet : P.t) : ConnM bool :=
  assert (P.segmentLength packet =? 1);;
  c ← self;
  match C.peerAddressTuple c with
  | None =>
      assert (C.wasEverListen c);;
      update (C.set_peerAddressTuple (P.peerAddressTuple packet))
  | Some _ =>
      assert (bool_decide (C.peerAddressTuple c = P.peerAddressTuple packet))
  end;;
  c ← self;
  if C.setPeerISN c then
    if negb (C.peerSendISN c =? P.seqNum packet) then raise BadPacketError
    else ret false
  else
    update (C.set_setPeerISN true);;
    update (C.set_peerSendISN (P.seqNum packet));;
    update (fun c =>
      C.set_nextRecvSeqNum (C.nextRecvSeqNum c + P.segmentLength packet) c);;
    when (negb (P.ack packet)) (machine_call "syn");;
    ret true.

(** The [if packet.ack and ackAcceptable(...)] block. *)
Definition ack_received (packet : P.t) : ConnM unit :=
  c ← self;
  if P.ack packet
     && ackAcceptable (C.oldestUnackedSendSeqNum c) (P.relativeAck packet)
                      (C.nextSendSeqNum c)
  then
    ack_drain (C.retransmissionQueue c) (P.relativeAck packet);;
    update (C.set_oldestUnackedSendSeqNum (P.relativeAck packet));;
    machine_call "maybeReceiveAck";;
    c ← self;
    if bool_decide (C.retransmissionQueue c = [])
    then _writeBufferEmpty (machine_call "appClose")
    else ret tt
  else ret tt.

(** From [if not packet.segmentLength():] to the end of the method. *)
Definition segment_received (packet : P.t) : ConnM unit :=
  if P.segmentLength packet =? 0 then assert (P.ack packet)
  else
    c ← self;
    acceptable ← lift (segmentAcceptable (C.nextRecvSeqNum c) (C.recvWindow c)
                         (P.relativeSeq packet) (P.segmentLength packet));
    if negb acceptable then ackSoon
    else if P.relativeSeq packet >? C.nextRecvSeqNum c then ret tt
    else
      when (negb (P.dlen packet =? 0))
        (let usefulData :=
           py_slice_from (P.data packet)
                         (C.nextRecvSeqNum c - P.relativeSeq packet) in
         machine_call "segmentReceived";;
         c ← self;
         match C.protocol c with
         | Some _ =>
             try_except
               (in_world (guarded (protocol_dataReceived (C.oid c) usefulData)))
               (in_world (effect log_msg);;
                loseConnection (machine_call "appClose"))
         | None => ret tt
         end);;
      update (fun c =>
        C.set_nextRecvSeqNum (C.nextRecvSeqNum c + P.segmentLength packet) c);;
      if P.fin packet then machine_call "fin"
      else if P.segmentLength packet >? 0 then ackSoon
      else ret tt.

Definition packetReceived (packet : P.t) : ConnM unit :=
  if P.stb packet then shrink_mtu packet
  else
    c ← self;
    if C._paused c then ret tt
    else if P.syn packet && negb (P.dlen packet =? 0) then raise BadPacketError
    else
      goes_on ← (if P.syn packet then syn_received packet else ret true);
      if goes_on then
        ack_received packet;;
        segment_received packet
      else ret tt.

(** *** Retransmission *)

(** The [for packet in self.retransmissionQueue] loop of [_reallyRetransmit]:
    [done] are the packets already walked (as they now are in the queue),
    [todo] the ones still to walk.  The result says whether the loop ran to
    its end ([false] is the [return] after [self.machine.timeout()]). *)
Fixpoint retransmit_walk (done todo : list P.t) : ConnM bool :=
  match todo with
  | [] => ret true
  | packet :: rest =>
      let packet := P.set_retransmitCount (P.retransmitCount packet - 1) packet in
      update (C.set_retransmissionQueue (done ++ packet :: rest));;
      if negb (P.retransmitCount packet =? 0) then
        ackNum ← currentAckNum;
        let packet := P.set_ackNum ackNum packet in
        update (C.set_retransmissionQueue (done ++ packet :: rest));;
        in_world (PTCP_sendPacket packet);;
        retransmit_walk (done ++ [packet]) rest
      else
        machine_call "timeout";;
        ret false
  end.

Definition _reallyRetransmit : ConnM unit :=
  update (C.set__retransmitter None);;
  c ← self;
  if negb (bool_decide (C.retransmissionQueue c = [])) then
    finished ← retransmit_walk [] (C.retransmissionQueue c);
    if finished then _retransmitLater else ret tt
  else ret tt.

(** *** The other delayed calls *)

Definition originateAck : ConnM unit :=
  update (C.set__ackTimer None);;
  originate [] false true false false;;
  ret tt.

Definition _do2mslTimeout : ConnM unit :=
  update (C.set__timeWaitCall None);;
  machine_call "timeout".

Definition appCloseNow : ConnM unit :=
  update (C.set__closeWaitLoseConnection None);;
  loseConnection (machine_call "appClose").

Definition run_callback (f : CallbackKind) : ConnM unit :=
  match f with
  | cb_reallyWrite => _reallyWrite
  | cb_reallyRetransmit => _reallyRetransmit
  | cb_originateAck => originateAck
  | cb_do2mslTimeout => _do2mslTimeout
  | cb_appCloseNow => appCloseNow
  end.

(** *** The producer and consumer interface *)

Definition registerProducer (producer : object) (streaming : bool)
  : ConnM unit :=
  c ← self;
  if bool_decide (C.producer c ≠ None) then raise RuntimeError
  else if C.disconnected c then
    in_world (effect (producer_stopProducing (C.oid c)))
  else
    update (C.set_producer (Some producer));;
    update (C.set_streamingProducer streaming);;
    when (negb streaming && bool_decide (C._outgoingBytes c = []))
         (in_world (effect (producer_resumeProducing (C.oid c)))).

Definition unregisterProducer : ConnM unit :=
  update (C.set_producer None);;
  c ← self;
  when (bool_decide (C._outgoingBytes c = []))
       (_writeBufferEmpty (machine_call "appClose")).

Definition pauseProducing : ConnM unit := update (C.set__paused true).

Definition resumeProducing : ConnM unit := update (C.set__paused false).

(** ** The multiplexer over all its connections

    Connection objects live in [heap], at the place their [oid] names; the
    map [_connections] and the reactor's delayed calls refer to them by that
    place.  An object taken out of the map stays in the heap, as a Python
    object stays alive while a delayed call still holds it. *)

Record System := mkSystem {
  heap : list C.t;
  world : World
}.

Definition SysM (A : Type) : Type := M System A.

Definition in_system {A} (m : WorldM A) : SysM A :=
  fun sys => let '(r, w) := m (world sys) in (r, mkSystem (heap sys) w).

(** A method called on the connection object at place [conn]. *)
Definition on_conn {A} (conn : nat) (m : ConnM A) : SysM A :=
  fun sys =>
    match heap sys !! conn with
    | Some c =>
        let '(r, (c', w')) := m (c, world sys) in
        (r, mkSystem (<[conn := c']> (heap sys)) w')
    | None => (Raise KeyError, sys)
    end.

(** [PTCPConnection(hostPseudoPort, peerPseudoPort, self, factory, addr)] *)
Definition new_connection (hostPseudoPort peerPseudoPort : Z)
    (factory : option object) (peerAddressTuple : option Addr) : SysM nat :=
  fun sys =>
    let conn := length (heap sys) in
    (Ok conn,
     mkSystem (heap sys ++ [C.init conn hostPseudoPort peerPseudoPort
                                   factory peerAddressTuple])
              (world sys)).

Definition set_connection (packey : Key) (conn : nat) : SysM unit :=
  in_system (update_ptcp (fun p =>
    PTCP.set__connections (<[packey := conn]> (PTCP._connections p)) p)).

(** [del self._connections[packey]] *)
Definition del_connection (packey : Key) : WorldM unit :=
  w ← get;
  match PTCP._connections (ptcp w) !! packey with
  | None => raise KeyError
  | Some _ =>
      update_ptcp (fun p =>
        PTCP.set__connections (delete packey (PTCP._connections p)) p)
  end.

Definition PTCP_connect (factory : object) (host : string)
    (port pseudoPort : Z) : SysM nat :=
  sys ← get;
  let sourcePseudoPort := genConnID (world sys) mod MAX_PSEUDO_PORT in
  in_system (modify (fun w => set_genConnID (genConnID w + 1) w));;
  conn ← new_connection sourcePseudoPort pseudoPort (Some factory)
                        (Some (host, port));
  set_connection (pseudoPort, sourcePseudoPort, Some (host, port)) conn;;
  on_conn conn (machine_call "appActiveOpen");;
  ret conn.

Definition PTCP_packetReceived (packet : P.t) : SysM unit :=
  let packey : Key := (P.sourcePseudoPort packet, P.destPseudoPort packet,
                       P.peerAddressTuple packet) in
  sys ← get;
  known ←
    match PTCP._connections (ptcp (world sys)) !! packey with
    | Some _ => ret true
    | None =>
        if (P.flags packet =? _SYN) && (P.destPseudoPort packet =? 1) then
          conn ← new_connection (P.destPseudoPort packet)
                                (P.sourcePseudoPort packet)
                                (PTCP.factory (ptcp (world sys)))
                                (P.peerAddressTuple packet);
          on_conn conn (machine_call "appPassiveOpen");;
          set_connection packey conn;;
          ret true
        else
          in_system (effect log_msg);;
          ret false
    end;
  if known then
    try_except
      (sys ← get;
       match PTCP._connections (ptcp (world sys)) !! packey with
       | Some conn => on_conn conn (packetReceived packet)
       | None => raise KeyError
       end)
      (in_system (effect log_msg);;
       in_system (effect log_msg);;
       in_system (del_connection packey))
  else ret tt.

Definition PTCP_datagramReceived (bs : bytes) (addr : Addr) : SysM unit :=
  if len bs <? _fixedSize then ret tt
  else
    pkt ← lift (P.decode bs (Some addr));
    match P.verifyChecksum pkt with
    | Raise TruncatedDataError =>
        payload ← lift (struct.pack [struct.H] [len (P.data pkt)]);
        in_system (PTCP_sendPacket
          (P.create (P.destPseudoPort pkt) (P.sourcePseudoPort pkt) 0 0
                    payload P.default_window
                    false false false false true (Some addr)))
    | Raise GarbageDataError => in_system (effect log_msg)
    | Raise (ChecksumMismatchError _ _) =>
        in_system (effect log_msg);;
        in_system (effect log_msg);;
        in_system (effect log_msg)
    | Raise e => raise e
    | Hang => hang
    | Ok _ => PTCP_packetReceived pkt
    end.

(** [for conn in self._connections.values(): conn.releaseConnectionResources()] *)
Fixpoint release_all (conns : list nat) : SysM unit :=
  match conns with
  | [] => ret tt
  | conn :: rest =>
      on_conn conn releaseConnectionResources;;
      release_all rest
  end.

Definition PTCP__finalCleanup : SysM unit :=
  sys ← get;
  release_all (map snd (map_to_list (PTCP._connections (ptcp (world sys)))));;
  sys ← get;
  assert (no_connections (world sys)).

Definition PTCP_stopProtocol : SysM unit :=
  in_system (update_ptcp (PTCP.set_transportGoneAway true));;
  PTCP__finalCleanup.

Definition PTCP_cleanupAndClose : SysM unit :=
  PTCP__finalCleanup;;
  in_system PTCP__stop.

Definition PTCP_waitForAllConnectionsToClose : SysM unit :=
  sys ← get;
  if no_connections (world sys) then in_system PTCP__stop
  else in_system _PendingEvent_deferred.

(** The reactor runs a pending delayed call. *)
Definition fire (call : nat) : SysM unit :=
  sys ← get;
  match List.find (fun c => Nat.eqb (fst c) call) (reactor (world sys)) with
  | None => ret tt
  | Some (_, (conn, f)) =>
      in_system (modify (fun w =>
        set_reactor
          (List.filter (fun c => negb (Nat.eqb (fst c) call)) (reactor w)) w));;
      on_conn conn (run_callback f)
  end.

(** ** What can happen to a running multiplexer *)

Inductive Event :=
  | datagram_arrives (bs : bytes) (addr : Addr)
  | timer_fires (call : nat)
  | app_connect (factory : object) (host : string) (port pseudoPort : Z)
  | app_write (conn : nat) (data : bytes)
  | app_loseConnection (conn : nat)
  | app_registerProducer (conn : nat) (producer : object) (streaming : bool)
  | app_unregisterProducer (conn : nat)
  | app_pauseProducing (conn : nat)
  | app_resumeProducing (conn : nat)
  | app_waitForAllConnectionsToClose
  | app_cleanupAndClose
  | transport_stopProtocol.

Definition handle (ev : Event) : SysM unit :=
  match ev with
  | datagram_arrives bs addr => PTCP_datagramReceived bs addr
  | timer_fires call => fire call
  | app_connect factory host port pseudoPort =>
      PTCP_connect factory host port pseudoPort;; ret tt
  | app_write conn data => on_conn conn (write data)
  | app_loseConnection conn =>
      on_conn conn (loseConnection (machine_call "appClose"))
  | app_registerProducer conn producer streaming =>
      on_conn conn (registerProducer producer streaming)
  | app_unregisterProducer conn => on_conn conn unregisterProducer
  | app_pauseProducing conn => on_conn conn pauseProducing
  | app_resumeProducing conn => on_conn conn resumeProducing
  | app_waitForAllConnectionsToClose => PTCP_waitForAllConnectionsToClose
  | app_cleanupAndClose => PTCP_cleanupAndClose
  | transport_stopProtocol => PTCP_stopProtocol
  end.

(** [PTCP(factory)] after [startProtocol], with nothing scheduled yet. *)
Definition started (factory : option object) (oracle : list bool) : System :=
  mkSystem []
    (mkWorld (PTCP.mk factory ∅ false false 0) [] 0 [] oracle 8).

(** The states a multiplexer can be in: an event whose handler returns, or
    raises into the reactor, leaves the next state. *)
Inductive reachable : System -> Prop :=
  | reachable_started factory oracle :
      reachable (started factory oracle)
  | reachable_step sys ev r sys' :
      reachable sys ->
      handle ev sys = (r, sys') ->
      r <> Hang ->
      reachable sys'.

(** ** Definitions used to state the properties *)

(** The header fields fit the widths of [_packetFormat] and the payload
    length fits the [dlen] field: what [struct.pack] needs in [encode]. *)
Definition encodable (p : P.t) : Prop :=
  0 <= P.sourcePseudoPort p < 2 ^ 16 /\
  0 <= P.destPseudoPort p < 2 ^ 16 /\
  0 <= P.seqNum p < 2 ^ 32 /\
  0 <= P.ackNum p < 2 ^ 32 /\
  0 <= P.window p < 2 ^ 32 /\
  0 <= P.flags p < 2 ^ 8 /\
  len (P.data p) < 2 ^ 16.

(** ** Concrete inputs for the examples *)

Definition example_peer : Addr := ("10.0.0.2"%string, 5000).

(** A five-byte data segment from pseudo-port 8 to pseudo-port 1. *)
Definition example_segment : P.t :=
  P.create 8 1 1 1 [x68; x65; x6c; x6c; x6f] 489
           false true false false false None.

(** Its datagram, cut after the second payload byte. *)
Definition example_truncated_datagram : bytes :=
  match P.encode example_segment with
  | Ok datagram => take 25 datagram
  | _ => []
  end.

(** Its whole datagram, as the peer's transport delivers it. *)
Definition example_datagram : bytes :=
  match P.encode example_segment with
  | Ok datagram => datagram
  | _ => []
  end.

(** The transition table of section 4.3 of the specification, row by row as
    written there: source state, input, target state, outputs.  The last row
    of the table, for the three states FinWait1, FinWait2 and Closing, is
    written once per state. *)
Definition spec_transition_table : list TCP.Transition :=
  [ TCP.upon TCP.closed TCP.appPassiveOpen TCP.listen [TCP.appNotifyListen]
  ; TCP.upon TCP.closed TCP.appActiveOpen TCP.synSent [TCP.sendSyn]
  ; TCP.upon TCP.synSent TCP.synAck TCP.established
      [TCP.sendAck; TCP.appNotifyConnected]
  ; TCP.upon TCP.synSent TCP.timeout TCP.closed
      [TCP.appNotifyAttemptFailed; TCP.releaseResources]
  ; TCP.upon TCP.synSent TCP.appClose TCP.closed
      [TCP.appNotifyAttemptFailed; TCP.releaseResources]
  ; TCP.upon TCP.listen TCP.syn TCP.synRcvd [TCP.sendSynAck]
  ; TCP.upon TCP.listen TCP.appSendData TCP.synSent [TCP.sendSyn]
  ; TCP.upon TCP.synRcvd TCP.ack TCP.established [TCP.appNotifyConnected]
  ; TCP.upon TCP.synRcvd TCP.appClose TCP.finWait1 [TCP.sendFin]
  ; TCP.upon TCP.synRcvd TCP.timeout TCP.closed
      [TCP.sendRst; TCP.releaseResources]
  ; TCP.upon TCP.synRcvd TCP.rst TCP.closed [TCP.releaseResources]
  ; TCP.upon TCP.established TCP.segmentReceived TCP.established [TCP.sendAck]
  ; TCP.upon TCP.established TCP.appClose TCP.finWait1
      [TCP.appNotifyDisconnected; TCP.sendFin]
  ; TCP.upon TCP.established TCP.fin TCP.closeWait
      [TCP.appNotifyHalfClose; TCP.sendAck]
  ; TCP.upon TCP.established TCP.timeout TCP.closed
      [TCP.appNotifyDisconnected; TCP.releaseResources]
  ; TCP.upon TCP.closeWait TCP.appClose TCP.lastAck
      [TCP.sendFin; TCP.appNotifyDisconnected]
  ; TCP.upon TCP.closeWait TCP.timeout TCP.closed
      [TCP.appNotifyDisconnected; TCP.releaseResources]
  ; TCP.upon TCP.lastAck TCP.ack TCP.closed [TCP.releaseResources]
  ; TCP.upon TCP.lastAck TCP.timeout TCP.closed [TCP.releaseResources]
  ; TCP.upon TCP.finWait1 TCP.ack TCP.finWait2 []
  ; TCP.upon TCP.finWait1 TCP.fin TCP.closing [TCP.sendAck]
  ; TCP.upon TCP.finWait1 TCP.timeout TCP.closed [TCP.releaseResources]
  ; TCP.upon TCP.finWait2 TCP.fin TCP.timeWait
      [TCP.sendAck; TCP.startTimeWaiting]
  ; TCP.upon TCP.finWait2 TCP.timeout TCP.closed [TCP.releaseResources]
  ; TCP.upon TCP.closing TCP.ack TCP.timeWait [TCP.startTimeWaiting]
  ; TCP.upon TCP.closing TCP.timeout TCP.closed [TCP.releaseResources]
  ; TCP.upon TCP.timeWait TCP.timeout TCP.closed [TCP.releaseResources]
  ; TCP.upon TCP.finWait1 TCP.segmentReceived TCP.finWait1 []
  ; TCP.upon TCP.finWait2 TCP.segmentReceived TCP.finWait2 []
  ; TCP.upon TCP.closing TCP.segmentReceived TCP.closing []
  ].

(** What each output of the automaton does: the body of its
    [@_machine.output()] method, a single call on the connection
    ([self._impl]).  A call made from inside one of these methods can feed
    [appClose] to the automaton again. *)
Definition output_method (o : TCP.Output) : ConnM unit :=
  match o with
  | TCP.sendSyn => originate [] true false false false;; ret tt
  | TCP.sendFin => originate [] false false true false;; ret tt
  | TCP.sendSynAck => originate [] true true false false;; ret tt
  | TCP.sendAck => originate [] false true false false;; ret tt
  | TCP.sendRst => originate [] false false false true;; ret tt
  | TCP.appNotifyConnected =>
      connectionJustEstablished (machine_call "appClose")
  | TCP.appNotifyDisconnected => connectionJustEnded
  | TCP.releaseResources => releaseConnectionResources
  | TCP.startTimeWaiting => scheduleTimeWaitTimeout
  | TCP.appNotifyListen => nowListeningSocket
  | TCP.appNotifyHalfClose => nowHalfClosed
  | TCP.appNotifyAttemptFailed => outgoingConnectionFailed
  end.

(** The methods of a row's outputs, called one after the other. *)
Definition output_methods (outputs : list TCP.Output) : ConnM unit :=
  fold_right (fun o rest => output_method o;; rest) (ret tt) outputs.

(** A client connection left in SynSent by [connect], on a multiplexer whose
    application will raise from the next call made to it inside a [try]. *)
Definition example_unlucky_client : System :=
  snd (PTCP_connect 3%nat "10.0.0.2" 5000 1 (started None [true])).

(** *** Cumulative acknowledgement, in the words of the specification *)

(** A queued segment is fully covered by a cumulative ack. *)
Definition covered (relativeAck : Z) (segment : P.t) : bool :=
  P.relativeSeq segment + P.segmentLength segment <=? relativeAck.

(** The segments at the front of the queue that are covered, and the rest of
    the queue from the first segment that is not. *)
Fixpoint acked_prefix (rq : list P.t) (relativeAck : Z) : list P.t :=
  match rq with
  | [] => []
  | segment :: rest =>
      if covered relativeAck segment
      then segment :: acked_prefix rest relativeAck
      else []
  end.

Fixpoint unacked_suffix (rq : list P.t) (relativeAck : Z) : list P.t :=
  match rq with
  | [] => []
  | segment :: rest =>
      if covered relativeAck segment
      then unacked_suffix rest relativeAck
      else rq
  end.

Definition total_segmentLength (segments : list P.t) : Z :=
  fold_right (fun segment n => P.segmentLength segment + n) 0 segments.

(** The connection once the acknowledged segments have left its queue. *)
Definition ack_applied (packet : P.t) (c : C.t) : C.t :=
  C.set_oldestUnackedSendSeqNum (P.relativeAck packet)
    (C.set_sendWindowRemaining
       (C.sendWindowRemaining c
        + total_segmentLength
            (acked_prefix (C.retransmissionQueue c) (P.relativeAck packet)))
       (C.set_retransmissionQueue
          (unacked_suffix (C.retransmissionQueue c) (P.relativeAck packet))
          c)).

(** The connection once a first SYN has been recorded. *)
Definition syn_recorded (packet : P.t) (c : C.t) : C.t :=
  if P.syn packet then
    C.set_nextRecvSeqNum (C.nextRecvSeqNum c + P.segmentLength packet)
      (C.set_peerSendISN (P.seqNum packet) (C.set_setPeerISN true c))
  else c.

(** The packets for which [packetReceived] gets as far as looking at the
    acknowledgement: not an STB advisory, the consumer not paused, and either
    no SYN, or a first SYN that carries ACK, no payload and no FIN and comes
    from the connection's peer. *)
Definition reaches_ack_processing (c : C.t) (packet : P.t) : Prop :=
  P.stb packet = false /\
  C._paused c = false /\
  (P.syn packet = false \/
   (P.ack packet = true /\
    P.dlen packet = 0 /\
    P.fin packet = false /\
    C.peerAddressTuple c <> None /\
    C.peerAddressTuple c = P.peerAddressTuple packet /\
    C.setPeerISN c = false)).

(** *** Retransmission, in the words of the specification *)

(** A queued packet after a timer firing that leaves it attempts: counter
    decremented, [ackNum] refreshed. *)
Definition refreshed (ackNum : Z) (packet : P.t) : P.t :=
  P.set_ackNum ackNum
    (P.set_retransmitCount (P.retransmitCount packet - 1) packet).

(** A queued packet whose last attempt is used up. *)
Definition expired (packet : P.t) : P.t :=
  P.set_retransmitCount (P.retransmitCount packet - 1) packet.

(** [sendPacket] called on each packet in turn. *)
Fixpoint send_all (packets : list P.t) : WorldM unit :=
  match packets with
  | [] => ret tt
  | packet :: rest => PTCP_sendPacket packet;; send_all rest
  end.

(** A client connection waiting in SynSent for the answer to its SYN. *)
Definition example_client : System :=
  snd (PTCP_connect 3%nat "10.0.0.2" 5000 1 (started None [])).

(** The peer's SYN+ACK for it. *)
Definition example_synack : P.t :=
  P.mk 1 8 0 1 489 3 0 0 [] (Some example_peer) 0 0 0 0 None 50.

(** A connection with three segments waiting for their acknowledgement: one
    that still has attempts, one on its last attempt, and a FIN behind it. *)
Definition example_pending : list P.t :=
  [ P.create 8 1 1 1 [x68; x69] 489 false true false false false
             (Some example_peer) ].

Definition example_due : P.t :=
  P.set_retransmitCount 1
    (P.create 8 1 3 1 [x68; x6f] 489 false true false false false
              (Some example_peer)).

Definition example_behind : list P.t :=
  [ P.create 8 1 5 1 [] 489 false true true false false (Some example_peer) ].

Definition example_sender : C.t :=
  C.set_machine TCP.established
    (C.set_nextSendSeqNum 6
       (C.set_oldestUnackedSendSeqNum 1
          (C.set_retransmissionQueue
             (example_pending ++ example_due :: example_behind)
             (C.init 0 8 1 (Some 3%nat) (Some example_peer))))).

(** *** What an operation keeps *)

(** [m] keeps [I]: started in a state where [I] holds, it ends, returning or
    raising, in a state where [I] holds. *)
Definition preserves {S A} (I : S -> Prop) (m : M S A) : Prop :=
  forall s, I s -> I (snd (m s)).

(** The part of a connection that the properties below are about: its
    identity in the map, its two send cursors and the state of its
    automaton. *)
Definition core (c : C.t) : Z * Z * option Addr * Z * Z * TCP.State :=
  (C.hostPseudoPort c, C.peerPseudoPort c, C.peerAddressTuple c,
   C.oldestUnackedSendSeqNum c, C.nextSendSeqNum c, C.machine c).

(** A property [J] of a connection and a property [K] of the multiplexer that
    only depend on [core] and on the multiplexer's attributes, and that
    sending (which moves [nextSendSeqNum] forward), closing a connection
    (which deletes a key and may stop the port) and waiting for all
    connections to close do not break. *)
Record stable (J : C.t -> Prop) (K : PTCP.t -> Prop) : Prop := {
  stable_core : forall c c', core c' = core c -> J c -> J c';
  stable_send : forall c n, 0 <= n ->
    J c -> J (C.set_nextSendSeqNum (C.nextSendSeqNum c + n) c);
  stable_delete : forall p k,
    K p -> K (PTCP.set__connections (delete k (PTCP._connections p)) p);
  stable_stop : forall p b, K p -> K (PTCP.set_stopped b p);
  stable_listeners : forall p n,
    K p -> K (PTCP.set__allConnectionsClosed n p)
}.

(** The inputs the connection code feeds to its automaton: every
    [self.machine.<input>()] call names one of these. *)
Definition fed (i : TCP.Input) : bool :=
  match i with
  | TCP.synAck | TCP.ack | TCP.rst | TCP.appSendData => false
  | _ => true
  end.

(** The same for the name in a [self.machine.<name>()] call; a name that is
    no input feeds nothing. *)
Definition fed_name (name : string) : bool :=
  match TCP.input_named name with
  | Some i => fed i
  | None => true
  end.

Definition both (J : C.t -> Prop) (K : PTCP.t -> Prop) (s : C.t * World) : Prop :=
  J (fst s) /\ K (ptcp (snd s)).

(** [0 <= SND.UNA <= SND.NXT]. *)
Definition send_cursors_ordered (c : C.t) : Prop :=
  0 <= C.oldestUnackedSendSeqNum c <= C.nextSendSeqNum c.

(** [J] holds of every connection object and [K] of the multiplexer. *)
Definition everywhere (J : C.t -> Prop) (K : PTCP.t -> Prop) (sys : System)
  : Prop :=
  Forall J (heap sys) /\ K (ptcp (world sys)).

(** The states a connection's automaton can be taken to by the inputs the
    connection code feeds. *)
Definition enterable (s : TCP.State) : bool :=
  match s with
  | TCP.closed | TCP.listen | TCP.synSent | TCP.synRcvd
  | TCP.finWait1 | TCP.closing => true
  | _ => false
  end.

(** Where a queued segment ends in the sequence space. *)
Definition segment_end (segment : P.t) : Z :=
  P.relativeSeq segment + P.segmentLength segment.

(** An acknowledgement of the first segment queued in [example_sender]. *)
Definition example_ack : P.t :=
  P.mk 1 8 1 3 489 2 0 0 [] (Some example_peer) 0 0 0 0 None 50.

(** A client that [connect] has left in SynSent and that its consumer has
    then paused. *)
Definition example_paused_client : System :=
  snd (handle (app_pauseProducing 0)
              (snd (handle (app_connect 3%nat "10.0.0.2" 5000 1)
                           (started None [])))).

(** A SYN from the peer that carries a byte of payload, as a datagram. *)
Definition example_syn_with_data : bytes :=
  match P.encode (P.create 1 8 0 0 [x61] 489 true false false false false None)
  with
  | Ok datagram => datagram
  | _ => []
  end.

(** A client whose connection the multiplexer has dropped from its map
    because that datagram made it raise; its SYN is still queued and its
    retransmit timer, delayed call 0, still armed. *)
Definition example_dropped_client : System :=
  snd (handle (datagram_arrives example_syn_with_data example_peer)
              (snd (handle (app_connect 3%nat "10.0.0.2" 5000 1)
                           (started None [])))).

(** The same once the datagram port has gone away. *)
Definition example_orphan_client : System :=
  snd (handle transport_stopProtocol example_dropped_client).


(** * Properties *)

(** ** Bytes and [struct] *)

Lemma Z_of_byte_range (b : byte) : 0 <= Z_of_byte b < 256.
Proof.
  unfold Z_of_byte. pose proof (Byte.to_N_bounded b). lia.
Qed.

Lemma Z_of_byte_of_Z (z : Z) : Z_of_byte (byte_of_Z z) = z mod 256.
Proof.
  unfold Z_of_byte, byte_of_Z.
  assert (Hr : 0 <= z mod 256 < 256) by (apply Z.mod_pos_bound; lia).
  destruct (Byte.of_N (Z.to_N (z mod 256))) as [b|] eqn:E.
  - apply Byte.to_of_N in E. rewrite E. lia.
  - apply Byte.of_N_None_iff in E. lia.
Qed.

Lemma len_nonneg {A} (l : list A) : 0 <= len l.
Proof. unfold len. lia. Qed.

Lemma len_app {A} (l1 l2 : list A) : len (l1 ++ l2) = len l1 + len l2.
Proof. unfold len. rewrite length_app. lia. Qed.

Lemma len_nil_iff {A} (l : list A) : len l = 0 <-> l = [].
Proof.
  unfold len. destruct l; simpl; split; intros E; try done; lia.
Qed.

Module struct_facts.
Import struct.

Lemma length_pack_be n v : length (pack_be n v) = n.
Proof. induction n; simpl; congruence. Qed.

Lemma fold_pack_be n v acc :
  fold_left (fun acc b => acc * 256 + Z_of_byte b) (pack_be n v) acc
  = acc * 256 ^ Z.of_nat n + v mod 256 ^ Z.of_nat n.
Proof.
  revert acc. induction n as [|n IH]; intros acc.
  - simpl. rewrite Z.mod_1_r. lia.
  - cbn [pack_be fold_left]. rewrite IH, Z_of_byte_of_Z.
    rewrite Nat2Z.inj_succ, Z.pow_succ_r by lia.
    assert (Hp : 0 < 256 ^ Z.of_nat n) by (apply Z.pow_pos_nonneg; lia).
    rewrite (Z.mul_comm 256 (256 ^ Z.of_nat n)).
    rewrite (Z.rem_mul_r v (256 ^ Z.of_nat n) 256) by lia.
    lia.
Qed.

Lemma unpack_pack_be n v : unpack_be (pack_be n v) = v mod 256 ^ Z.of_nat n.
Proof. unfold unpack_be. rewrite fold_pack_be. lia. Qed.

Lemma unpack_be_range bs : 0 <= unpack_be bs < 256 ^ len bs.
Proof.
  unfold unpack_be.
  enough (G : forall acc n, 0 <= acc < 256 ^ Z.of_nat n ->
            0 <= fold_left (fun acc b => acc * 256 + Z_of_byte b) bs acc
              < 256 ^ (Z.of_nat n + len bs)).
  { specialize (G 0 0%nat). simpl in G. apply G. lia. }
  induction bs as [|b bs IH]; intros acc n Hacc.
  - simpl. unfold len. simpl. rewrite Z.add_0_r. exact Hacc.
  - cbn [fold_left]. pose proof (Z_of_byte_range b) as Hb.
    specialize (IH (acc * 256 + Z_of_byte b) (S n)).
    replace (Z.of_nat n + len (b :: bs)) with (Z.of_nat (S n) + len bs)
      by (unfold len; simpl length; lia).
    apply IH. rewrite Nat2Z.inj_succ, Z.pow_succ_r by lia. lia.
Qed.

Lemma unpack1_pack_be c v :
  in_range c v = true -> unpack1 c (pack_be (size c) v) = v.
Proof.
  unfold in_range, unpack1. rewrite unpack_pack_be.
  destruct c; cbn [signed size]; intros Hr.
  1-3: apply andb_true_iff in Hr as [H1%Z.leb_le H2%Z.ltb_lt];
       apply Z.mod_small; simpl in *; lia.
  apply andb_true_iff in Hr as [H1%Z.leb_le H2%Z.ltb_lt].
  unfold to_signed. change (8 * Z.of_nat 4 - 1) with 31 in *.
  change (8 * Z.of_nat 4) with 32 in *. change (Z.of_nat 4) with 4.
  change (256 ^ 4) with (2 ^ 32).
  destruct (Z_lt_dec v 0) as [Hneg|Hpos].
  - replace (v mod 2 ^ 32) with (v + 2 ^ 32).
    + destruct (Z.ltb_spec (v + 2 ^ 32) (2 ^ 31)); lia.
    + symmetry. rewrite <- (Z.mod_add v 1 (2 ^ 32)) by lia.
      apply Z.mod_small. lia.
  - rewrite Z.mod_small by lia.
    destruct (Z.ltb_spec v (2 ^ 31)); lia.
Qed.

Lemma pack_length fmt vals bs :
  pack fmt vals = Ok bs -> len bs = calcsize fmt.
Proof.
  revert vals bs. induction fmt as [|c fmt IH]; intros [|v vals] bs; simpl;
    try discriminate.
  - intros [= <-]. reflexivity.
  - unfold pack1. destruct (in_range c v); simpl; [|discriminate].
    destruct (pack fmt vals) as [bs'| |] eqn:E; simpl; try discriminate.
    intros [= <-]. rewrite len_app, (IH _ _ E).
    unfold len. rewrite length_pack_be. reflexivity.
Qed.

Lemma unpack_fields_pack fmt vals bs rest :
  pack fmt vals = Ok bs -> unpack_fields fmt (bs ++ rest) = vals.
Proof.
  revert vals bs. induction fmt as [|c fmt IH]; intros [|v vals] bs; simpl;
    try discriminate.
  - reflexivity.
  - unfold pack1. destruct (in_range c v) eqn:Hr; simpl; [|discriminate].
    destruct (pack fmt vals) as [bs'| |] eqn:E; simpl; try discriminate.
    intros [= <-]. rewrite <- app_assoc.
    rewrite take_app_length', drop_app_length' by (symmetry; apply length_pack_be).
    rewrite unpack1_pack_be by exact Hr. f_equal. apply IH. exact E.
Qed.

Lemma pack_ok_iff fmt vals :
  (exists bs, pack fmt vals = Ok bs)
  <-> Forall2 (fun c v => in_range c v = true) fmt vals.
Proof.
  revert vals. induction fmt as [|c fmt IH]; intros [|v vals]; simpl.
  - split; [constructor | eauto].
  - split; [intros [? [=]] | inversion 1].
  - split; [intros [? [=]] | inversion 1].
  - unfold pack1. split.
    + intros [bs Hbs]. destruct (in_range c v) eqn:Hr; simpl in Hbs; [|done].
      constructor; [done|]. apply IH.
      destruct (pack fmt vals); simpl in Hbs; try done. eauto.
    + intros HF. apply Forall2_cons in HF as [Hr HF]. rewrite Hr. simpl.
      apply IH in HF as [bs' ->]. simpl. eauto.
Qed.

Lemma pack_not_hang fmt vals : pack fmt vals <> Hang.
Proof.
  revert vals. induction fmt as [|c fmt IH]; intros [|v vals]; simpl; try done.
  unfold pack1. destruct (in_range c v); simpl; [|done].
  specialize (IH vals). destruct (pack fmt vals); simpl; done.
Qed.

End struct_facts.

Lemma crc32_range data : - 2 ^ 31 <= binascii.crc32 data < 2 ^ 31.
Proof.
  unfold binascii.crc32, struct.to_signed.
  change (8 * Z.of_nat 4 - 1) with 31. change (8 * Z.of_nat 4) with 32.
  set (u := _ mod 2 ^ 32).
  assert (0 <= u < 2 ^ 32) by (apply Z.mod_pos_bound; lia).
  destruct (Z.ltb_spec u (2 ^ 31)); lia.
Qed.

(** ** The packet codec *)

Lemma fixedSize_eq : _fixedSize = 23.
Proof. reflexivity. Qed.

Lemma py_slice_to_app {A} (l1 l2 : list A) n :
  len l1 = n -> py_slice_to (l1 ++ l2) n = l1.
Proof.
  intros Hn. unfold py_slice_to, py_index. rewrite len_app.
  pose proof (len_nonneg l1). pose proof (len_nonneg l2).
  destruct (Z.ltb_spec n 0); [lia|].
  rewrite Z.min_l by lia. apply take_app_length'. unfold len in Hn. lia.
Qed.

Lemma py_slice_from_app {A} (l1 l2 : list A) n :
  len l1 = n -> py_slice_from (l1 ++ l2) n = l2.
Proof.
  intros Hn. unfold py_slice_from, py_index. rewrite len_app.
  pose proof (len_nonneg l1). pose proof (len_nonneg l2).
  destruct (Z.ltb_spec n 0); [lia|].
  rewrite Z.min_l by lia. apply drop_app_length'. unfold len in Hn. lia.
Qed.

Lemma decode_header_app header data a s d sq ak w f c dl :
  struct.pack _packetFormat [s; d; sq; ak; w; f; c; dl] = Ok header ->
  P.decode (header ++ data) a = Ok (P.init s d sq ak w f c dl data a).
Proof.
  intros Hp. pose proof (struct_facts.pack_length _ _ _ Hp) as Hl.
  unfold P.decode.
  rewrite py_slice_to_app, py_slice_from_app by exact Hl.
  unfold struct.unpack. fold _fixedSize. rewrite Hl, Z.eqb_refl.
  pose proof (struct_facts.unpack_fields_pack _ _ _ [] Hp) as Hu.
  rewrite app_nil_r in Hu. rewrite Hu. reflexivity.
Qed.

Lemma encodable_pack p :
  encodable p <->
  exists header,
    struct.pack _packetFormat
      [P.sourcePseudoPort p; P.destPseudoPort p; P.seqNum p; P.ackNum p;
       P.window p; P.flags p; binascii.crc32 (P.data p); len (P.data p)]
    = Ok header.
Proof.
  rewrite struct_facts.pack_ok_iff. unfold encodable, _packetFormat.
  pose proof (crc32_range (P.data p)). pose proof (len_nonneg (P.data p)).
  split.
  - intros (?&?&?&?&?&?&?).
    repeat constructor; unfold struct.in_range; simpl;
      apply andb_true_iff; split; (apply Z.leb_le || apply Z.ltb_lt); lia.
  - intros HF.
    repeat match goal with
           | H : Forall2 _ (_ :: _) _ |- _ =>
               apply Forall2_cons in H as [?%andb_true_iff ?]
           end.
    unfold struct.in_range in *; simpl in *.
    repeat match goal with
           | H : _ /\ _ |- _ => destruct H
           | H : (_ <=? _) = true |- _ => apply Z.leb_le in H
           | H : (_ <? _) = true |- _ => apply Z.ltb_lt in H
           end.
    repeat split; lia.
Qed.

Lemma encode_ok_iff p : encodable p <-> exists bs, P.encode p = Ok bs.
Proof.
  rewrite encodable_pack. unfold P.encode, P.computeChecksum. split.
  - intros [header ->]. simpl. eauto.
  - intros [bs Hbs].
    destruct (struct.pack _ _) as [header| |]; simpl in Hbs; try done. eauto.
Qed.

Lemma encode_not_hang p : P.encode p <> Hang.
Proof.
  unfold P.encode. pose proof (struct_facts.pack_not_hang _packetFormat
    [P.sourcePseudoPort p; P.destPseudoPort p; P.seqNum p; P.ackNum p;
     P.window p; P.flags p; P.computeChecksum p; len (P.data p)]) as Hn.
  destruct (struct.pack _ _); simpl; done.
Qed.

(** What [decode] returns on any datagram that passes the length gate of
    [datagramReceived]. *)
Lemma decode_long_enough bs a :
  _fixedSize <= len bs ->
  exists pkt,
    P.decode bs a = Ok pkt /\
    P.data pkt = drop 23 bs /\
    P.peerAddressTuple pkt = a /\
    0 <= P.sourcePseudoPort pkt < 2 ^ 16 /\
    0 <= P.destPseudoPort pkt < 2 ^ 16 /\
    0 <= P.dlen pkt < 2 ^ 16.
Proof.
  rewrite fixedSize_eq. intros Hl. unfold P.decode, struct.unpack.
  rewrite !fixedSize_eq.
  assert (Ht : len (py_slice_to bs 23) = 23).
  { unfold py_slice_to, py_index.
    destruct (Z.ltb_spec 23 0); [lia|]. rewrite Z.min_l by lia.
    unfold len in *. rewrite length_take. lia. }
  rewrite Ht. change (struct.calcsize _packetFormat) with 23.
  rewrite Z.eqb_refl. cbn [res_bind _packetFormat struct.unpack_fields].
  eexists. split; [reflexivity|]. cbn [P.data P.peerAddressTuple P.init
    P.sourcePseudoPort P.destPseudoPort P.dlen].
  assert (Hb : forall n (l : bytes),
             0 <= struct.unpack_be (take 2 (drop n l)) < 2 ^ 16).
  { intros n l. pose proof (struct_facts.unpack_be_range (take 2 (drop n l))) as Hr.
    assert (len (take 2 (drop n l)) <= 2)
      by (unfold len; rewrite length_take; lia).
    assert (256 ^ len (take 2 (drop n l)) <= 256 ^ 2)
      by (apply Z.pow_le_mono_r; [lia|]; exact H).
    change (256 ^ 2) with (2 ^ 16) in *. lia. }
  split; [|split; [reflexivity|]].
  - unfold py_slice_from, py_index.
    destruct (Z.ltb_spec 23 0); [lia|]. rewrite Z.min_l by lia. reflexivity.
  - unfold struct.unpack1. cbn [struct.signed struct.size].
    repeat split;
      first [ apply (Hb 0%nat) | rewrite ?drop_drop; apply Hb ].
Qed.

(** The packet [create] builds. *)
Lemma create_eq s d sq ak data w syn ack fin rst stb dest :
  P.create s d sq ak data w syn ack fin rst stb dest
  = P.mk s d sq ak w
         (Z.b2z syn * _SYN + Z.b2z ack * _ACK + Z.b2z fin * _FIN
          + Z.b2z rst * _RST + Z.b2z stb * _STB)
         (binascii.crc32 data) (len data) data None 0 0 0 0 (Some dest) 50.
Proof. destruct syn, ack, fin, rst, stb; reflexivity. Qed.

Lemma create_flags_range syn ack fin rst stb :
  0 <= Z.b2z syn * _SYN + Z.b2z ack * _ACK + Z.b2z fin * _FIN
       + Z.b2z rst * _RST + Z.b2z stb * _STB < 2 ^ 8.
Proof. destruct syn, ack, fin, rst, stb; vm_compute; split; congruence. Qed.

Lemma decode_too_short bs a : len bs < 23 -> P.decode bs a = Raise struct_error.
Proof.
  intros Hl. unfold P.decode, struct.unpack.
  replace (len (py_slice_to bs _fixedSize) =? struct.calcsize _packetFormat)
    with false; [reflexivity|].
  symmetry. apply Z.eqb_neq. unfold py_slice_to, py_index.
  rewrite fixedSize_eq. change (struct.calcsize _packetFormat) with 23.
  pose proof (len_nonneg bs).
  destruct (Z.ltb_spec 23 0); [lia|]. rewrite Z.min_r by lia.
  unfold len in *. rewrite length_take. lia.
Qed.

Lemma decode_ok_length bs a pkt : P.decode bs a = Ok pkt -> 23 <= len bs.
Proof.
  intros Hd. destruct (Z_lt_le_dec (len bs) 23) as [Hlt|Hle]; [|exact Hle].
  rewrite (decode_too_short bs a Hlt) in Hd. discriminate Hd.
Qed.

(** The datagram [encode] builds, and what [decode] makes of it. *)
Lemma encode_decode p a :
  encodable p ->
  exists header,
    struct.pack _packetFormat
      [P.sourcePseudoPort p; P.destPseudoPort p; P.seqNum p; P.ackNum p;
       P.window p; P.flags p; binascii.crc32 (P.data p); len (P.data p)]
      = Ok header /\
    P.encode p = Ok (header ++ P.data p) /\
    P.decode (header ++ P.data p) a =
      Ok (P.init (P.sourcePseudoPort p) (P.destPseudoPort p) (P.seqNum p)
                 (P.ackNum p) (P.window p) (P.flags p)
                 (binascii.crc32 (P.data p)) (len (P.data p)) (P.data p) a).
Proof.
  intros Hp. apply encodable_pack in Hp as [header Hh].
  exists header. split; [exact Hh|]. split.
  - unfold P.encode, P.computeChecksum. rewrite Hh. reflexivity.
  - apply (decode_header_app _ _ _ _ _ _ _ _ _ _ _ Hh).
Qed.

Lemma create_syn_fin s d sq ak data w syn ack fin rst stb dest :
  P.syn (P.create s d sq ak data w syn ack fin rst stb dest) = syn /\
  P.fin (P.create s d sq ak data w syn ack fin rst stb dest) = fin /\
  P.dlen (P.create s d sq ak data w syn ack fin rst stb dest) = len data.
Proof.
  rewrite create_eq. destruct syn, ack, fin, rst, stb; repeat split.
Qed.

Lemma create_segmentLength_nonneg s d sq ak data w syn ack fin rst stb dest :
  0 <= P.segmentLength (P.create s d sq ak data w syn ack fin rst stb dest).
Proof.
  unfold P.segmentLength.
  destruct (create_syn_fin s d sq ak data w syn ack fin rst stb dest)
    as (-> & -> & ->).
  pose proof (len_nonneg data). destruct syn, fin; cbn [Z.b2z]; lia.
Qed.

(** ** C2: the size of the wire header and the initial MTU *)

(** C2, as the code has it: [_fixedSize], the size [struct] computes for
    [_packetFormat], is 23; [encode] writes a 23-byte header before the
    payload; [decode] takes the payload from byte 23 on; [datagramReceived]
    ignores a datagram shorter than 23 bytes; and a new connection's [mtu]
    is 489 = 512 - 23. *)
Theorem header_is_23_bytes_and_mtu_489 :
  _fixedSize = 23 /\
  (forall p bs, P.encode p = Ok bs ->
     exists header, bs = header ++ P.data p /\ len header = 23) /\
  (forall bs a, 23 <= len bs ->
     exists pkt, P.decode bs a = Ok pkt /\ P.data pkt = drop 23 bs) /\
  (forall bs a, len bs < 23 -> P.decode bs a = Raise struct_error) /\
  (forall bs addr sys, len bs < 23 ->
     PTCP_datagramReceived bs addr sys = (Ok tt, sys)) /\
  (forall oid host peer factory addr,
     C.mtu (C.init oid host peer factory addr) = 489) /\
  489 = 512 - _fixedSize.
Proof.
  split; [reflexivity|]. split; [|split; [|split; [|split; [|split]]]].
  - intros p bs. unfold P.encode.
    destruct (struct.pack _ _) as [header| |] eqn:E; simpl; try done.
    intros [= <-]. exists header. split; [reflexivity|].
    apply struct_facts.pack_length in E. exact E.
  - intros bs a Hl.
    destruct (decode_long_enough bs a) as (pkt & Hd & Hdata & _).
    { rewrite fixedSize_eq. exact Hl. }
    eauto.
  - intros bs a Hl. unfold P.decode, struct.unpack.
    replace (len (py_slice_to bs _fixedSize) =? struct.calcsize _packetFormat)
      with false; [reflexivity|].
    symmetry. apply Z.eqb_neq. unfold py_slice_to, py_index.
    rewrite fixedSize_eq. change (struct.calcsize _packetFormat) with 23.
    pose proof (len_nonneg bs).
    destruct (Z.ltb_spec 23 0); [lia|]. rewrite Z.min_r by lia.
    unfold len in *. rewrite length_take. lia.
  - intros bs addr sys Hl. unfold PTCP_datagramReceived.
    rewrite fixedSize_eq.
    destruct (Z.ltb_spec (len bs) 23); [reflexivity | lia].
  - reflexivity.
  - reflexivity.
Qed.

Lemma header_is_23_bytes_and_mtu_489_witness :
  exists header,
    [x00; x08; x00; x01; x00; x00; x00; x00; x00; x00; x00; x00;
     x00; x00; x01; xe9; x01; x00; x00; x00; x00; x00; x00]
    = header ++ [] /\ len header = 23.
Proof.
  apply (proj1 (proj2 header_is_23_bytes_and_mtu_489)
           (P.create 8 1 0 0 [] 489 true false false false false None)).
  reflexivity.
Defined.

(** C2 as stated fails: the header [encode] writes for a SYN without payload
    is 23 bytes long, not 19, and a new connection's [mtu] is not 493. *)
Lemma header_is_not_19_bytes :
  exists bs,
    P.encode (P.create 8 1 0 0 [] 489 true false false false false None)
      = Ok bs /\
    len bs - len (@nil byte) <> 19 /\
    C.mtu (C.init 0 8 1 None None) <> 493.
Proof.
  eexists. split; [reflexivity|]. split; intros E; discriminate E.
Qed.

(** ** C10: [encode] recomputes [dlen] and [checksum] *)

(** C10, amended: for every packet whose header fields fit their wire widths
    and whose payload is shorter than 2^16 bytes, [encode] returns the header
    packed from the stored ports, sequence numbers, window and flags together
    with CRC-32 of the payload and the length of the payload (the stored
    [checksum] and [dlen] are not read), followed by the payload; decoding
    that datagram, from any peer address, gives a packet on which
    [verifyChecksum] returns without raising. *)
Theorem encode_recomputes_dlen_and_checksum (p : P.t) (a : option Addr) :
  encodable p ->
  exists header q,
    struct.pack _packetFormat
      [P.sourcePseudoPort p; P.destPseudoPort p; P.seqNum p; P.ackNum p;
       P.window p; P.flags p; binascii.crc32 (P.data p); len (P.data p)]
      = Ok header /\
    P.encode p = Ok (header ++ P.data p) /\
    P.decode (header ++ P.data p) a = Ok q /\
    P.dlen q = len (P.data p) /\
    P.checksum q = binascii.crc32 (P.data p) /\
    P.data q = P.data p /\
    P.verifyChecksum q = Ok tt.
Proof.
  intros Hp. apply encodable_pack in Hp as [header Hh].
  exists header. eexists. split; [exact Hh|]. split.
  { unfold P.encode, P.computeChecksum. rewrite Hh. reflexivity. }
  split; [apply (decode_header_app _ _ _ _ _ _ _ _ _ _ _ Hh)|].
  cbn [P.init P.dlen P.checksum P.data].
  repeat split.
  unfold P.verifyChecksum, P.computeChecksum. cbn [P.init P.dlen P.checksum P.data].
  rewrite !Z.eqb_refl. reflexivity.
Qed.

Lemma encode_recomputes_dlen_and_checksum_witness :
  exists header q,
    struct.pack _packetFormat [8; 1; 100; 7; 489; 2; binascii.crc32 [x68; x69];
                               len [x68; x69]] = Ok header /\
    P.encode (P.mk 8 1 100 7 489 2 12345 999 [x68; x69] None 0 0 0 0 None 50)
      = Ok (header ++ [x68; x69]) /\
    P.decode (header ++ [x68; x69]) None = Ok q /\
    P.dlen q = len [x68; x69] /\
    P.checksum q = binascii.crc32 [x68; x69] /\
    P.data q = [x68; x69] /\
    P.verifyChecksum q = Ok tt.
Proof.
  apply (encode_recomputes_dlen_and_checksum
           (P.mk 8 1 100 7 489 2 12345 999 [x68; x69] None 0 0 0 0 None 50) None).
  vm_compute. repeat split; first [reflexivity | intros E; discriminate E].
Defined.

(** C10 as stated fails: on a packet whose sequence number does not fit the
    32-bit field (as [fragment] can make one, which adds offsets without
    reducing modulo 2^32) [encode] raises [struct.error], so there is no
    datagram to decode and verify; the same happens for a payload of 2^16
    bytes or more. *)
Lemma encode_raises_on_wide_field :
  P.encode (P.create 8 1 (2 ^ 32) 0 [x61] 489 false true false false false None)
    = Raise struct_error /\
  (forall p, 2 ^ 16 <= len (P.data p) -> forall bs, P.encode p <> Ok bs).
Proof.
  split; [reflexivity|].
  intros p Hl bs Hbs.
  assert (He : encodable p) by (apply encode_ok_iff; eauto).
  unfold encodable in He. lia.
Qed.

(** ** C4: decoding an encoded packet *)

(** C4, amended: for every packet [p] whose header fields fit their wire
    widths, whose [dlen] equals the length of its payload and whose
    [checksum] equals CRC-32 of its payload, decoding [p.encode()] yields a
    packet with [p]'s ports, sequence and acknowledgement numbers, window,
    flags, checksum, [dlen] and payload, the peer address given to [decode],
    and the attributes that are not on the wire as [__init__] leaves them
    (offsets and laps 0, no destination, [retransmitCount] 50). *)
Theorem decode_encode_roundtrip (p : P.t) (a : option Addr) :
  encodable p ->
  P.dlen p = len (P.data p) ->
  P.checksum p = binascii.crc32 (P.data p) ->
  exists bs,
    P.encode p = Ok bs /\
    P.decode bs a =
      Ok (P.mk (P.sourcePseudoPort p) (P.destPseudoPort p) (P.seqNum p)
               (P.ackNum p) (P.window p) (P.flags p) (P.checksum p)
               (P.dlen p) (P.data p) a 0 0 0 0 None 50).
Proof.
  intros Hp Hd Hc.
  destruct (encode_decode p a Hp) as (header & Hh & He & Hq).
  exists (header ++ P.data p). split; [exact He|].
  rewrite Hq. unfold P.init. rewrite Hd, Hc. reflexivity.
Qed.

Lemma decode_encode_roundtrip_witness :
  exists bs,
    P.encode (P.create 8 1 100 7 [x68; x69] 489 false true false false false
                       (Some ("10.0.0.2"%string, 5000))) = Ok bs /\
    P.decode bs (Some ("10.0.0.1"%string, 4000)) =
      Ok (P.mk 8 1 100 7 489 2 (-661443924) 2 [x68; x69]
               (Some ("10.0.0.1"%string, 4000)) 0 0 0 0 None 50).
Proof.
  apply (decode_encode_roundtrip
           (P.create 8 1 100 7 [x68; x69] 489 false true false false false
                     (Some ("10.0.0.2"%string, 5000)))
           (Some ("10.0.0.1"%string, 4000))).
  - vm_compute. repeat split; first [reflexivity | intros E; discriminate E].
  - reflexivity.
  - reflexivity.
Defined.

(** C4 as stated fails: a packet with a valid [dlen] but a stored checksum
    that is not the CRC-32 of its payload does not come back from
    [decode(encode(...))] with the same checksum, and a decremented
    [retransmitCount] comes back as 50. *)
Lemma decode_encode_changes_checksum :
  let p := P.mk 8 1 0 0 489 2 0 1 [x61] None 0 0 0 0 None 49 in
  P.dlen p = len (P.data p) /\
  exists bs q,
    P.encode p = Ok bs /\
    P.decode bs (P.peerAddressTuple p) = Ok q /\
    P.checksum q <> P.checksum p /\
    P.retransmitCount q <> P.retransmitCount p.
Proof.
  split; [reflexivity|]. eexists. eexists.
  split; [reflexivity|]. split; [reflexivity|].
  split; intros E; discriminate E.
Qed.

(** ** C7: checksum verification and the reply to a truncated datagram *)

Lemma verifyChecksum_cases pkt :
  (P.verifyChecksum pkt = Raise TruncatedDataError
   <-> len (P.data pkt) < P.dlen pkt) /\
  (P.verifyChecksum pkt = Raise GarbageDataError
   <-> len (P.data pkt) > P.dlen pkt) /\
  ((exists expected received,
      P.verifyChecksum pkt = Raise (ChecksumMismatchError expected received))
   <-> len (P.data pkt) = P.dlen pkt
       /\ binascii.crc32 (P.data pkt) <> P.checksum pkt) /\
  (P.verifyChecksum pkt = Ok tt
   <-> len (P.data pkt) = P.dlen pkt
       /\ binascii.crc32 (P.data pkt) = P.checksum pkt).
Proof.
  unfold P.verifyChecksum, P.computeChecksum.
  destruct (Z.eqb_spec (len (P.data pkt)) (P.dlen pkt)) as [He|Hne]; simpl.
  - destruct (Z.eqb_spec (binascii.crc32 (P.data pkt)) (P.checksum pkt))
      as [Hc|Hc]; simpl.
    + split; [split; [intros E; discriminate E | lia]|].
      split; [split; [intros E; discriminate E | lia]|].
      split; [split; [intros (? & ? & E); discriminate E | intros [_ ?]; done]|].
      split; auto.
    + split; [split; [intros E; discriminate E | lia]|].
      split; [split; [intros E; discriminate E | lia]|].
      split; [split; [auto | eauto]|].
      split; [intros E; discriminate E | intros [_ ?]; done].
  - destruct (Z.gtb_spec (len (P.data pkt)) (P.dlen pkt)) as [Hg|Hg].
    + split; [split; [intros E; discriminate E | lia]|].
      split; [split; [lia | auto]|].
      split; [split; [intros (? & ? & E); discriminate E | intros [? _]; done]|].
      split; [intros E; discriminate E | intros [? _]; done].
    + split; [split; [lia | auto]|].
      split; [split; [intros E; discriminate E | lia]|].
      split; [split; [intros (? & ? & E); discriminate E | intros [? _]; done]|].
      split; [intros E; discriminate E | intros [? _]; done].
Qed.

(** C7: [verifyChecksum] raises [TruncatedDataError] exactly when the payload
    is shorter than [dlen], [GarbageDataError] exactly when it is longer, and
    [ChecksumMismatchError] exactly when the lengths agree and CRC-32 of the
    payload differs from the checksum field.  For a datagram that decodes:
    when the payload is truncated, [datagramReceived] does nothing but
    [sendPacket] an STB packet, addressed to the sender with the pseudo-ports
    swapped, whose two-byte payload is the big-endian length of the payload
    that arrived, and on a transport that has not gone away this writes
    exactly that packet's encoding to the sender; on garbage or a checksum
    mismatch it only prints: nothing is written to the transport and no
    connection or multiplexer state changes. *)
Theorem verifyChecksum_errors_and_stb_reply :
  (forall pkt,
     (P.verifyChecksum pkt = Raise TruncatedDataError
      <-> len (P.data pkt) < P.dlen pkt) /\
     (P.verifyChecksum pkt = Raise GarbageDataError
      <-> len (P.data pkt) > P.dlen pkt) /\
     ((exists expected received,
         P.verifyChecksum pkt = Raise (ChecksumMismatchError expected received))
      <-> len (P.data pkt) = P.dlen pkt
          /\ binascii.crc32 (P.data pkt) <> P.checksum pkt)) /\
  (forall bs addr sys pkt,
     P.decode bs (Some addr) = Ok pkt ->
     (len (P.data pkt) < P.dlen pkt ->
        let payload := struct.pack_be 2 (len (P.data pkt)) in
        let stb :=
          P.create (P.destPseudoPort pkt) (P.sourcePseudoPort pkt) 0 0 payload
                   P.default_window false false false false true (Some addr) in
        length payload = 2%nat /\
        struct.unpack_be payload = len (P.data pkt) /\
        P.flags stb = _STB /\
        PTCP_datagramReceived bs addr sys = in_system (PTCP_sendPacket stb) sys /\
        (PTCP.transportGoneAway (ptcp (world sys)) = false ->
           exists datagram,
             P.encode stb = Ok datagram /\
             PTCP_datagramReceived bs addr sys =
               (Ok tt,
                mkSystem (heap sys)
                  (set_trace
                     (trace (world sys) ++ [transport_write datagram (Some addr)])
                     (world sys))))) /\
     (len (P.data pkt) > P.dlen pkt
      \/ (len (P.data pkt) = P.dlen pkt
          /\ binascii.crc32 (P.data pkt) <> P.checksum pkt) ->
        exists prints,
          Forall (fun e => e = log_msg) prints /\
          PTCP_datagramReceived bs addr sys =
            (Ok tt,
             mkSystem (heap sys)
               (set_trace (trace (world sys) ++ prints) (world sys))))).
Proof.
  split.
  { intros pkt. pose proof (verifyChecksum_cases pkt). tauto. }
  intros bs addr sys pkt Hd.
  pose proof (decode_ok_length _ _ _ Hd) as Hlen.
  destruct (decode_long_enough bs (Some addr)) as (pkt' & Hd' & _ & _ & Hs & Hdst & Hdl).
  { rewrite fixedSize_eq. exact Hlen. }
  rewrite Hd in Hd'. injection Hd' as <-.
  destruct (verifyChecksum_cases pkt) as (HT & HG & HM & _).
  assert (Hgate : (len bs <? _fixedSize) = false)
    by (apply Z.ltb_ge; rewrite fixedSize_eq; exact Hlen).
  split.
  - intros Htr. pose proof (len_nonneg (P.data pkt)) as Hnn.
    assert (Hpack : struct.pack [struct.H] [len (P.data pkt)]
                    = Ok (struct.pack_be 2 (len (P.data pkt)))).
    { cbn [struct.pack]. unfold struct.pack1, struct.in_range.
      cbn [struct.signed struct.size].
      replace ((0 <=? len (P.data pkt)) && (len (P.data pkt) <? 2 ^ (8 * Z.of_nat 2)))
        with true.
      - cbn [res_bind]. rewrite app_nil_r. reflexivity.
      - symmetry. apply andb_true_iff.
        split; [apply Z.leb_le | apply Z.ltb_lt]; simpl; lia. }
    assert (Hrun : PTCP_datagramReceived bs addr sys =
                   in_system (PTCP_sendPacket
                     (P.create (P.destPseudoPort pkt) (P.sourcePseudoPort pkt) 0 0
                        (struct.pack_be 2 (len (P.data pkt))) P.default_window
                        false false false false true (Some addr))) sys).
    { unfold PTCP_datagramReceived. rewrite Hgate.
      unfold bind at 1, lift at 1. rewrite Hd.
      apply HT in Htr. rewrite Htr.
      unfold bind at 1, lift at 1. rewrite Hpack. reflexivity. }
    cbv zeta. split; [apply struct_facts.length_pack_be|].
    split.
    { rewrite struct_facts.unpack_pack_be. apply Z.mod_small.
      change (256 ^ Z.of_nat 2) with (2 ^ 16). lia. }
    split; [rewrite create_eq; reflexivity|]. split; [exact Hrun|].
    intros Hlive.
    set (stb := P.create _ _ 0 0 _ _ false false false false true _) in *.
    assert (He : encodable stb).
    { unfold encodable, stb. rewrite create_eq.
      cbn [P.sourcePseudoPort P.destPseudoPort P.seqNum P.ackNum P.window
           P.flags P.data].
      unfold len at 1. rewrite struct_facts.length_pack_be.
      pose proof (create_flags_range false false false false true).
      change P.default_window with 32768. simpl (Z.of_nat 2). lia. }
    apply encode_ok_iff in He as [datagram He]. exists datagram.
    split; [exact He|]. rewrite Hrun.
    unfold in_system, PTCP_sendPacket, bind, get, lift, effect, modify.
    rewrite Hlive, He. reflexivity.
  - intros [Hg | Hm].
    + apply HG in Hg. exists [log_msg]. split; [repeat constructor|].
      unfold PTCP_datagramReceived. rewrite Hgate.
      unfold bind at 1, lift at 1. rewrite Hd, Hg. reflexivity.
    + apply HM in Hm as (e & r & Hm).
      exists [log_msg; log_msg; log_msg]. split; [repeat constructor|].
      unfold PTCP_datagramReceived. rewrite Hgate.
      unfold bind at 1, lift at 1. rewrite Hd, Hm.
      unfold in_system, bind, effect, modify. simpl.
      rewrite <- !app_assoc. reflexivity.
Qed.

Lemma verifyChecksum_errors_and_stb_reply_witness :
  exists datagram,
    P.encode (P.create 1 8 0 0 [x00; x02] P.default_window
                       false false false false true (Some example_peer))
      = Ok datagram /\
    PTCP_datagramReceived example_truncated_datagram example_peer
                          (started None [])
    = (Ok tt,
       mkSystem []
         (set_trace [transport_write datagram (Some example_peer)]
                    (world (started None [])))).
Proof.
  destruct (proj2 verifyChecksum_errors_and_stb_reply
              example_truncated_datagram example_peer (started None [])
              (P.mk 8 1 1 1 489 2 907060870 5 [x68; x65] (Some example_peer)
                    0 0 0 0 None 50)) as [Htruncated _].
  { vm_compute. reflexivity. }
  destruct Htruncated as (_ & _ & _ & _ & Hlive).
  { vm_compute. reflexivity. }
  apply Hlive. reflexivity.
Defined.

(** ** The automaton *)

(** No two [upon] declarations are for the same state and input (automat
    would refuse the second), so the first match is the only one. *)
Lemma transitions_deterministic :
  NoDup (map (fun tr => (TCP.from tr, TCP.input tr)) TCP.transitions).
Proof. apply (bool_decide_unpack _). vm_compute. reflexivity. Qed.

(** Congruence of the combinators for pointwise equal computations. *)
Lemma bind_ext {S A B} (m m' : M S A) (k k' : A -> M S B) s :
  (forall s, m s = m' s) -> (forall a s, k a s = k' a s) ->
  bind m k s = bind m' k' s.
Proof.
  intros Hm Hk. unfold bind. rewrite Hm.
  destruct (m' s) as [[a| |] s']; auto.
Qed.

Lemma try_except_else_ext {S A B} (body : M S A) (h h' : M S B)
    (e e' : A -> M S B) s :
  (forall s, h s = h' s) -> (forall a s, e a s = e' a s) ->
  try_except_else body h e s = try_except_else body h' e' s.
Proof.
  intros Hh He. unfold try_except_else.
  destruct (body s) as [[a| |] s']; auto.
Qed.

(** The inner call [machine_appClose] only matters up to what it does. *)
Section Reentrant_ext.

Variables f g : ConnM unit.
Hypothesis fg : forall s, f s = g s.

Lemma _writeBufferEmpty_ext s : _writeBufferEmpty f s = _writeBufferEmpty g s.
Proof.
  unfold _writeBufferEmpty. apply bind_ext; [reflexivity|].
  intros c s'.
  repeat match goal with |- context [if ?b then _ else _] => destruct b end;
    auto.
Qed.

Lemma loseConnection_ext s : loseConnection f s = loseConnection g s.
Proof.
  unfold loseConnection. apply bind_ext; [reflexivity|].
  intros c s'. destruct (negb (C.disconnecting c)); [|reflexivity].
  apply bind_ext; [reflexivity|]. intros _ s''.
  destruct (bool_decide _); [apply _writeBufferEmpty_ext | reflexivity].
Qed.

Lemma connectionJustEstablished_ext s :
  connectionJustEstablished f s = connectionJustEstablished g s.
Proof.
  unfold connectionJustEstablished.
  apply bind_ext; [reflexivity|]. intros c s1.
  apply bind_ext; [reflexivity|]. intros _ s2.
  apply bind_ext; [reflexivity|]. intros _ s3.
  apply try_except_else_ext; [|reflexivity]. intros s4.
  apply bind_ext; [reflexivity|]. intros _ s5.
  apply bind_ext; [reflexivity|]. intros _ s6.
  apply loseConnection_ext.
Qed.

Lemma run_output_ext o s : run_output f o s = run_output g o s.
Proof. destruct o; simpl; auto using connectionJustEstablished_ext. Qed.

Lemma run_outputs_ext os s : run_outputs f os s = run_outputs g os s.
Proof.
  revert s. induction os as [|o os IH]; intros s; simpl; [reflexivity|].
  unfold bind. rewrite run_output_ext.
  destruct (run_output g o s) as [[[]| |] s']; auto.
Qed.

End Reentrant_ext.

(** The outputs of the transitions for [appClose] feed no further input, so
    one level of nesting is all an inner [appClose] needs. *)
Lemma machine_input_appClose_depth n s :
  machine_input (S n) TCP.appClose s = machine_input 1 TCP.appClose s.
Proof.
  destruct s as [c w]. cbn [machine_input]. unfold bind at 1, self at 1.
  cbn [fst]. unfold bind at 2, self at 1. cbn [fst].
  destruct (C.machine c); reflexivity.
Qed.

(** Two levels are all that any input needs. *)
Lemma machine_input_depth n i s :
  machine_input (S (S n)) i s = machine_input 2 i s.
Proof.
  destruct s as [c w].
  change (machine_input (S (S n)) i) with
    (c ← self;
     match TCP.outputForInput (C.machine c) i with
     | None => raise NoTransition
     | Some (enter, outputs) =>
         update (C.set_machine enter);;
         run_outputs (machine_input (S n) TCP.appClose) outputs
     end).
  change (machine_input 2 i) with
    (c ← self;
     match TCP.outputForInput (C.machine c) i with
     | None => raise NoTransition
     | Some (enter, outputs) =>
         update (C.set_machine enter);;
         run_outputs (machine_input 1 TCP.appClose) outputs
     end).
  unfold bind at 1 3, self. cbn [fst].
  destruct (TCP.outputForInput (C.machine c) i) as [[enter outs]|];
    [|reflexivity].
  unfold bind, update. cbn [fst snd].
  apply run_outputs_ext. intros s. apply machine_input_appClose_depth.
Qed.

Lemma machine_call_appClose s :
  machine_call "appClose" s = machine_input 1 TCP.appClose s.
Proof. apply (machine_input_appClose_depth 1). Qed.

(** Feeding an input: the transition is looked up, the automaton moves, and
    the outputs run in order. *)
Lemma feed_eq i c w :
  feed i (c, w) =
  match TCP.outputForInput (C.machine c) i with
  | None => (Raise NoTransition, (c, w))
  | Some (enter, outputs) =>
      run_outputs (machine_call "appClose") outputs (C.set_machine enter c, w)
  end.
Proof.
  unfold feed. cbn [machine_input]. unfold bind at 1, self at 1. cbn [fst].
  destruct (TCP.outputForInput (C.machine c) i) as [[enter outs]|];
    [|reflexivity].
  unfold bind, update. cbn [fst snd].
  apply run_outputs_ext. intros s. symmetry. apply machine_call_appClose.
Qed.

(** ** The transition table *)

(** The converse: the code declares no transition that the table lacks. *)
Lemma transitions_all_in_spec_table :
  forall tr, In tr TCP.transitions -> In tr spec_transition_table.
Proof.
  intros tr Hin. vm_compute in Hin. vm_compute.
  repeat (destruct Hin as [<-|Hin]; [tauto|]). destruct Hin.
Qed.

(** ** C6: fragmentation *)

Lemma py_slice_chunk (data : bytes) (offt chunksize : Z) :
  0 <= offt < len data -> 0 < chunksize ->
  py_slice data offt (offt + chunksize)
  = take (Z.to_nat chunksize) (drop (Z.to_nat offt) data).
Proof.
  intros Ho Hc. unfold py_slice, py_index.
  destruct (Z.ltb_spec offt 0); [lia|].
  destruct (Z.ltb_spec (offt + chunksize) 0); [lia|].
  rewrite (Z.min_l offt) by lia.
  destruct (Z.le_gt_cases (offt + chunksize) (len data)) as [Hle|Hgt].
  - rewrite Z.min_l by lia. f_equal. lia.
  - rewrite Z.min_r by lia. rewrite !take_ge; [reflexivity| |];
      rewrite length_drop; unfold len in *; lia.
Qed.

Lemma iterchunks_from_spec (data : bytes) (chunksize : Z) :
  0 < chunksize ->
  forall fuel offt,
    0 <= offt -> (length data - Z.to_nat offt <= fuel)%nat ->
    exists chunks,
      P.iterchunks_from fuel data chunksize offt = Some chunks /\
      concat chunks = drop (Z.to_nat offt) data /\
      Forall (fun chunk => 0 < len chunk <= chunksize) chunks.
Proof.
  intros Hc. induction fuel as [|fuel IH]; intros offt Ho Hfuel.
  - cbn [P.iterchunks_from].
    destruct (Z.ltb_spec offt (len data)) as [Hlt|Hge];
      [unfold len in *; lia|].
    exists []. rewrite drop_ge by (unfold len in *; lia). auto.
  - cbn [P.iterchunks_from].
    destruct (Z.ltb_spec offt (len data)) as [Hlt|Hge].
    + destruct (IH (offt + chunksize)) as (rest & -> & Hcat & Hall);
        [lia | unfold len in *; lia |].
      eexists. split; [reflexivity|]. rewrite py_slice_chunk by lia.
      split.
      * cbn [concat]. rewrite Hcat.
        replace (Z.to_nat (offt + chunksize))
          with (Z.to_nat offt + Z.to_nat chunksize)%nat by lia.
        rewrite <- drop_drop. apply take_drop.
      * constructor; [|exact Hall].
        unfold len in *. rewrite length_take, length_drop. lia.
    + exists []. rewrite drop_ge by (unfold len in *; lia). auto.
Qed.

Lemma iterchunks_spec (data : bytes) (chunksize : Z) :
  0 < chunksize ->
  exists chunks,
    P.iterchunks data chunksize = Some chunks /\
    concat chunks = data /\
    Forall (fun chunk => 0 < len chunk <= chunksize) chunks.
Proof.
  intros Hc. unfold P.iterchunks.
  destruct (iterchunks_from_spec data chunksize Hc (length data) 0)
    as (chunks & H1 & H2 & H3); [lia | simpl; lia |].
  eauto.
Qed.

Lemma map_take {A B} (f : A -> B) (l : list A) n :
  map f (take n l) = take n (map f l).
Proof.
  revert n. induction l as [|x l IH]; intros [|n]; simpl; congruence.
Qed.

Lemma fragment_children_data p dest chunks off :
  map P.data (P.fragment_children p dest chunks off) = chunks.
Proof.
  revert off. induction chunks as [|chunk rest IH]; intros off;
    cbn [P.fragment_children map]; [reflexivity|].
  rewrite IH, create_eq. reflexivity.
Qed.

Lemma fragment_children_lookup p dest chunks off i child :
  P.fragment_children p dest chunks off !! i = Some child ->
  exists chunk,
    chunks !! i = Some chunk /\
    child = P.create (P.sourcePseudoPort p) (P.destPseudoPort p)
              (P.seqNum p + (off + len (concat (take i chunks))))
              (P.ackNum p) chunk (P.window p)
              false (P.ack p) false false false dest.
Proof.
  revert off i. induction chunks as [|chunk rest IH]; intros off i;
    cbn [P.fragment_children]; [intros E; discriminate E|].
  destruct i as [|i]; cbn [lookup list_lookup].
  - intros [= <-]. exists chunk. split; [reflexivity|].
    cbn [take concat]. unfold len at 1. simpl length. do 2 f_equal. lia.
  - intros Hl. apply IH in Hl as (ch & Hch & ->). exists ch.
    split; [exact Hch|]. cbn [take concat]. rewrite len_app.
    do 2 f_equal. lia.
Qed.

(** Setting FIN on a child built without it gives the child built with it. *)
Lemma create_then_fin s d sq ak data w ack dest :
  let child := P.create s d sq ak data w false ack false false false dest in
  let child := P.flag_set _FIN true child in
  P.set_checksum (P.computeChecksum child) child
  = P.create s d sq ak data w false ack true false false dest.
Proof. destruct ack; reflexivity. Qed.

Lemma create_ack_fin s d sq ak data w ack fin dest :
  let child := P.create s d sq ak data w false ack fin false false dest in
  P.ack child = ack /\ P.fin child = fin /\ P.syn child = false.
Proof. rewrite create_eq. destruct ack, fin; repeat split. Qed.

(** C6, amended: for every packet [p] without SYN that has its
    [destination] attribute (every packet built by [create] has) and whose
    [dlen] is the length of its payload, and every [mtu > 0]: if
    [p.dlen < mtu], [p.fragment(mtu)] is [[p]]; otherwise it returns a
    non-empty list of children whose payloads concatenate to [p]'s payload,
    each child having as sequence number [p.seqNum] plus the total length of
    the payloads before it, [dlen] equal to the length of its own payload and
    at most [mtu], and [p]'s ack flag; a child has FIN exactly when [p] has
    FIN and the child is the last one. *)
Theorem fragment_children_properties (p : P.t) (mtu : Z)
    (destination : option Addr) :
  P.syn p = false ->
  0 < mtu ->
  P.dlen p = len (P.data p) ->
  P.destination p = Some destination ->
  (P.dlen p < mtu -> P.fragment p mtu = Ok [p]) /\
  (mtu <= P.dlen p ->
   exists L,
     P.fragment p mtu = Ok L /\
     L <> [] /\
     concat (map P.data L) = P.data p /\
     forall i child,
       L !! i = Some child ->
       P.seqNum child = P.seqNum p + len (concat (map P.data (take i L))) /\
       P.dlen child = len (P.data child) /\
       P.dlen child <= mtu /\
       P.ack child = P.ack p /\
       P.fin child = P.fin p && bool_decide (S i = length L)).
Proof.
  intros Hsyn Hmtu Hdlen Hdest. unfold P.fragment. split.
  { intros Hlt. destruct (Z.ltb_spec (P.dlen p) mtu); [reflexivity | lia]. }
  intros Hge. destruct (Z.ltb_spec (P.dlen p) mtu) as [|_]; [lia|].
  rewrite Hsyn. unfold P.fragment_loop. rewrite Hdest.
  destruct (iterchunks_spec (P.data p) mtu Hmtu) as (chunks & -> & Hcat & Hall).
  cbn [res_bind].
  assert (Hne : chunks <> []).
  { intros ->. simpl in Hcat. rewrite <- Hcat in Hdlen. unfold len in Hdlen.
    simpl in Hdlen. lia. }
  set (L0 := P.fragment_children p destination chunks 0).
  assert (Hdata0 : map P.data L0 = chunks) by apply fragment_children_data.
  assert (Hlen0 : length L0 = length chunks)
    by (apply (f_equal length) in Hdata0; rewrite length_map in Hdata0; exact Hdata0).
  assert (Hchild : forall i chunk fin,
            chunks !! i = Some chunk ->
            let child := P.create (P.sourcePseudoPort p) (P.destPseudoPort p)
                (P.seqNum p + (0 + len (concat (take i chunks))))
                (P.ackNum p) chunk (P.window p)
                false (P.ack p) fin false false destination in
            P.seqNum child = P.seqNum p + len (concat (take i chunks)) /\
            P.dlen child = len (P.data child) /\
            P.dlen child <= mtu /\
            P.ack child = P.ack p /\
            P.fin child = fin).
  { intros i chunk fin Hch child.
    destruct (create_ack_fin (P.sourcePseudoPort p) (P.destPseudoPort p)
                (P.seqNum p + (0 + len (concat (take i chunks))))
                (P.ackNum p) chunk (P.window p) (P.ack p) fin
                destination) as (Ha & Hf & _).
    fold child in Ha, Hf. split; [|split; [|split; [|split]]]; auto.
    - unfold child. rewrite create_eq. cbn [P.seqNum]. lia.
    - unfold child. rewrite create_eq. reflexivity.
    - unfold child. rewrite create_eq. cbn [P.dlen].
      apply list_elem_of_lookup_2 in Hch.
      rewrite Forall_forall in Hall. apply Hall in Hch. lia. }
  destruct (P.fin p) eqn:Hfin.
  - (* FIN moves to the last child *)
    destruct (last L0) as [l|] eqn:Hlast.
    2: { apply last_None in Hlast. apply (f_equal length) in Hlast.
         rewrite Hlen0 in Hlast. destruct chunks; [done | discriminate]. }
    apply last_Some in Hlast as [L1 HL0].
    rewrite HL0, removelast_last.
    assert (Hl : L0 !! length L1 = Some l).
    { rewrite HL0. rewrite lookup_app_r by lia.
      rewrite Nat.sub_diag. reflexivity. }
    apply fragment_children_lookup in Hl as (chunk & Hchunk & Hleq).
    pose proof (create_then_fin (P.sourcePseudoPort p) (P.destPseudoPort p)
                  (P.seqNum p + (0 + len (concat (take (length L1) chunks))))
                  (P.ackNum p) chunk (P.window p) (P.ack p)
                  destination) as Hfinset.
    cbv zeta in Hfinset. rewrite <- Hleq in Hfinset. rewrite Hfinset.
    set (l' := P.create _ _ _ _ chunk _ false _ true false false _) in *.
    assert (Hdl : P.data l' = P.data l)
      by (unfold l'; rewrite Hleq, !create_eq; reflexivity).
    assert (HdataL : map P.data (L1 ++ [l']) = chunks).
    { rewrite <- Hdata0, HL0, !map_app. cbn [map]. rewrite Hdl. reflexivity. }
    eexists. split; [reflexivity|].
    split; [intros E; apply app_eq_nil in E as [_ E]; discriminate E|].
    split; [rewrite HdataL; exact Hcat|].
    intros i child Hi. rewrite map_take, HdataL.
    rewrite length_app. cbn [length].
    destruct (Nat.lt_ge_cases i (length L1)) as [Hlt|Hgei].
    + rewrite lookup_app_l in Hi by exact Hlt.
      assert (Hi0 : L0 !! i = Some child)
        by (rewrite HL0, lookup_app_l by exact Hlt; exact Hi).
      apply fragment_children_lookup in Hi0 as (ch & Hch & ->).
      destruct (Hchild i ch false Hch) as (H1 & H2 & H3 & H4 & H5).
      repeat split; auto.
      rewrite bool_decide_eq_false_2 by lia. exact H5.
    + rewrite lookup_app_r in Hi by exact Hgei.
      destruct (i - length L1)%nat as [|k] eqn:Hk; [|destruct k; discriminate Hi].
      cbn in Hi. injection Hi as <-.
      assert (i = length L1) as -> by lia.
      destruct (Hchild (length L1) chunk true Hchunk) as (H1 & H2 & H3 & H4 & H5).
      repeat split; auto.
      rewrite bool_decide_eq_true_2 by lia. exact H5.
  - exists L0. split; [reflexivity|].
    split; [intros E; rewrite E in Hlen0; destruct chunks; [done|discriminate]|].
    split; [rewrite Hdata0; exact Hcat|].
    intros i child Hi. rewrite map_take, Hdata0.
    apply fragment_children_lookup in Hi as (ch & Hch & ->).
    destruct (Hchild i ch false Hch) as (H1 & H2 & H3 & H4 & H5).
    repeat split; auto.
Qed.

Lemma fragment_children_properties_witness :
  exists L,
    P.fragment (P.create 8 1 100 7 [x01; x02; x03; x04; x05] 489
                         false true true false false None) 2 = Ok L /\
    L <> [] /\
    concat (map P.data L) = [x01; x02; x03; x04; x05] /\
    forall i child,
      L !! i = Some child ->
      P.seqNum child = 100 + len (concat (map P.data (take i L))) /\
      P.dlen child = len (P.data child) /\
      P.dlen child <= 2 /\
      P.ack child = true /\
      P.fin child = true && bool_decide (S i = length L).
Proof.
  apply (fragment_children_properties
           (P.create 8 1 100 7 [x01; x02; x03; x04; x05] 489
                     false true true false false None) 2 None).
  - reflexivity.
  - lia.
  - reflexivity.
  - reflexivity.
  - vm_compute. intros E. discriminate E.
Defined.

(** C6 as stated fails on a packet that was not built by [create]: the
    constructor, and so [decode], does not bind [destination].  A received
    ACK segment with five bytes of payload and a correct [dlen] and checksum,
    decoded from its datagram, is such a packet; [fragment(2)] enters the
    splitting branch and raises [AttributeError] when the loop body reads
    [self.destination] for the first chunk. *)
Lemma fragment_raises_on_decoded_packet :
  exists p,
    P.decode example_datagram (Some example_peer) = Ok p /\
    P.verifyChecksum p = Ok tt /\
    P.dlen p = len (P.data p) /\
    P.syn p = false /\ 0 < 2 /\ ~ P.dlen p < 2 /\
    P.fragment p 2 = Raise (AttributeError "destination").
Proof.
  eexists. split; [vm_compute; reflexivity|].
  split; [vm_compute; reflexivity|].
  split; [vm_compute; reflexivity|].
  split; [vm_compute; reflexivity|]. split; [lia|].
  split; [vm_compute; intros E; discriminate E | vm_compute; reflexivity].
Qed.

(** ** C1: what happens to an acceptable ACK *)

Lemma acked_prefix_suffix rq relativeAck :
  rq = acked_prefix rq relativeAck ++ unacked_suffix rq relativeAck /\
  Forall (fun segment => covered relativeAck segment = true)
         (acked_prefix rq relativeAck) /\
  (forall segment, head (unacked_suffix rq relativeAck) = Some segment ->
     covered relativeAck segment = false).
Proof.
  induction rq as [|segment rest (IH1 & IH2 & IH3)]; cbn [acked_prefix unacked_suffix].
  - repeat split; [constructor | intros ? E; discriminate E].
  - destruct (covered relativeAck segment) eqn:Hc.
    + repeat split; [cbn; congruence | constructor; auto | exact IH3].
    + repeat split; [constructor|]. intros ? [= <-]. exact Hc.
Qed.

Lemma ack_drain_spec relativeAck w :
  forall rq c,
    C.retransmissionQueue c = rq ->
    ack_drain rq relativeAck (c, w) =
    (Ok tt,
     (C.set_sendWindowRemaining
        (C.sendWindowRemaining c
         + total_segmentLength (acked_prefix rq relativeAck))
        (C.set_retransmissionQueue (unacked_suffix rq relativeAck) c), w)).
Proof.
  induction rq as [|head rest IH]; intros c Hrq.
  - destruct c. cbn in *. subst. rewrite Z.add_0_r. reflexivity.
  - cbn [ack_drain acked_prefix unacked_suffix]. fold (covered relativeAck head).
    destruct (covered relativeAck head).
    + unfold bind at 1, update at 1. cbn [fst snd].
      unfold bind at 1, update at 1. cbn [fst snd].
      rewrite IH by reflexivity. cbn [total_segmentLength fold_right].
      rewrite (Z.add_assoc (C.sendWindowRemaining c)).
      destruct c. reflexivity.
    + destruct c. cbn in *. subst. rewrite Z.add_0_r. reflexivity.
Qed.

Lemma maybeReceiveAck_not_declared :
  ~ In "maybeReceiveAck"%string TCP.attributes /\
  TCP.input_named "maybeReceiveAck" = None.
Proof.
  split; [|reflexivity]. vm_compute.
  intros H; repeat (destruct H as [H|H]; [discriminate H|]); exact H.
Qed.

Lemma ack_received_raises packet c w :
  P.ack packet = true ->
  ackAcceptable (C.oldestUnackedSendSeqNum c) (P.relativeAck packet)
                (C.nextSendSeqNum c) = true ->
  ack_received packet (c, w)
  = (Raise (AttributeError "maybeReceiveAck"), (ack_applied packet c, w)).
Proof.
  intros Hack Hacc. unfold ack_received.
  unfold bind at 1, self at 1. cbn [fst]. rewrite Hack, Hacc. cbn [andb].
  unfold bind at 1. rewrite ack_drain_spec by reflexivity.
  unfold bind at 1, update at 1. cbn [fst snd].
  reflexivity.
Qed.

Lemma syn_received_first packet c w :
  P.syn packet = true ->
  P.ack packet = true ->
  P.dlen packet = 0 ->
  P.fin packet = false ->
  C.peerAddressTuple c <> None ->
  C.peerAddressTuple c = P.peerAddressTuple packet ->
  C.setPeerISN c = false ->
  syn_received packet (c, w) = (Ok true, (syn_recorded packet c, w)).
Proof.
  intros Hsyn Hack Hdlen Hfin Hsome Haddr Hisn.
  unfold syn_received, syn_recorded. rewrite Hsyn.
  assert (Hsl : P.segmentLength packet = 1)
    by (unfold P.segmentLength; rewrite Hsyn, Hfin, Hdlen; reflexivity).
  rewrite Hsl. unfold bind at 1, assert at 1. cbn [Z.eqb Pos.eqb ret].
  unfold bind at 1, self at 1. cbn [fst].
  destruct (C.peerAddressTuple c) as [addr|] eqn:Hpa; [|done].
  unfold bind at 1.
  rewrite bool_decide_eq_true_2 by exact Haddr.
  unfold assert at 1, ret at 1.
  unfold bind at 1, self at 1. cbn [fst]. rewrite Hisn.
  rewrite Hack. reflexivity.
Qed.

Lemma packetReceived_reaches_ack packet c w :
  reaches_ack_processing c packet ->
  packetReceived packet (c, w)
  = (ack_received packet;; segment_received packet)
      (syn_recorded packet c, w).
Proof.
  intros (Hstb & Hpaused & Hsyn). unfold packetReceived. rewrite Hstb.
  unfold bind at 1, self at 1. cbn [fst]. rewrite Hpaused.
  destruct Hsyn as [Hsyn | (Hack & Hdlen & Hfin & Hsome & Haddr & Hisn)].
  - unfold syn_recorded. rewrite Hsyn. reflexivity.
  - destruct (P.syn packet) eqn:Hsyn.
    + rewrite Hdlen. cbn [Z.eqb negb andb].
      unfold bind at 1. rewrite syn_received_first by assumption.
      reflexivity.
    + unfold syn_recorded. rewrite Hsyn. reflexivity.
Qed.

(** C1, as the code has it: for every connection and every received packet
    that gets to the acknowledgement processing with the ACK flag set and an
    acceptable ACK, [packetReceived] calls [self.machine.maybeReceiveAck],
    which [TCP] does not define: the call raises [AttributeError], neither
    [synAck] nor [ack] is fed, the automaton stays in the state it was in,
    and nothing is sent or scheduled. *)
Theorem acceptable_ack_raises_AttributeError (c : C.t) (w : World)
    (packet : P.t) :
  reaches_ack_processing c packet ->
  P.ack packet = true ->
  ackAcceptable (C.oldestUnackedSendSeqNum c) (P.relativeAck packet)
                (C.nextSendSeqNum c) = true ->
  ~ In "maybeReceiveAck"%string TCP.attributes /\
  exists c',
    packetReceived packet (c, w)
      = (Raise (AttributeError "maybeReceiveAck"), (c', w)) /\
    C.machine c' = C.machine c.
Proof.
  intros Hreach Hack Hacc.
  split; [apply maybeReceiveAck_not_declared|].
  exists (ack_applied packet (syn_recorded packet c)).
  rewrite packetReceived_reaches_ack by exact Hreach.
  assert (Hsame : C.oldestUnackedSendSeqNum (syn_recorded packet c)
                  = C.oldestUnackedSendSeqNum c /\
                  C.nextSendSeqNum (syn_recorded packet c) = C.nextSendSeqNum c /\
                  C.machine (syn_recorded packet c) = C.machine c)
    by (unfold syn_recorded; destruct (P.syn packet); repeat split).
  destruct Hsame as (Huna & Hnxt & Hm).
  unfold bind. rewrite ack_received_raises; [| exact Hack | rewrite Huna, Hnxt; exact Hacc].
  split; [reflexivity | exact Hm].
Qed.

Lemma acceptable_ack_raises_AttributeError_witness :
  ~ In "maybeReceiveAck"%string TCP.attributes /\
  exists c',
    packetReceived example_synack
      (C.set_machine TCP.synSent
         (C.set_nextSendSeqNum 1 (C.init 0 8 1 (Some 3%nat) (Some example_peer))),
       world example_client)
      = (Raise (AttributeError "maybeReceiveAck"), (c', world example_client)) /\
    C.machine c' = TCP.synSent.
Proof.
  apply (acceptable_ack_raises_AttributeError
           (C.set_machine TCP.synSent
              (C.set_nextSendSeqNum 1
                 (C.init 0 8 1 (Some 3%nat) (Some example_peer))))
           (world example_client) example_synack).
  - split; [reflexivity|]. split; [reflexivity|]. right.
    repeat split; try reflexivity. intros E; discriminate E.
  - reflexivity.
  - reflexivity.
Defined.

(** The same on the whole multiplexer: the client that [connect] left in
    SynSent receives the peer's SYN+ACK; the handshake does not complete, the
    automaton is still in SynSent, and the multiplexer, catching the
    exception, has dropped the connection from its map. *)
Lemma handshake_synack_drops_connection :
  exists datagram sys' c',
    P.encode example_synack = Ok datagram /\
    handle (datagram_arrives datagram example_peer) example_client
      = (Ok tt, sys') /\
    heap sys' !! 0%nat = Some c' /\
    C.machine c' = TCP.synSent /\
    PTCP._connections (ptcp (world sys')) = ∅.
Proof.
  eexists. eexists. eexists.
  split; [vm_compute; reflexivity|].
  split; [vm_compute; reflexivity|].
  split; [vm_compute; reflexivity|].
  split; vm_compute; reflexivity.
Qed.

(** ** The retransmit walk *)

Lemma set_retransmissionQueue_same c :
  C.set_retransmissionQueue (C.retransmissionQueue c) c = c.
Proof. destruct c. reflexivity. Qed.

Lemma set_trace_same w : set_trace (trace w) w = w.
Proof. destruct w. reflexivity. Qed.

(** The walk over the part of the queue whose packets keep an attempt. *)
Lemma retransmit_walk_resends ackNum pre :
  Forall (fun packet => P.retransmitCount packet - 1 <> 0) pre ->
  forall done rest c w w1,
    C.retransmissionQueue c = done ++ pre ++ rest ->
    (C.nextRecvSeqNum c + C.peerSendISN c) mod 2 ^ 32 = ackNum ->
    send_all (map (refreshed ackNum) pre) w = (Ok tt, w1) ->
    retransmit_walk done (pre ++ rest) (c, w)
    = retransmit_walk (done ++ map (refreshed ackNum) pre) rest
        (C.set_retransmissionQueue
           (done ++ map (refreshed ackNum) pre ++ rest) c, w1).
Proof.
  induction 1 as [|packet pre Hcount _ IH]; intros done rest c w w1 Hrq Hack Hsend.
  - cbn in Hsend. injection Hsend as <-. cbn [map app] in *.
    rewrite app_nil_r, <- Hrq, set_retransmissionQueue_same. reflexivity.
  - cbn [map send_all] in Hsend. unfold bind at 1 in Hsend.
    destruct (PTCP_sendPacket (refreshed ackNum packet) w)
      as [[[]| |] w'] eqn:Hfirst; try discriminate Hsend.
    cbn [app retransmit_walk].
    unfold bind at 1, update at 1. cbn [fst snd P.retransmitCount
                                         P.set_retransmitCount].
    apply Z.eqb_neq in Hcount. rewrite Hcount. cbn [negb].
    unfold bind at 1, currentAckNum at 1, bind at 1, self at 1, ret at 1.
    cbn [fst]. change (C.nextRecvSeqNum (C.set_retransmissionQueue _ c))
      with (C.nextRecvSeqNum c).
    change (C.peerSendISN (C.set_retransmissionQueue _ c))
      with (C.peerSendISN c).
    rewrite Hack.
    unfold bind at 1, update at 1. cbn [fst snd].
    unfold bind at 1, in_world at 1. cbn [fst snd].
    fold (refreshed ackNum packet). rewrite Hfirst.
    rewrite (IH (done ++ [refreshed ackNum packet]) rest _ w' w1);
      [ | cbn; rewrite <- app_assoc; reflexivity | exact Hack | exact Hsend ].
    rewrite <- !app_assoc. reflexivity.
Qed.

Lemma walk_timeout_tail (m k : ConnM unit) s :
  bind (bind m (fun _ => ret false))
       (fun finished : bool => if finished then k else ret tt) s
  = m s.
Proof. unfold bind. destruct (m s) as [[[]| |] s']; reflexivity. Qed.

(** A packet starts with [retransmitCount] 50, whether built by the
    constructor or by [create].  When the retransmit timer fires on a
    non-empty queue, the queue is walked from the front: every packet before
    the first one whose counter reaches zero has its counter decremented and
    its [ackNum] set to [currentAckNum()], and is handed to [sendPacket], in
    queue order; if a packet's counter reaches zero, its counter is
    decremented, [timeout] is fed to the automaton and the packets behind it
    are left as they were; if none does, the timer is armed again.  (The
    walk is followed as long as [sendPacket] returns.) *)
Theorem retransmit_timer_walks_queue :
  (forall s d sq ak w f ck dl data a,
     P.retransmitCount (P.init s d sq ak w f ck dl data a) = 50) /\
  (forall s d sq ak data w syn ack fin rst stb dest,
     P.retransmitCount (P.create s d sq ak data w syn ack fin rst stb dest)
     = 50) /\
  (forall c w w1 pre rest ackNum,
     C.retransmissionQueue c = pre ++ rest ->
     pre ++ rest <> [] ->
     Forall (fun packet => P.retransmitCount packet - 1 <> 0) pre ->
     (forall packet, head rest = Some packet ->
        P.retransmitCount packet - 1 = 0) ->
     currentAckNum (c, w) = (Ok ackNum, (c, w)) ->
     send_all (map (refreshed ackNum) pre) w = (Ok tt, w1) ->
     _reallyRetransmit (c, w) =
     match rest with
     | [] =>
         _retransmitLater
           (C.set_retransmissionQueue (map (refreshed ackNum) pre)
              (C.set__retransmitter None c), w1)
     | packet :: behind =>
         machine_call "timeout"
           (C.set_retransmissionQueue
              (map (refreshed ackNum) pre ++ expired packet :: behind)
              (C.set__retransmitter None c), w1)
     end).
Proof.
  split; [reflexivity|]. split; [intros; rewrite create_eq; reflexivity|].
  intros c w w1 pre rest ackNum Hrq Hne Hpre Hrest Hack Hsend.
  unfold currentAckNum, bind, self, ret in Hack. cbn [fst] in Hack.
  injection Hack as Hack.
  unfold _reallyRetransmit.
  unfold bind at 1, update at 1. cbn [fst snd].
  unfold bind at 1, self at 1. cbn [fst].
  change (C.retransmissionQueue (C.set__retransmitter None c))
    with (C.retransmissionQueue c).
  rewrite Hrq. rewrite bool_decide_eq_false_2 by exact Hne. cbn [negb].
  unfold bind at 1.
  rewrite (retransmit_walk_resends ackNum pre Hpre [] rest _ w w1);
    [ | exact Hrq | exact Hack | exact Hsend ].
  cbn [app]. destruct rest as [|packet behind].
  - cbn [retransmit_walk]. unfold ret at 1. rewrite app_nil_r. reflexivity.
  - cbn [retransmit_walk].
    unfold bind at 1, update at 1. cbn [fst snd P.retransmitCount
                                         P.set_retransmitCount].
    unfold expired. rewrite (Hrest packet eq_refl). cbn [Z.eqb negb].
    rewrite <- (walk_timeout_tail (machine_call "timeout") _retransmitLater).
    reflexivity.
Qed.

Lemma retransmit_timer_walks_queue_witness :
  _reallyRetransmit (example_sender, world (started None [])) =
  machine_call "timeout"
    (C.set_retransmissionQueue
       (map (refreshed 0) example_pending ++ expired example_due :: example_behind)
       (C.set__retransmitter None example_sender),
     snd (send_all (map (refreshed 0) example_pending)
                   (world (started None [])))).
Proof.
  apply (proj2 (proj2 retransmit_timer_walks_queue)
           example_sender (world (started None []))
           (snd (send_all (map (refreshed 0) example_pending)
                          (world (started None []))))
           example_pending (example_due :: example_behind) 0).
  - reflexivity.
  - intros E. discriminate E.
  - repeat constructor. vm_compute. intros E. discriminate E.
  - intros packet [= <-]. reflexivity.
  - reflexivity.
  - vm_compute. reflexivity.
Defined.

(** ** More on the packet codec *)

(** A packet built by [create] is consistent: its [dlen] is the length of
    its payload, its checksum verifies, its flags are exactly the ones asked
    for, and it starts with no peer address and fifty attempts. *)
Theorem created_packet_is_consistent s d sq ak data w syn ack fin rst stb dest :
  let p := P.create s d sq ak data w syn ack fin rst stb dest in
  P.verifyChecksum p = Ok tt /\
  P.dlen p = len data /\
  P.data p = data /\
  (P.syn p, P.ack p, P.fin p, P.rst p, P.stb p) = (syn, ack, fin, rst, stb) /\
  P.segmentLength p = len data + Z.b2z syn + Z.b2z fin /\
  P.destination p = Some dest /\
  P.peerAddressTuple p = None.
Proof.
  cbv zeta. rewrite create_eq.
  assert (Hflags : forall p, P.flags p =
            Z.b2z syn * _SYN + Z.b2z ack * _ACK + Z.b2z fin * _FIN
            + Z.b2z rst * _RST + Z.b2z stb * _STB ->
            (P.syn p, P.ack p, P.fin p, P.rst p, P.stb p)
            = (syn, ack, fin, rst, stb)).
  { intros p Hp. unfold P.syn, P.ack, P.fin, P.rst, P.stb, P.flag_get.
    rewrite Hp. destruct syn, ack, fin, rst, stb; reflexivity. }
  split.
  { unfold P.verifyChecksum, P.computeChecksum. cbn [P.data P.dlen P.checksum].
    rewrite !Z.eqb_refl. reflexivity. }
  split; [reflexivity|]. split; [reflexivity|].
  split; [apply Hflags; reflexivity|].
  split; [|split; reflexivity].
  unfold P.segmentLength.
  match goal with |- P.dlen ?p + _ + _ = _ =>
    pose proof (Hflags p eq_refl) as Hf end.
  injection Hf as -> _ -> _ _. reflexivity.
Qed.

(** For a packet whose [dlen] is not negative, [mustRetransmit] says exactly
    whether the segment takes up sequence space: a bare ACK, RST or STB is
    sent once and forgotten. *)
Theorem mustRetransmit_iff_takes_sequence_space (p : P.t) :
  0 <= P.dlen p ->
  (P.mustRetransmit p = true <-> 0 < P.segmentLength p).
Proof.
  intros Hd. unfold P.mustRetransmit, P.segmentLength.
  destruct (P.syn p), (P.fin p); cbn [orb Z.b2z];
    try (split; [intros _; lia | reflexivity]).
  destruct (Z.eqb_spec (P.dlen p) 0); cbn [negb]; split; intros H;
    try discriminate H; try lia; reflexivity.
Qed.

Lemma mustRetransmit_iff_takes_sequence_space_witness :
  P.mustRetransmit
    (P.create 8 1 0 0 [] 489 false true false false false None) = true
  <-> 0 < P.segmentLength
            (P.create 8 1 0 0 [] 489 false true false false false None).
Proof.
  apply (mustRetransmit_iff_takes_sequence_space
           (P.create 8 1 0 0 [] 489 false true false false false None)).
  vm_compute. intros E. discriminate E.
Defined.

(** ** Sequence predicates *)

(** [segmentAcceptable] is the four-case table of RFC 793 whenever the
    window and the segment length are not negative, and raises
    [AssertionError] (the [assert 0] at its end) exactly when one of them is
    negative. *)
Theorem segmentAcceptable_table (nxt wnd seq slen : Z) :
  (slen < 0 \/ wnd < 0 -> segmentAcceptable nxt wnd seq slen = Raise AssertionError) /\
  (0 <= slen -> 0 <= wnd ->
   exists acceptable,
     segmentAcceptable nxt wnd seq slen = Ok acceptable /\
     (acceptable = true <->
      (slen = 0 /\ wnd = 0 /\ seq = nxt) \/
      (slen = 0 /\ 0 < wnd /\ nxt <= seq < nxt + wnd) \/
      (0 < slen /\ 0 < wnd /\
       (nxt <= seq < nxt + wnd \/ nxt <= seq + slen - 1 < nxt + wnd)))).
Proof.
  unfold segmentAcceptable. split.
  - intros Hneg.
    destruct (Z.eqb_spec slen 0), (Z.eqb_spec wnd 0), (Z.gtb_spec slen 0),
      (Z.gtb_spec wnd 0); cbn [andb]; try reflexivity; lia.
  - intros Hl Hw.
    destruct (Z.eqb_spec slen 0), (Z.eqb_spec wnd 0), (Z.gtb_spec slen 0),
      (Z.gtb_spec wnd 0); cbn [andb]; try lia;
      (eexists; split; [reflexivity|]);
      rewrite ?orb_true_iff, ?andb_true_iff, ?Z.eqb_eq, ?Z.leb_le, ?Z.ltb_lt;
      try (split; [intros E; discriminate E | lia]); lia.
Qed.

Lemma segmentAcceptable_table_witness :
  exists acceptable,
    segmentAcceptable 10 489 10 5 = Ok acceptable /\
    (acceptable = true <->
     (5 = 0 /\ 489 = 0 /\ 10 = 10) \/
     (5 = 0 /\ 0 < 489 /\ 10 <= 10 < 10 + 489) \/
     (0 < 5 /\ 0 < 489 /\
      (10 <= 10 < 10 + 489 \/ 10 <= 10 + 5 - 1 < 10 + 489))).
Proof.
  apply (proj2 (segmentAcceptable_table 10 489 10 5)); lia.
Defined.

(** ** [PTCPConnection.packetReceived]: the guards before the payload *)

(** While the consumer has paused the connection, every packet that is not
    an STB advisory is dropped: nothing about the connection or the world
    changes, whatever the packet carries. *)
Theorem paused_connection_drops_packets (c : C.t) (w : World) (packet : P.t) :
  P.stb packet = false ->
  C._paused c = true ->
  packetReceived packet (c, w) = (Ok tt, (c, w)).
Proof.
  intros Hstb Hp. unfold packetReceived. rewrite Hstb.
  unfold bind, self. cbn [fst]. rewrite Hp. reflexivity.
Qed.

Lemma paused_connection_drops_packets_witness :
  packetReceived example_synack
    (C.set__paused true example_sender, world (started None []))
  = (Ok tt, (C.set__paused true example_sender, world (started None []))).
Proof.
  apply (paused_connection_drops_packets
           (C.set__paused true example_sender) (world (started None []))
           example_synack); reflexivity.
Defined.

(** On a connection that is not paused, a packet with the SYN flag, without
    the STB flag and with a [dlen] other than zero is refused with
    [BadPacketError] before anything is recorded: the connection and the
    world are left as they were.  (An STB packet is taken as an MTU advisory
    before this check, and a paused connection drops the packet.) *)
Theorem syn_with_data_is_refused (c : C.t) (w : World) (packet : P.t) :
  P.stb packet = false ->
  C._paused c = false ->
  P.syn packet = true ->
  P.dlen packet <> 0 ->
  packetReceived packet (c, w) = (Raise BadPacketError, (c, w)).
Proof.
  intros Hstb Hp Hsyn Hd. unfold packetReceived. rewrite Hstb.
  unfold bind, self. cbn [fst]. rewrite Hp, Hsyn.
  apply Z.eqb_neq in Hd. rewrite Hd. reflexivity.
Qed.

Lemma syn_with_data_is_refused_witness :
  packetReceived
    (P.create 8 1 0 0 [x61] 489 true false false false false None)
    (example_sender, world (started None []))
  = (Raise BadPacketError, (example_sender, world (started None []))).
Proof.
  apply (syn_with_data_is_refused example_sender (world (started None []))
           (P.create 8 1 0 0 [x61] 489 true false false false false None));
    try reflexivity.
  vm_compute. intros E. discriminate E.
Defined.

(** On a connection that is not paused, that has a peer address and has
    already recorded the peer's initial sequence number, a packet from that
    peer address with the SYN flag, without the STB and FIN flags and with
    [dlen] zero is ignored altogether when its [seqNum] is the recorded
    number (an acknowledgement it carries is not looked at), and raises
    [BadPacketError] when it is another number; in both cases the connection
    and the world are left as they were. *)
Theorem repeated_syn (c : C.t) (w : World) (packet : P.t) :
  P.stb packet = false ->
  C._paused c = false ->
  P.syn packet = true ->
  P.dlen packet = 0 ->
  P.fin packet = false ->
  C.peerAddressTuple c <> None ->
  C.peerAddressTuple c = P.peerAddressTuple packet ->
  C.setPeerISN c = true ->
  packetReceived packet (c, w) =
    (if C.peerSendISN c =? P.seqNum packet
     then Ok tt else Raise BadPacketError, (c, w)).
Proof.
  intros Hstb Hp Hsyn Hd Hfin Hsome Haddr Hisn.
  unfold packetReceived. rewrite Hstb.
  unfold bind at 1, self at 1. cbn [fst]. rewrite Hp, Hsyn, Hd.
  cbn [Z.eqb negb andb]. unfold bind at 1.
  unfold syn_received.
  assert (Hsl : P.segmentLength packet = 1)
    by (unfold P.segmentLength; rewrite Hsyn, Hfin, Hd; reflexivity).
  rewrite Hsl. unfold bind at 1, assert at 1. cbn [Z.eqb Pos.eqb ret].
  unfold bind at 1, self at 1. cbn [fst].
  destruct (C.peerAddressTuple c) as [addr|] eqn:Hpa; [|done].
  unfold bind at 1.
  rewrite bool_decide_eq_true_2 by exact Haddr.
  unfold assert at 1, ret at 1.
  unfold bind at 1, self at 1. cbn [fst]. rewrite Hisn.
  destruct (C.peerSendISN c =? P.seqNum packet); reflexivity.
Qed.

Lemma repeated_syn_witness :
  packetReceived example_synack
    (C.set_setPeerISN true example_sender, world (started None []))
  = (if C.peerSendISN (C.set_setPeerISN true example_sender)
        =? P.seqNum example_synack
     then Ok tt else Raise BadPacketError,
     (C.set_setPeerISN true example_sender, world (started None []))).
Proof.
  apply (repeated_syn (C.set_setPeerISN true example_sender)
           (world (started None [])) example_synack); try reflexivity.
  intros E. discriminate E.
Defined.

(** ** Cumulative acknowledgement *)

(** Without the ACK flag, or with an ACK that is not acceptable (not above
    SND.UNA, or beyond SND.NXT), the acknowledgement block does nothing. *)
Lemma ack_received_ignores packet c w :
  P.ack packet = false \/
  ackAcceptable (C.oldestUnackedSendSeqNum c) (P.relativeAck packet)
                (C.nextSendSeqNum c) = false ->
  ack_received packet (c, w) = (Ok tt, (c, w)).
Proof.
  intros H. unfold ack_received, bind, self. cbn [fst].
  destruct H as [-> | ->]; [reflexivity|].
  rewrite andb_false_r. reflexivity.
Qed.

(** For a packet that gets to the acknowledgement processing with the ACK
    flag and an acceptable ACK, [packetReceived] takes from the front of the
    retransmission queue the longest run of segments the ACK covers
    ([relativeSeq + segmentLength <= relativeAck]), adds their segment
    lengths to [sendWindowRemaining], and sets [oldestUnackedSendSeqNum] to
    the packet's relative ack, which stays at or below [nextSendSeqNum]; the
    same ACK is then no longer acceptable.  These updates are in place when
    the call ends. *)
Theorem acceptable_ack_drains_queue (c : C.t) (w : World) (packet : P.t) :
  reaches_ack_processing c packet ->
  P.ack packet = true ->
  ackAcceptable (C.oldestUnackedSendSeqNum c) (P.relativeAck packet)
                (C.nextSendSeqNum c) = true ->
  exists c' acked,
    snd (packetReceived packet (c, w)) = (c', w) /\
    C.retransmissionQueue c = acked ++ C.retransmissionQueue c' /\
    Forall (fun segment =>
              P.relativeSeq segment + P.segmentLength segment
              <= P.relativeAck packet) acked /\
    (forall segment, head (C.retransmissionQueue c') = Some segment ->
       P.relativeAck packet < P.relativeSeq segment + P.segmentLength segment) /\
    C.sendWindowRemaining c' =
      C.sendWindowRemaining c + total_segmentLength acked /\
    C.oldestUnackedSendSeqNum c' = P.relativeAck packet /\
    C.nextSendSeqNum c' = C.nextSendSeqNum c /\
    C.oldestUnackedSendSeqNum c' <= C.nextSendSeqNum c' /\
    ackAcceptable (C.oldestUnackedSendSeqNum c') (P.relativeAck packet)
                  (C.nextSendSeqNum c') = false.
Proof.
  intros Hreach Hack Hacc.
  assert (Hsame : C.oldestUnackedSendSeqNum (syn_recorded packet c)
                  = C.oldestUnackedSendSeqNum c /\
                  C.nextSendSeqNum (syn_recorded packet c) = C.nextSendSeqNum c /\
                  C.retransmissionQueue (syn_recorded packet c)
                  = C.retransmissionQueue c /\
                  C.sendWindowRemaining (syn_recorded packet c)
                  = C.sendWindowRemaining c)
    by (unfold syn_recorded; destruct (P.syn packet); repeat split).
  destruct Hsame as (Huna & Hnxt & Hrq & Hswr).
  exists (ack_applied packet (syn_recorded packet c)).
  exists (acked_prefix (C.retransmissionQueue c) (P.relativeAck packet)).
  rewrite packetReceived_reaches_ack by exact Hreach.
  unfold bind. rewrite ack_received_raises;
    [| exact Hack | rewrite Huna, Hnxt; exact Hacc].
  destruct (acked_prefix_suffix (C.retransmissionQueue c) (P.relativeAck packet))
    as (Hsplit & Hcov & Hhead).
  unfold ack_applied. cbn [snd C.retransmissionQueue C.sendWindowRemaining
    C.oldestUnackedSendSeqNum C.nextSendSeqNum
    C.set_oldestUnackedSendSeqNum C.set_sendWindowRemaining
    C.set_retransmissionQueue].
  rewrite Hrq, Hswr, Hnxt.
  unfold ackAcceptable in Hacc. apply andb_true_iff in Hacc as [_ Hle%Z.leb_le].
  split; [reflexivity|]. split; [exact Hsplit|].
  split.
  { eapply Forall_impl; [exact Hcov|]. intros segment Hs.
    unfold covered in Hs. apply Z.leb_le in Hs. exact Hs. }
  split.
  { intros segment Hs. apply Hhead in Hs. unfold covered in Hs.
    apply Z.leb_gt in Hs. exact Hs. }
  split; [reflexivity|]. split; [reflexivity|]. split; [reflexivity|].
  split; [exact Hle|].
  unfold ackAcceptable. rewrite Z.ltb_irrefl. reflexivity.
Qed.

Lemma acceptable_ack_drains_queue_witness :
  exists c' acked,
    snd (packetReceived
           (P.mk 1 8 1 3 489 2 0 0 [] (Some example_peer) 0 0 0 0 None 50)
           (example_sender, world (started None [])))
      = (c', world (started None [])) /\
    C.retransmissionQueue example_sender = acked ++ C.retransmissionQueue c' /\
    Forall (fun segment =>
              P.relativeSeq segment + P.segmentLength segment <= 3) acked /\
    (forall segment, head (C.retransmissionQueue c') = Some segment ->
       3 < P.relativeSeq segment + P.segmentLength segment) /\
    C.sendWindowRemaining c' =
      C.sendWindowRemaining example_sender + total_segmentLength acked /\
    C.oldestUnackedSendSeqNum c' = 3 /\
    C.nextSendSeqNum c' = C.nextSendSeqNum example_sender /\
    C.oldestUnackedSendSeqNum c' <= C.nextSendSeqNum c' /\
    ackAcceptable (C.oldestUnackedSendSeqNum c') 3 (C.nextSendSeqNum c') = false.
Proof.
  apply (acceptable_ack_drains_queue example_sender (world (started None []))
           (P.mk 1 8 1 3 489 2 0 0 [] (Some example_peer) 0 0 0 0 None 50)).
  - split; [reflexivity|]. split; [reflexivity|]. left. reflexivity.
  - reflexivity.
  - reflexivity.
Defined.

(** ** [PTCP.datagramReceived]: a well-formed datagram *)

(** The datagram [encode] produces for a packet is accepted by
    [datagramReceived]: it passes the length gate and the checksum, and the
    multiplexer's [packetReceived] gets a packet with the sender's address,
    the header fields of the original, and its payload. *)
Theorem encoded_datagram_is_delivered (p : P.t) (datagram : bytes)
    (addr : Addr) (sys : System) :
  P.encode p = Ok datagram ->
  PTCP_datagramReceived datagram addr sys =
  PTCP_packetReceived
    (P.init (P.sourcePseudoPort p) (P.destPseudoPort p) (P.seqNum p)
            (P.ackNum p) (P.window p) (P.flags p)
            (binascii.crc32 (P.data p)) (len (P.data p)) (P.data p)
            (Some addr))
    sys.
Proof.
  intros He.
  assert (Hp : encodable p) by (apply encode_ok_iff; eauto).
  destruct (encode_decode p (Some addr) Hp) as (header & Hh & He' & Hd).
  rewrite He in He'. injection He' as ->.
  assert (Hv : P.verifyChecksum
                 (P.init (P.sourcePseudoPort p) (P.destPseudoPort p)
                    (P.seqNum p) (P.ackNum p) (P.window p) (P.flags p)
                    (binascii.crc32 (P.data p)) (len (P.data p)) (P.data p)
                    (Some addr)) = Ok tt).
  { unfold P.verifyChecksum, P.computeChecksum.
    cbn [P.init P.dlen P.checksum P.data]. rewrite !Z.eqb_refl. reflexivity. }
  unfold PTCP_datagramReceived.
  assert (Hgate : (len (header ++ P.data p) <? _fixedSize) = false).
  { apply Z.ltb_ge. rewrite len_app, (struct_facts.pack_length _ _ _ Hh).
    pose proof (len_nonneg (P.data p)). unfold _fixedSize. lia. }
  rewrite Hgate. unfold bind at 1, lift at 1. rewrite Hd, Hv. reflexivity.
Qed.

Lemma encoded_datagram_is_delivered_witness :
  PTCP_datagramReceived
    [x00; x08; x00; x01; x00; x00; x00; x00; x00; x00; x00; x00;
     x00; x00; x01; xe9; x01; x00; x00; x00; x00; x00; x00]
    example_peer (started None [])
  = PTCP_packetReceived
      (P.init 8 1 0 0 489 1 (binascii.crc32 []) (len (@nil byte)) []
              (Some example_peer))
      (started None []).
Proof.
  apply (encoded_datagram_is_delivered
           (P.create 8 1 0 0 [] 489 true false false false false None)).
  reflexivity.
Defined.

(** ** What the operations keep *)

Section Preserves.

Context {S : Type} (I : S -> Prop).

Lemma preserves_ret {A} (a : A) : preserves I (ret a).
Proof. intros s H. exact H. Qed.

Lemma preserves_raise {A} e : preserves I (@raise S A e).
Proof. intros s H. exact H. Qed.

Lemma preserves_hang {A} : preserves I (@hang S A).
Proof. intros s H. exact H. Qed.

Lemma preserves_lift {A} (r : Res A) : preserves I (lift r).
Proof. intros s H. exact H. Qed.

Lemma preserves_get : preserves I get.
Proof. intros s H. exact H. Qed.

Lemma preserves_assert b : preserves I (assert b).
Proof. destruct b; intros s H; exact H. Qed.

Lemma preserves_modify f : (forall s, I s -> I (f s)) -> preserves I (modify f).
Proof. intros Hf s H. apply Hf. exact H. Qed.

Lemma preserves_bind {A B} (m : M S A) (k : A -> M S B) :
  preserves I m -> (forall a, preserves I (k a)) -> preserves I (bind m k).
Proof.
  intros Hm Hk s H. unfold bind. specialize (Hm s H).
  destruct (m s) as [[a| |] s']; cbn [snd] in *; [apply Hk|..]; exact Hm.
Qed.

Lemma preserves_when b (m : M S unit) : preserves I m -> preserves I (when b m).
Proof. destruct b; [auto | intros _; apply preserves_ret]. Qed.

Lemma preserves_try_except {A} (body handler : M S A) :
  preserves I body -> preserves I handler -> preserves I (try_except body handler).
Proof.
  intros Hb Hh s H. unfold try_except. specialize (Hb s H).
  destruct (body s) as [[a| |] s']; cbn [snd] in *; [|apply Hh|]; exact Hb.
Qed.

Lemma preserves_try_except_else {A B} (body : M S A) (handler : M S B)
    (orelse : A -> M S B) :
  preserves I body -> preserves I handler -> (forall a, preserves I (orelse a)) ->
  preserves I (try_except_else body handler orelse).
Proof.
  intros Hb Hh He s H. unfold try_except_else. specialize (Hb s H).
  destruct (body s) as [[a| |] s']; cbn [snd] in *;
    [apply He | apply Hh |]; exact Hb.
Qed.

End Preserves.

(** Decomposing a computation along its structure. *)
Ltac pres_step :=
  match goal with
  | |- preserves _ (bind _ _) => apply preserves_bind; [|intros ?]
  | |- preserves _ (ret _) => apply preserves_ret
  | |- preserves _ (raise _) => apply preserves_raise
  | |- preserves _ hang => apply preserves_hang
  | |- preserves _ (lift _) => apply preserves_lift
  | |- preserves _ get => apply preserves_get
  | |- preserves _ (assert _) => apply preserves_assert
  | |- preserves _ (when _ _) => apply preserves_when
  | |- preserves _ (try_except _ _) => apply preserves_try_except
  | |- preserves _ (try_except_else _ _ _) =>
      apply preserves_try_except_else; [| |intros ?]
  | |- preserves _ (if ?b then _ else _) => destruct b
  | |- preserves _ (match ?x with _ => _ end) => destruct x
  | |- preserves _ (let '(_, _) := ?x in _) => destruct x
  end.

(** *** The world *)

Section World_keeps.

Variable K : PTCP.t -> Prop.
Hypothesis K_delete : forall p k,
  K p -> K (PTCP.set__connections (delete k (PTCP._connections p)) p).
Hypothesis K_stop : forall p b, K p -> K (PTCP.set_stopped b p).
Hypothesis K_listeners : forall p n,
  K p -> K (PTCP.set__allConnectionsClosed n p).

Let KW (w : World) : Prop := K (ptcp w).

Lemma effect_keeps e : preserves KW (effect e).
Proof. intros w H. exact H. Qed.

Lemma guarded_keeps e : preserves KW (guarded e).
Proof.
  unfold guarded. repeat pres_step; try apply effect_keeps.
  apply preserves_modify. intros w H. exact H.
Qed.

Lemma callLater_keeps conn f : preserves KW (callLater conn f).
Proof.
  unfold callLater. repeat pres_step.
  apply preserves_modify. intros w H. exact H.
Qed.

Lemma cancel_keeps call : preserves KW (cancel call).
Proof.
  unfold cancel. repeat pres_step.
  apply preserves_modify. intros w H. exact H.
Qed.

Lemma reset_keeps call : preserves KW (reset call).
Proof. unfold reset. repeat pres_step. Qed.

Lemma PTCP_sendPacket_keeps packet : preserves KW (PTCP_sendPacket packet).
Proof. unfold PTCP_sendPacket. repeat pres_step. apply effect_keeps. Qed.

Lemma PTCP__stop_keeps : preserves KW PTCP__stop.
Proof.
  unfold PTCP__stop. repeat pres_step; try apply effect_keeps.
  apply preserves_modify. intros w H. apply K_stop. exact H.
Qed.

Lemma fire_listeners_keeps n : preserves KW (fire_listeners n).
Proof.
  induction n as [|n IH]; cbn [fire_listeners]; repeat pres_step;
    first [apply PTCP__stop_keeps | apply effect_keeps | exact IH].
Qed.

Lemma _PendingEvent_callback_keeps : preserves KW _PendingEvent_callback.
Proof.
  unfold _PendingEvent_callback. repeat pres_step;
    try apply fire_listeners_keeps.
  apply preserves_modify. intros w H. apply K_listeners. exact H.
Qed.

Lemma _PendingEvent_deferred_keeps : preserves KW _PendingEvent_deferred.
Proof. apply preserves_modify. intros w H. apply K_listeners. exact H. Qed.

Lemma PTCP_connectionClosed_keeps c : preserves KW (PTCP_connectionClosed c).
Proof.
  unfold PTCP_connectionClosed. repeat pres_step;
    try apply effect_keeps; try apply PTCP__stop_keeps;
    try apply _PendingEvent_callback_keeps.
  apply preserves_modify. intros w H. apply K_delete. exact H.
Qed.

Lemma del_connection_keeps k : preserves KW (del_connection k).
Proof.
  unfold del_connection. repeat pres_step.
  apply preserves_modify. intros w H. apply K_delete. exact H.
Qed.

End World_keeps.

(** *** The connection: everything that feeds no input to the automaton *)

Section Connection_keeps.

Variables (J : C.t -> Prop) (K : PTCP.t -> Prop).
Hypothesis St : stable J K.

Lemma self_keeps : preserves (both J K) self.
Proof. intros s H. exact H. Qed.

Lemma update_core_keeps f :
  (forall c, core (f c) = core c) -> preserves (both J K) (update f).
Proof.
  intros Hf [c w] [HJ HK]. split; [|exact HK].
  apply (stable_core J K St c); [apply Hf | exact HJ].
Qed.

Lemma in_world_keeps {A} (m : WorldM A) :
  preserves (fun w => K (ptcp w)) m -> preserves (both J K) (in_world m).
Proof.
  intros Hm [c w] [HJ HK]. unfold in_world. cbn [fst snd].
  specialize (Hm w HK). destruct (m w) as [r w']. split; [exact HJ | exact Hm].
Qed.

Ltac world_keeps :=
  first [ apply effect_keeps | apply guarded_keeps | apply callLater_keeps
        | apply cancel_keeps | apply reset_keeps | apply PTCP_sendPacket_keeps
        | apply PTCP_connectionClosed_keeps;
          [ apply (stable_delete J K St) | apply (stable_stop J K St)
          | apply (stable_listeners J K St) ] ].

Ltac conn_step :=
  first [ pres_step
        | apply self_keeps
        | apply update_core_keeps; intros ?; reflexivity
        | apply in_world_keeps; world_keeps ].

Lemma currentAckNum_keeps : preserves (both J K) currentAckNum.
Proof. unfold currentAckNum. repeat conn_step. Qed.

Lemma _retransmitLater_keeps : preserves (both J K) _retransmitLater.
Proof. unfold _retransmitLater. repeat conn_step. Qed.

Lemma _writeBufferFull_keeps : preserves (both J K) _writeBufferFull.
Proof. unfold _writeBufferFull. repeat conn_step. Qed.

Lemma originate_keeps data syn ack fin rst :
  preserves (both J K) (originate data syn ack fin rst).
Proof.
  unfold originate.
  repeat first [ conn_step | apply currentAckNum_keeps
               | apply _retransmitLater_keeps | apply _writeBufferFull_keeps ].
  intros [c' w] [HJ HK]. split; [|exact HK]. cbn [fst snd update].
  apply (stable_send J K St); [|exact HJ].
  apply create_segmentLength_nonneg.
Qed.

Lemma _originateOneData_keeps : preserves (both J K) _originateOneData.
Proof.
  unfold _originateOneData. repeat first [conn_step | apply originate_keeps].
Qed.

Lemma _reallyWrite_loop_keeps fuel : preserves (both J K) (_reallyWrite_loop fuel).
Proof.
  induction fuel as [|fuel IH]; cbn [_reallyWrite_loop];
    repeat first [conn_step | apply _originateOneData_keeps | exact IH].
Qed.

Lemma _reallyWrite_keeps : preserves (both J K) _reallyWrite.
Proof.
  unfold _reallyWrite. repeat first [conn_step | apply _reallyWrite_loop_keeps].
Qed.

Lemma _writeLater_keeps : preserves (both J K) _writeLater.
Proof. unfold _writeLater. repeat conn_step. Qed.

Lemma write_keeps data : preserves (both J K) (write data).
Proof. unfold write. repeat first [conn_step | apply _writeLater_keeps]. Qed.

Lemma ackSoon_keeps : preserves (both J K) ackSoon.
Proof. unfold ackSoon. repeat conn_step. Qed.

Lemma outgoingConnectionFailed_keeps : preserves (both J K) outgoingConnectionFailed.
Proof. unfold outgoingConnectionFailed. repeat conn_step. Qed.

Lemma nowListeningSocket_keeps : preserves (both J K) nowListeningSocket.
Proof. unfold nowListeningSocket. repeat conn_step. Qed.

Lemma _stopRetransmitting_keeps : preserves (both J K) _stopRetransmitting.
Proof. unfold _stopRetransmitting. repeat conn_step. Qed.

Lemma releaseConnectionResources_keeps :
  preserves (both J K) releaseConnectionResources.
Proof.
  unfold releaseConnectionResources.
  repeat first [conn_step | apply _stopRetransmitting_keeps].
Qed.

Lemma scheduleTimeWaitTimeout_keeps : preserves (both J K) scheduleTimeWaitTimeout.
Proof.
  unfold scheduleTimeWaitTimeout.
  repeat first [conn_step | apply _stopRetransmitting_keeps].
Qed.

Lemma nowHalfClosed_keeps : preserves (both J K) nowHalfClosed.
Proof. unfold nowHalfClosed. repeat conn_step. Qed.

Lemma connectionJustEnded_keeps : preserves (both J K) connectionJustEnded.
Proof. unfold connectionJustEnded. repeat conn_step. Qed.

Lemma registerProducer_keeps producer streaming :
  preserves (both J K) (registerProducer producer streaming).
Proof. unfold registerProducer. repeat conn_step. Qed.

Lemma pauseProducing_keeps : preserves (both J K) pauseProducing.
Proof. unfold pauseProducing. repeat conn_step. Qed.

Lemma resumeProducing_keeps : preserves (both J K) resumeProducing.
Proof. unfold resumeProducing. repeat conn_step. Qed.

Lemma originateAck_keeps : preserves (both J K) originateAck.
Proof. unfold originateAck. repeat first [conn_step | apply originate_keeps]. Qed.

Lemma shrink_mtu_keeps packet : preserves (both J K) (shrink_mtu packet).
Proof. unfold shrink_mtu. repeat conn_step. Qed.

Lemma ack_drain_keeps relativeAck rq : preserves (both J K) (ack_drain rq relativeAck).
Proof.
  induction rq as [|head rest IH]; cbn [ack_drain];
    repeat first [conn_step | exact IH].
Qed.

(** The methods that may feed [appClose] from inside an output keep what the
    inner call keeps. *)
Section Hook.

Variable hook : ConnM unit.
Hypothesis hook_keeps : preserves (both J K) hook.

Lemma _writeBufferEmpty_keeps : preserves (both J K) (_writeBufferEmpty hook).
Proof.
  unfold _writeBufferEmpty.
  repeat first [conn_step | apply _reallyWrite_keeps | exact hook_keeps].
Qed.

Lemma loseConnection_keeps : preserves (both J K) (loseConnection hook).
Proof.
  unfold loseConnection. repeat first [conn_step | apply _writeBufferEmpty_keeps].
Qed.

Lemma connectionJustEstablished_keeps :
  preserves (both J K) (connectionJustEstablished hook).
Proof.
  unfold connectionJustEstablished.
  repeat first [conn_step | apply loseConnection_keeps].
Qed.

Lemma run_output_keeps o : preserves (both J K) (run_output hook o).
Proof.
  destruct o; cbn [run_output];
    repeat first [ conn_step | apply originate_keeps
                 | apply connectionJustEstablished_keeps
                 | apply connectionJustEnded_keeps
                 | apply releaseConnectionResources_keeps
                 | apply scheduleTimeWaitTimeout_keeps
                 | apply nowListeningSocket_keeps
                 | apply nowHalfClosed_keeps
                 | apply outgoingConnectionFailed_keeps ].
Qed.

Lemma run_outputs_keeps os : preserves (both J K) (run_outputs hook os).
Proof.
  induction os as [|o os IH]; cbn [run_outputs];
    repeat first [conn_step | apply run_output_keeps | exact IH].
Qed.

Lemma unregisterProducer_body_keeps :
  preserves (both J K)
    (update (C.set_producer None);;
     c ← self;
     when (bool_decide (C._outgoingBytes c = [])) (_writeBufferEmpty hook)).
Proof. repeat first [conn_step | apply _writeBufferEmpty_keeps]. Qed.

End Hook.

End Connection_keeps.

(** ** C3: the transition table *)

(** The model's dispatch on an output is the method of that output. *)
Lemma run_output_method o s :
  run_output (machine_call "appClose") o s = output_method o s.
Proof. destruct o; reflexivity. Qed.

Lemma run_outputs_methods os s :
  run_outputs (machine_call "appClose") os s = output_methods os s.
Proof.
  revert s. induction os as [|o os IH]; intros s; [reflexivity|].
  cbn [run_outputs output_methods fold_right]. unfold bind.
  rewrite run_output_method.
  destruct (output_method o s) as [[[]| |] s']; auto.
Qed.

(** Only [appNotifyConnected] can feed an input while it runs; the other
    outputs leave the automaton in the state it is in. *)
Lemma machine_stable m :
  stable (fun c => C.machine c = m) (fun _ => True).
Proof.
  split; try (intros; exact I).
  - intros c c' Hc H. unfold core in Hc. injection Hc as _ _ _ _ _ ->. exact H.
  - intros c n _ H. destruct c; exact H.
Qed.

Lemma run_output_keeps_machine hook o m :
  o <> TCP.appNotifyConnected ->
  preserves (both (fun c => C.machine c = m) (fun _ => True))
            (run_output hook o).
Proof.
  intros Ho.
  assert (E : run_output hook o = run_output (ret tt) o)
    by (destruct o; [reflexivity.. | contradiction | | | | | |]; reflexivity).
  rewrite E. apply run_output_keeps; [apply machine_stable|].
  apply preserves_ret.
Qed.

Lemma run_outputs_keep_machine hook os m :
  ~ In TCP.appNotifyConnected os ->
  preserves (both (fun c => C.machine c = m) (fun _ => True))
            (run_outputs hook os).
Proof.
  induction os as [|o os IH]; intros Hnot; cbn [run_outputs];
    [apply preserves_ret|].
  apply preserves_bind; [|intros _; apply IH; intros H; apply Hnot; right; exact H].
  apply run_output_keeps_machine. intros ->. apply Hnot. left. reflexivity.
Qed.

(** Where an inner [appClose] can take an automaton that has just entered
    Established: to FinWait1, and from there nowhere. *)
Lemma connected_stable :
  stable (fun c => C.machine c = TCP.established \/ C.machine c = TCP.finWait1)
         (fun _ => True).
Proof.
  split; try (intros; exact I).
  - intros c c' Hc H. unfold core in Hc. injection Hc as _ _ _ _ _ ->. exact H.
  - intros c n _ H. destruct c; exact H.
Qed.

Lemma appClose_keeps_connected :
  preserves (both (fun c => C.machine c = TCP.established
                            \/ C.machine c = TCP.finWait1) (fun _ => True))
            (machine_call "appClose").
Proof.
  intros [c w] [HJ _]. cbn [fst] in HJ. rewrite machine_call_appClose.
  cbn [machine_input]. unfold bind at 1, self at 1. cbn [fst].
  destruct HJ as [Hm|Hm]; rewrite Hm.
  - change (TCP.outputForInput TCP.established TCP.appClose)
      with (Some (TCP.finWait1, [TCP.appNotifyDisconnected; TCP.sendFin])).
    unfold bind at 1, update at 1, modify. cbn [fst snd].
    assert (H := run_outputs_keep_machine (machine_input 0 TCP.appClose)
                   [TCP.appNotifyDisconnected; TCP.sendFin] TCP.finWait1).
    destruct (H ltac:(cbn; intros [E|[E|[]]]; discriminate E)
                (C.set_machine TCP.finWait1 c, w)) as [H1 _];
      [split; [destruct c; reflexivity | exact I]|].
    split; [right; exact H1 | exact I].
  - change (TCP.outputForInput TCP.finWait1 TCP.appClose) with
      (@None (TCP.State * list TCP.Output)).
    split; [right; exact Hm | exact I].
Qed.

(** A transition whose outputs include [appNotifyConnected] enters
    Established. *)
Lemma appNotifyConnected_enters_established s i enter outputs :
  TCP.outputForInput s i = Some (enter, outputs) ->
  In TCP.appNotifyConnected outputs -> enter = TCP.established.
Proof.
  destruct s, i; intros Ho; vm_compute in Ho; try discriminate Ho;
    injection Ho as <- <-; cbn; intros H;
    repeat (destruct H as [H|H]; [try discriminate H|]);
    try reflexivity; try contradiction.
Qed.

(** Where the automaton is when a fed input has been dealt with, whether the
    outputs returned or one of them raised. *)
Lemma feed_final_state s i enter outputs c w :
  TCP.outputForInput s i = Some (enter, outputs) ->
  C.machine c = s ->
  C.machine (fst (snd (feed i (c, w)))) = enter \/
  (In TCP.appNotifyConnected outputs /\
   C.machine (fst (snd (feed i (c, w)))) = TCP.finWait1).
Proof.
  intros Ho Hm. rewrite feed_eq, Hm, Ho.
  destruct (in_dec TCP.Output_eq_dec TCP.appNotifyConnected outputs)
    as [Hin|Hnot].
  - pose proof (appNotifyConnected_enters_established s i enter outputs Ho Hin)
      as ->.
    destruct (run_outputs_keeps _ _ connected_stable (machine_call "appClose")
                appClose_keeps_connected outputs
                (C.set_machine TCP.established c, w)) as [[H|H] _].
    + split; [left; destruct c; reflexivity | exact I].
    + left. exact H.
    + right. split; [exact Hin | exact H].
  - left.
    destruct (run_outputs_keep_machine (machine_call "appClose") outputs enter
                Hnot (C.set_machine enter c, w)) as [H _];
      [split; [destruct c; reflexivity | exact I]|].
    exact H.
Qed.

(** C3, amended: for every row of the specification's transition table, the
    automaton in the row's source state has a transition for the row's
    input, to the row's target state with exactly the row's outputs in the
    row's order; feeding that input to a connection whose automaton is in
    the source state moves the automaton to the target state and then calls
    the methods of those outputs, in that order; and when the feed is over,
    whether it returned or an output raised, the automaton is in the row's
    target state, or, only for a row whose outputs include
    [appNotifyConnected], in FinWait1, where the [appClose] fed from inside
    [connectionJustEstablished] has taken it. *)
Theorem transition_table_rows_hold :
  Forall (fun row =>
    TCP.outputForInput (TCP.from row) (TCP.input row)
      = Some (TCP.enter row, TCP.outputs row) /\
    forall c w,
      C.machine c = TCP.from row ->
      feed (TCP.input row) (c, w) =
        output_methods (TCP.outputs row) (C.set_machine (TCP.enter row) c, w)
      /\
      (C.machine (fst (snd (feed (TCP.input row) (c, w)))) = TCP.enter row \/
       (In TCP.appNotifyConnected (TCP.outputs row) /\
        C.machine (fst (snd (feed (TCP.input row) (c, w)))) = TCP.finWait1)))
    spec_transition_table.
Proof.
  assert (Hrow : forall row,
            TCP.outputForInput (TCP.from row) (TCP.input row)
              = Some (TCP.enter row, TCP.outputs row) ->
            forall c w,
              C.machine c = TCP.from row ->
              feed (TCP.input row) (c, w) =
                output_methods (TCP.outputs row)
                  (C.set_machine (TCP.enter row) c, w) /\
              (C.machine (fst (snd (feed (TCP.input row) (c, w))))
               = TCP.enter row \/
               (In TCP.appNotifyConnected (TCP.outputs row) /\
                C.machine (fst (snd (feed (TCP.input row) (c, w))))
                = TCP.finWait1))).
  { intros row Ho c w Hm. split.
    - rewrite feed_eq, Hm, Ho. apply run_outputs_methods.
    - exact (feed_final_state _ _ _ _ c w Ho Hm). }
  unfold spec_transition_table.
  repeat (apply Forall_cons; split;
          [split; [reflexivity | apply Hrow; reflexivity]|]).
  apply Forall_nil. exact I.
Qed.

Lemma transition_table_rows_hold_witness :
  let c := C.set_machine TCP.established
             (C.init 0 8 1 (Some 3%nat) (Some example_peer)) in
  let w := world (started None []) in
  TCP.outputForInput TCP.established TCP.fin
    = Some (TCP.closeWait, [TCP.appNotifyHalfClose; TCP.sendAck]) /\
  feed TCP.fin (c, w)
  = output_methods [TCP.appNotifyHalfClose; TCP.sendAck]
      (C.set_machine TCP.closeWait c, w) /\
  C.machine (fst (snd (feed TCP.fin (c, w)))) = TCP.closeWait.
Proof.
  intros c w.
  pose proof (proj1 (Forall_forall _ _) transition_table_rows_hold
                (TCP.upon TCP.established TCP.fin TCP.closeWait
                          [TCP.appNotifyHalfClose; TCP.sendAck])) as Hrow.
  destruct Hrow as [Hlookup Hfeed].
  { apply list_elem_of_In. vm_compute. tauto. }
  split; [exact Hlookup|].
  destruct (Hfeed c w eq_refl) as [Heq Hfinal].
  split; [exact Heq|].
  destruct Hfinal as [H|[Hin _]]; [exact H|].
  cbn in Hin. destruct Hin as [E|[E|[]]]; discriminate E.
Defined.

(** C3 as stated fails where it says the automaton is left in the row's
    target state.  A client in SynSent is fed [synAck]; the row's outputs
    [sendAck] and [appNotifyConnected] are called, in that order, but the
    application raises while the protocol is being built, so
    [connectionJustEstablished] calls [loseConnection], which feeds
    [appClose]: the feed returns with the automaton in FinWait1, not in
    Established. *)
Lemma feed_synAck_ends_in_finWait1 :
  exists c c' w',
    heap example_unlucky_client !! 0%nat = Some c /\
    C.machine c = TCP.synSent /\
    TCP.outputForInput TCP.synSent TCP.synAck
      = Some (TCP.established, [TCP.sendAck; TCP.appNotifyConnected]) /\
    feed TCP.synAck (c, world example_unlucky_client) = (Ok tt, (c', w')) /\
    C.machine c' = TCP.finWait1 /\
    C.machine c' <> TCP.established.
Proof.
  eexists. eexists. eexists.
  split; [vm_compute; reflexivity|].
  split; [vm_compute; reflexivity|].
  split; [vm_compute; reflexivity|].
  split; [vm_compute; reflexivity|].
  split; [vm_compute; reflexivity | vm_compute; intros E; discriminate E].
Qed.

(** *** The connection: the automaton and the inbound path *)

Section Feeding_keeps.

Variables (J : C.t -> Prop) (K : PTCP.t -> Prop).
Hypothesis St : stable J K.
Hypothesis J_machine : forall c i enter outputs,
  fed i = true ->
  TCP.outputForInput (C.machine c) i = Some (enter, outputs) ->
  J c -> J (C.set_machine enter c).

Ltac world_keeps :=
  first [ apply effect_keeps | apply guarded_keeps | apply callLater_keeps
        | apply cancel_keeps | apply reset_keeps | apply PTCP_sendPacket_keeps
        | apply PTCP_connectionClosed_keeps;
          [ apply (stable_delete J K St) | apply (stable_stop J K St)
          | apply (stable_listeners J K St) ] ].

Ltac conn_step :=
  first [ pres_step
        | apply (self_keeps J K)
        | apply (update_core_keeps J K St); intros ?; reflexivity
        | apply (in_world_keeps J K); world_keeps ].

Lemma machine_input_keeps depth i :
  fed i = true -> preserves (both J K) (machine_input depth i).
Proof.
  revert i. induction depth as [|depth IH]; intros i Hi; cbn [machine_input];
    [apply preserves_hang|].
  intros [c w] [HJ HK]. unfold bind at 1, self at 1. cbn [fst].
  destruct (TCP.outputForInput (C.machine c) i) as [[enter outputs]|] eqn:Ho;
    [|split; assumption].
  assert (H' : both J K (C.set_machine enter c, w)).
  { split; [exact (J_machine c i enter outputs Hi Ho HJ) | exact HK]. }
  exact (run_outputs_keeps J K St _ (IH TCP.appClose eq_refl) outputs _ H').
Qed.

Lemma feed_keeps i : fed i = true -> preserves (both J K) (feed i).
Proof. apply machine_input_keeps. Qed.

Lemma machine_call_keeps name :
  fed_name name = true -> preserves (both J K) (machine_call name).
Proof.
  unfold machine_call, fed_name.
  destruct (TCP.input_named name) as [i|];
    [apply feed_keeps | intros _; apply preserves_raise].
Qed.

Lemma loseConnection_appClose_keeps :
  preserves (both J K) (loseConnection (machine_call "appClose")).
Proof. apply (loseConnection_keeps J K St), machine_call_keeps. reflexivity. Qed.

Lemma _writeBufferEmpty_appClose_keeps :
  preserves (both J K) (_writeBufferEmpty (machine_call "appClose")).
Proof. apply (_writeBufferEmpty_keeps J K St), machine_call_keeps. reflexivity. Qed.

Lemma unregisterProducer_keeps : preserves (both J K) unregisterProducer.
Proof.
  apply (unregisterProducer_body_keeps J K St), machine_call_keeps.
  reflexivity.
Qed.

Lemma appCloseNow_keeps : preserves (both J K) appCloseNow.
Proof.
  unfold appCloseNow.
  repeat first [conn_step | apply loseConnection_appClose_keeps].
Qed.

Lemma _do2mslTimeout_keeps : preserves (both J K) _do2mslTimeout.
Proof.
  unfold _do2mslTimeout. repeat first [conn_step | apply machine_call_keeps; reflexivity].
Qed.

Lemma retransmit_walk_keeps todo :
  forall done, preserves (both J K) (retransmit_walk done todo).
Proof.
  induction todo as [|packet rest IH]; intros done; cbn [retransmit_walk];
    repeat first [ conn_step | apply (currentAckNum_keeps J K St)
                 | apply machine_call_keeps; reflexivity | apply IH ].
Qed.

Lemma _reallyRetransmit_keeps : preserves (both J K) _reallyRetransmit.
Proof.
  unfold _reallyRetransmit.
  repeat first [ conn_step | apply retransmit_walk_keeps
               | apply (_retransmitLater_keeps J K St) ].
Qed.

Lemma run_callback_keeps f : preserves (both J K) (run_callback f).
Proof.
  destruct f; cbn [run_callback];
    [ apply (_reallyWrite_keeps J K St) | apply _reallyRetransmit_keeps
    | apply (originateAck_keeps J K St) | apply _do2mslTimeout_keeps
    | apply appCloseNow_keeps ].
Qed.

(** Receiving a packet, for a property that recording the peer's address
    and accepting a cumulative ack within [nextSendSeqNum] do not break. *)
Hypothesis J_addr : forall c addr, J c -> J (C.set_peerAddressTuple addr c).
Hypothesis J_ack : forall c relativeAck,
  C.oldestUnackedSendSeqNum c < relativeAck <= C.nextSendSeqNum c ->
  J c -> J (C.set_oldestUnackedSendSeqNum relativeAck c).

Lemma syn_received_keeps packet : preserves (both J K) (syn_received packet).
Proof.
  unfold syn_received.
  repeat first [conn_step | apply machine_call_keeps; reflexivity].
  intros [c w] [HJ HK]. split; [apply J_addr; exact HJ | exact HK].
Qed.

Lemma ack_received_keeps packet : preserves (both J K) (ack_received packet).
Proof.
  intros [c w] HI. unfold ack_received, bind at 1, self at 1. cbn [fst].
  destruct (P.ack packet && ackAcceptable _ _ _) eqn:Hcond; [|exact HI].
  apply andb_true_iff in Hcond as [_ Hacc].
  unfold ackAcceptable in Hacc.
  apply andb_true_iff in Hacc as [Hlt%Z.ltb_lt Hle%Z.leb_le].
  unfold bind at 1. rewrite ack_drain_spec by reflexivity.
  unfold bind at 1, update at 1. cbn [fst snd].
  match goal with |- both J K (snd (?rest ?s)) =>
    assert (Hrest : preserves (both J K) rest);
      [| apply (Hrest s) ] end.
  { repeat first [ conn_step | apply machine_call_keeps; reflexivity
                 | apply _writeBufferEmpty_appClose_keeps ]. }
  destruct HI as [HJ HK]. split; [|exact HK]. cbn [fst].
  apply J_ack; [cbn; lia|].
  apply (stable_core J K St c); [reflexivity | exact HJ].
Qed.

Lemma segment_received_keeps packet :
  preserves (both J K) (segment_received packet).
Proof.
  unfold segment_received.
  repeat first [ conn_step | apply machine_call_keeps; reflexivity
               | apply (ackSoon_keeps J K St)
               | apply loseConnection_appClose_keeps ].
Qed.

Lemma packetReceived_keeps packet : preserves (both J K) (packetReceived packet).
Proof.
  unfold packetReceived.
  repeat first [ conn_step | apply (shrink_mtu_keeps J K St)
               | apply syn_received_keeps | apply ack_received_keeps
               | apply segment_received_keeps ].
Qed.

End Feeding_keeps.

(** *** The multiplexer *)

Section System_keeps.

Variables (J : C.t -> Prop) (K : PTCP.t -> Prop).
Hypothesis St : stable J K.
Hypothesis J_machine : forall c i enter outputs,
  fed i = true ->
  TCP.outputForInput (C.machine c) i = Some (enter, outputs) ->
  J c -> J (C.set_machine enter c).
Hypothesis J_addr : forall c addr, J c -> J (C.set_peerAddressTuple addr c).
Hypothesis J_ack : forall c relativeAck,
  C.oldestUnackedSendSeqNum c < relativeAck <= C.nextSendSeqNum c ->
  J c -> J (C.set_oldestUnackedSendSeqNum relativeAck c).
Hypothesis J_init : forall oid host peer factory addr,
  J (C.init oid host peer factory addr).
Hypothesis K_insert : forall p k conn,
  K p -> K (PTCP.set__connections (<[k := conn]> (PTCP._connections p)) p).
Hypothesis K_gone : forall p b, K p -> K (PTCP.set_transportGoneAway b p).

Lemma in_system_keeps {A} (m : WorldM A) :
  preserves (fun w => K (ptcp w)) m -> preserves (everywhere J K) (in_system m).
Proof.
  intros Hm sys [HJ HK]. unfold in_system. specialize (Hm (world sys) HK).
  destruct (m (world sys)) as [r w']. split; [exact HJ | exact Hm].
Qed.

Lemma on_conn_keeps {A} conn (m : ConnM A) :
  preserves (both J K) m -> preserves (everywhere J K) (on_conn conn m).
Proof.
  intros Hm sys [HJ HK]. unfold on_conn.
  destruct (heap sys !! conn) as [c|] eqn:Hc; [|split; assumption].
  assert (Hc' : J c) by (rewrite Forall_lookup in HJ; apply (HJ conn c Hc)).
  specialize (Hm (c, world sys) (conj Hc' HK)).
  destruct (m (c, world sys)) as [r [c' w']]. destruct Hm as [HJ' HK'].
  split; [|exact HK']. cbn [snd heap]. apply Forall_insert; assumption.
Qed.

Lemma new_connection_keeps host peer factory addr :
  preserves (everywhere J K) (new_connection host peer factory addr).
Proof.
  intros sys [HJ HK]. split; [|exact HK]. cbn [snd heap new_connection].
  apply Forall_app. split; [exact HJ|]. constructor; [apply J_init | constructor].
Qed.

Lemma set_connection_keeps packey conn :
  preserves (everywhere J K) (set_connection packey conn).
Proof.
  unfold set_connection. apply in_system_keeps.
  apply preserves_modify. intros w H. apply K_insert. exact H.
Qed.

Ltac sys_step :=
  first [ pres_step
        | apply new_connection_keeps | apply set_connection_keeps
        | apply in_system_keeps;
          first [ apply effect_keeps | apply PTCP_sendPacket_keeps
                | apply PTCP__stop_keeps; apply (stable_stop J K St)
                | apply _PendingEvent_deferred_keeps;
                  apply (stable_listeners J K St)
                | apply del_connection_keeps; apply (stable_delete J K St) ]
        | apply on_conn_keeps;
          first [ apply (machine_call_keeps J K St J_machine); reflexivity
                | apply (packetReceived_keeps J K St J_machine J_addr J_ack)
                | apply (releaseConnectionResources_keeps J K St)
                | apply (run_callback_keeps J K St J_machine)
                | apply (write_keeps J K St)
                | apply (loseConnection_appClose_keeps J K St J_machine)
                | apply (registerProducer_keeps J K St)
                | apply (unregisterProducer_keeps J K St J_machine)
                | apply (pauseProducing_keeps J K St)
                | apply (resumeProducing_keeps J K St) ] ].

Lemma PTCP_connect_keeps factory host port pseudoPort :
  preserves (everywhere J K) (PTCP_connect factory host port pseudoPort).
Proof.
  unfold PTCP_connect. repeat sys_step.
  apply in_system_keeps, preserves_modify. intros w H. exact H.
Qed.

Lemma PTCP_packetReceived_keeps packet :
  preserves (everywhere J K) (PTCP_packetReceived packet).
Proof. unfold PTCP_packetReceived. repeat sys_step. Qed.

Lemma PTCP_datagramReceived_keeps bs addr :
  preserves (everywhere J K) (PTCP_datagramReceived bs addr).
Proof.
  unfold PTCP_datagramReceived.
  repeat first [sys_step | apply PTCP_packetReceived_keeps].
Qed.

Lemma release_all_keeps conns : preserves (everywhere J K) (release_all conns).
Proof.
  induction conns as [|conn rest IH]; cbn [release_all];
    repeat first [sys_step | exact IH].
Qed.

Lemma PTCP__finalCleanup_keeps : preserves (everywhere J K) PTCP__finalCleanup.
Proof.
  unfold PTCP__finalCleanup. repeat first [sys_step | apply release_all_keeps].
Qed.

Lemma fire_keeps call : preserves (everywhere J K) (fire call).
Proof.
  unfold fire. repeat sys_step.
  apply in_system_keeps, preserves_modify. intros w H. exact H.
Qed.

Lemma handle_keeps ev : preserves (everywhere J K) (handle ev).
Proof.
  destruct ev; cbn [handle];
    [ apply PTCP_datagramReceived_keeps
    | apply fire_keeps
    | repeat first [sys_step | apply PTCP_connect_keeps]
    | repeat sys_step ..
    | unfold PTCP_waitForAllConnectionsToClose; repeat sys_step
    | unfold PTCP_cleanupAndClose;
      repeat first [sys_step | apply PTCP__finalCleanup_keeps]
    | unfold PTCP_stopProtocol;
      repeat first [sys_step | apply PTCP__finalCleanup_keeps] ].
  apply in_system_keeps, preserves_modify. intros w H. apply K_gone. exact H.
Qed.

(** What holds when the multiplexer starts and is kept by every operation
    holds in every state it can reach. *)
Lemma reachable_everywhere sys :
  (forall factory, K (PTCP.mk factory ∅ false false 0)) ->
  reachable sys -> everywhere J K sys.
Proof.
  intros HK. induction 1 as [factory oracle | sys ev r sys' _ IH Hstep _].
  - split; [constructor | apply HK].
  - pose proof (handle_keeps ev sys IH) as Hk. rewrite Hstep in Hk. exact Hk.
Qed.

End System_keeps.

(** An event handled from a reachable state, unless it never ends, leaves a
    reachable state. *)
Lemma reachable_handle sys ev :
  reachable sys -> fst (handle ev sys) <> Hang ->
  reachable (snd (handle ev sys)).
Proof.
  intros Hr Hn. destruct (handle ev sys) as [r sys'] eqn:E.
  exact (reachable_step sys ev r sys' Hr E Hn).
Qed.

Lemma send_cursors_stable : stable send_cursors_ordered (fun _ => True).
Proof.
  split; try (intros; exact I).
  - intros c c' Hc H. unfold send_cursors_ordered, core in *.
    injection Hc as _ _ _ -> -> _. exact H.
  - intros c n Hn H. unfold send_cursors_ordered in *. cbn. lia.
Qed.

(** In every state the multiplexer can reach by datagrams arriving, timers
    firing and calls from the application, every connection object, in the
    map or dropped from it, has
    [0 <= oldestUnackedSendSeqNum <= nextSendSeqNum]. *)
Theorem send_cursors_ordered_always (sys : System) :
  reachable sys ->
  forall c, In c (heap sys) ->
    0 <= C.oldestUnackedSendSeqNum c <= C.nextSendSeqNum c.
Proof.
  intros Hr c Hc.
  assert (He : everywhere send_cursors_ordered (fun _ => True) sys).
  { apply reachable_everywhere; try (intros; exact I); try exact Hr.
    - exact send_cursors_stable.
    - intros c0 i e o _ _ H. exact H.
    - intros c0 a H. exact H.
    - intros c0 relativeAck Hle H. unfold send_cursors_ordered in *. cbn. lia.
    - intros. unfold send_cursors_ordered. cbn. lia. }
  destruct He as [HJ _]. rewrite Forall_forall in HJ.
  apply HJ. apply list_elem_of_In. exact Hc.
Qed.

Lemma send_cursors_ordered_always_witness :
  Forall (fun c => 0 <= C.oldestUnackedSendSeqNum c <= C.nextSendSeqNum c)
         (heap (snd (handle (app_connect 3%nat "10.0.0.2" 5000 1)
                            (started None [])))).
Proof.
  apply (proj2 (Forall_forall _ _)). intros c Hc.
  apply (send_cursors_ordered_always
           (snd (handle (app_connect 3%nat "10.0.0.2" 5000 1)
                        (started None [])))).
  - apply reachable_handle; [constructor|].
    vm_compute. intros E. discriminate E.
  - exact (proj1 (list_elem_of_In _ _) Hc).
Defined.

(** ** The multiplexer's map *)

(** A packet for a key the map does not hold is only accepted if its flags
    are exactly SYN and it is addressed to pseudo-port 1; any other packet
    is logged and dropped: no connection is made, the map and every existing
    connection stay as they are. *)
Theorem unknown_packet_is_dropped (sys : System) (packet : P.t) :
  PTCP._connections (ptcp (world sys))
    !! ((P.sourcePseudoPort packet, P.destPseudoPort packet,
         P.peerAddressTuple packet) : Key) = None ->
  P.flags packet <> _SYN \/ P.destPseudoPort packet <> 1 ->
  PTCP_packetReceived packet sys =
    (Ok tt,
     mkSystem (heap sys)
       (set_trace (trace (world sys) ++ [log_msg]) (world sys))).
Proof.
  intros Hnone Hnot. unfold PTCP_packetReceived.
  unfold bind at 1, get at 1. rewrite Hnone.
  replace ((P.flags packet =? _SYN) && (P.destPseudoPort packet =? 1))
    with false; [reflexivity|].
  symmetry. apply andb_false_iff.
  destruct Hnot as [H|H]; [left | right]; apply Z.eqb_neq; exact H.
Qed.

Lemma unknown_packet_is_dropped_witness :
  PTCP_packetReceived example_synack (started None []) =
    (Ok tt,
     mkSystem []
       (set_trace (trace (world (started None [])) ++ [log_msg])
                  (world (started None [])))).
Proof.
  apply (unknown_packet_is_dropped (started None []) example_synack).
  - reflexivity.
  - left. vm_compute. intros E. discriminate E.
Defined.

(** When the connection a packet is routed to raises, the multiplexer logs
    the error and deletes the connection's key from the map, whatever state
    its automaton is in; the connection object keeps the state it had when
    it raised.  (If the connection had already removed its own key, the
    [del] itself raises [KeyError].) *)
Theorem failing_connection_is_dropped (sys : System) (packet : P.t)
    (conn : nat) (c c' : C.t) (w' : World) (e : Exn) :
  let packey : Key := (P.sourcePseudoPort packet, P.destPseudoPort packet,
                       P.peerAddressTuple packet) in
  PTCP._connections (ptcp (world sys)) !! packey = Some conn ->
  heap sys !! conn = Some c ->
  packetReceived packet (c, world sys) = (Raise e, (c', w')) ->
  exists r sys',
    PTCP_packetReceived packet sys = (r, sys') /\
    PTCP._connections (ptcp (world sys')) !! packey = None /\
    heap sys' = <[conn := c']> (heap sys) /\
    (r = Ok tt \/ r = Raise KeyError) /\
    (r = Ok tt <-> PTCP._connections (ptcp w') !! packey <> None).
Proof.
  intros packey Hkey Hc Hraise. unfold PTCP_packetReceived. fold packey.
  unfold bind at 1, get at 1. rewrite Hkey.
  unfold bind at 1, ret at 1, try_except.
  unfold bind at 1, get at 1. rewrite Hkey.
  unfold on_conn. rewrite Hc, Hraise.
  unfold bind at 1, in_system at 1, effect at 1, modify. cbn [world heap].
  unfold bind at 1, in_system at 1, effect at 1, modify. cbn [world heap].
  unfold in_system, del_connection, bind, get. cbn [world heap ptcp set_trace].
  destruct (PTCP._connections (ptcp w') !! packey) as [conn'|] eqn:Hk.
  - eexists. eexists. split; [reflexivity|].
    cbn [world heap ptcp update_ptcp modify set_ptcp PTCP._connections
         PTCP.set__connections snd].
    split; [apply lookup_delete_eq|]. split; [reflexivity|].
    split; [left; reflexivity|]. split; [intros _ E; discriminate E | reflexivity].
  - eexists. eexists. split; [reflexivity|].
    cbn [world heap ptcp].
    split; [exact Hk|]. split; [reflexivity|].
    split; [right; reflexivity|].
    split; [intros E; discriminate E | intros E; exfalso; apply E; reflexivity].
Qed.

Lemma failing_connection_is_dropped_witness :
  exists r sys',
    PTCP_packetReceived example_synack example_client = (r, sys') /\
    PTCP._connections (ptcp (world sys'))
      !! (P.sourcePseudoPort example_synack, P.destPseudoPort example_synack,
          P.peerAddressTuple example_synack) = None /\
    (r = Ok tt \/ r = Raise KeyError).
Proof.
  edestruct (failing_connection_is_dropped example_client example_synack 0%nat)
    as (r & sys' & Hrun & Hgone & _ & Hr & _).
  - vm_compute. reflexivity.
  - vm_compute. reflexivity.
  - vm_compute. reflexivity.
  - exists r, sys'. split; [exact Hrun|]. split; [exact Hgone | exact Hr].
Defined.






(** ** The states the automaton is never taken to *)

Lemma fed_keeps_enterable s i enter outputs :
  fed i = true ->
  TCP.outputForInput s i = Some (enter, outputs) ->
  enterable s = true -> enterable enter = true.
Proof.
  destruct s, i; intros Hf Ho Hs; try discriminate Hf; try discriminate Hs;
    vm_compute in Ho; try discriminate Ho;
    injection Ho as <- _; reflexivity.
Qed.

Lemma enterable_stable :
  stable (fun c => enterable (C.machine c) = true) (fun _ => True).
Proof.
  split; try (intros; exact I).
  - intros c c' Hc H. unfold core in Hc. injection Hc as _ _ _ _ _ ->. exact H.
  - intros c n _ H. destruct c; exact H.
Qed.

(** In every state the multiplexer can reach, whatever datagrams arrive,
    timers fire and application calls are made, no connection's automaton is
    in Established, CloseWait, LastAck, FinWait2 or TimeWait: the code only
    ever feeds appPassiveOpen, appActiveOpen, syn, segmentReceived, fin,
    timeout and appClose, and those lead from Closed to Listen, SynSent,
    SynRcvd, FinWait1 and Closing only. *)
Theorem established_is_never_entered (sys : System) :
  reachable sys ->
  forall c, In c (heap sys) ->
    In (C.machine c)
       [TCP.closed; TCP.listen; TCP.synSent; TCP.synRcvd; TCP.finWait1;
        TCP.closing].
Proof.
  intros Hr c Hc.
  assert (He : everywhere (fun c => enterable (C.machine c) = true)
                          (fun _ => True) sys).
  { apply reachable_everywhere; try (intros; exact I); try exact Hr.
    - exact enterable_stable.
    - intros c0 i e o Hf Ho H. destruct c0. cbn in *.
      exact (fed_keeps_enterable _ i e o Hf Ho H).
    - intros c0 a H. destruct c0; exact H.
    - intros c0 a _ H. destruct c0; exact H.
    - intros. reflexivity. }
  destruct He as [HJ _]. rewrite Forall_forall in HJ.
  specialize (HJ c (proj2 (list_elem_of_In _ _) Hc)). cbn beta in HJ.
  destruct (C.machine c); try discriminate HJ; cbn; tauto.
Qed.

Lemma established_is_never_entered_witness :
  Forall (fun c =>
            In (C.machine c)
               [TCP.closed; TCP.listen; TCP.synSent; TCP.synRcvd;
                TCP.finWait1; TCP.closing])
         (heap (snd (handle (datagram_arrives example_truncated_datagram
                                              example_peer)
                       (snd (handle (app_connect 3%nat "10.0.0.2" 5000 1)
                                    (started None [])))))).
Proof.
  apply (proj2 (Forall_forall _ _)). intros c Hc.
  apply (established_is_never_entered
           (snd (handle (datagram_arrives example_truncated_datagram
                                          example_peer)
                   (snd (handle (app_connect 3%nat "10.0.0.2" 5000 1)
                                (started None [])))))).
  - apply reachable_handle.
    + apply reachable_handle; [constructor|].
      vm_compute. intros E. discriminate E.
    + vm_compute. intros E. discriminate E.
  - exact (proj1 (list_elem_of_In _ _) Hc).
Defined.

(** ** C5: cumulative acknowledgement and the send cursors *)

(** On a queue in sequence order, what the drain leaves is all beyond the
    acknowledgement. *)
Lemma unacked_suffix_sorted rq relativeAck :
  StronglySorted (fun a b => segment_end a <= segment_end b) rq ->
  Forall (fun segment => relativeAck < segment_end segment)
         (unacked_suffix rq relativeAck).
Proof.
  induction 1 as [|segment rest Hsorted IH Hle]; cbn [unacked_suffix];
    [constructor|].
  unfold covered. fold (segment_end segment).
  destruct (Z.leb_spec (segment_end segment) relativeAck) as [_|Hgt];
    [exact IH|].
  constructor; [exact Hgt|].
  eapply Forall_impl; [exact Hle|]. intros later Hl. cbn beta in Hl. lia.
Qed.

Lemma cursors_stable :
  stable (fun c => C.oldestUnackedSendSeqNum c <= C.nextSendSeqNum c)
         (fun _ => True).
Proof.
  split; try (intros; exact I).
  - intros c c' Hc H. unfold core in Hc. injection Hc as _ _ _ -> -> _. exact H.
  - intros c n Hn H. destruct c. cbn in *. lia.
Qed.

(** C5, amended: for every connection and every received packet that gets
    to the acknowledgement step of [packetReceived] (it is not an STB
    advisory, the connection is not paused, and it is not a SYN that is
    refused or repeated) with the ACK flag and an acceptable ACK,
    [packetReceived] removes from the front of the retransmission queue the
    segments with [relativeSeq + segmentLength <= relativeAck], up to the
    first segment that is not covered (on a queue in sequence order these
    are exactly the covered segments: none is left behind), increases
    [sendWindowRemaining] by the segment length of each removed segment, and
    sets [oldestUnackedSendSeqNum] to the packet's relative ack; and in every
    state the multiplexer can reach, every connection has
    [oldestUnackedSendSeqNum <= nextSendSeqNum]. *)
Theorem acceptable_ack_is_applied :
  (forall (c : C.t) (w : World) (packet : P.t),
     reaches_ack_processing c packet ->
     P.ack packet = true ->
     ackAcceptable (C.oldestUnackedSendSeqNum c) (P.relativeAck packet)
                   (C.nextSendSeqNum c) = true ->
     let rq := C.retransmissionQueue c in
     let relativeAck := P.relativeAck packet in
     let c' := fst (snd (packetReceived packet (c, w))) in
     rq = acked_prefix rq relativeAck ++ C.retransmissionQueue c' /\
     Forall (fun segment => segment_end segment <= relativeAck)
            (acked_prefix rq relativeAck) /\
     (forall segment, head (C.retransmissionQueue c') = Some segment ->
        relativeAck < segment_end segment) /\
     (StronglySorted (fun a b => segment_end a <= segment_end b) rq ->
      Forall (fun segment => relativeAck < segment_end segment)
             (C.retransmissionQueue c')) /\
     C.sendWindowRemaining c' =
       C.sendWindowRemaining c
       + total_segmentLength (acked_prefix rq relativeAck) /\
     C.oldestUnackedSendSeqNum c' = relativeAck) /\
  (forall sys : System,
     reachable sys ->
     forall c, In c (heap sys) ->
       C.oldestUnackedSendSeqNum c <= C.nextSendSeqNum c).
Proof.
  split.
  - intros c w packet Hreach Hack Hacc. cbv zeta.
    assert (Hsame : C.oldestUnackedSendSeqNum (syn_recorded packet c)
                    = C.oldestUnackedSendSeqNum c /\
                    C.nextSendSeqNum (syn_recorded packet c)
                    = C.nextSendSeqNum c /\
                    C.retransmissionQueue (syn_recorded packet c)
                    = C.retransmissionQueue c /\
                    C.sendWindowRemaining (syn_recorded packet c)
                    = C.sendWindowRemaining c)
      by (unfold syn_recorded; destruct (P.syn packet); repeat split).
    destruct Hsame as (Huna & Hnxt & Hrq & Hswr).
    rewrite packetReceived_reaches_ack by exact Hreach.
    unfold bind. rewrite ack_received_raises;
      [| exact Hack | rewrite Huna, Hnxt; exact Hacc].
    unfold ack_applied.
    cbn [fst snd C.retransmissionQueue C.sendWindowRemaining
         C.oldestUnackedSendSeqNum C.set_oldestUnackedSendSeqNum
         C.set_sendWindowRemaining C.set_retransmissionQueue].
    rewrite Hrq, Hswr.
    destruct (acked_prefix_suffix (C.retransmissionQueue c)
                (P.relativeAck packet)) as (Hsplit & Hcov & Hhead).
    split; [exact Hsplit|]. split.
    { eapply Forall_impl; [exact Hcov|]. intros segment Hs.
      unfold covered in Hs. apply Z.leb_le in Hs. exact Hs. }
    split.
    { intros segment Hs. apply Hhead in Hs. unfold covered in Hs.
      apply Z.leb_gt in Hs. exact Hs. }
    split; [apply unacked_suffix_sorted|]. split; reflexivity.
  - intros sys Hr c Hc.
    assert (He : everywhere
                   (fun c => C.oldestUnackedSendSeqNum c <= C.nextSendSeqNum c)
                   (fun _ => True) sys).
    { apply reachable_everywhere; try (intros; exact I); try exact Hr.
      - exact cursors_stable.
      - intros c0 i e o _ _ H. exact H.
      - intros c0 a H. exact H.
      - intros c0 relativeAck Hle H. cbn. lia.
      - intros. cbn. lia. }
    destruct He as [HJ _]. rewrite Forall_forall in HJ.
    exact (HJ c (proj2 (list_elem_of_In _ _) Hc)).
Qed.

Lemma acceptable_ack_is_applied_witness :
  let c' := fst (snd (packetReceived example_ack
                        (example_sender, world (started None [])))) in
  C.retransmissionQueue example_sender
    = acked_prefix (C.retransmissionQueue example_sender) 3
      ++ C.retransmissionQueue c' /\
  C.sendWindowRemaining c' =
    C.sendWindowRemaining example_sender
    + total_segmentLength
        (acked_prefix (C.retransmissionQueue example_sender) 3) /\
  C.oldestUnackedSendSeqNum c' = 3.
Proof.
  destruct (proj1 acceptable_ack_is_applied example_sender
              (world (started None [])) example_ack)
    as (H1 & _ & _ & _ & H5 & H6).
  - split; [reflexivity|]. split; [reflexivity|]. left. reflexivity.
  - reflexivity.
  - reflexivity.
  - split; [exact H1|]. split; [exact H5 | exact H6].
Defined.

(** C5 as stated fails for a packet that does not get to the
    acknowledgement step.  A client has sent its SYN and its consumer has
    paused it; the peer's SYN+ACK arrives, whose ACK is acceptable
    (SND.UNA = 0 < 1 <= SND.NXT = 1) and covers the queued SYN (it ends at
    1); [packetReceived] returns at the pause check and the connection is as
    it was: the SYN is still queued and [oldestUnackedSendSeqNum] is still
    0. *)
Lemma paused_connection_keeps_acked_segment :
  exists c segment,
    reachable example_paused_client /\
    heap example_paused_client !! 0%nat = Some c /\
    P.ack example_synack = true /\
    ackAcceptable (C.oldestUnackedSendSeqNum c) (P.relativeAck example_synack)
                  (C.nextSendSeqNum c) = true /\
    head (C.retransmissionQueue c) = Some segment /\
    segment_end segment <= P.relativeAck example_synack /\
    packetReceived example_synack (c, world example_paused_client)
      = (Ok tt, (c, world example_paused_client)) /\
    C.oldestUnackedSendSeqNum c <> P.relativeAck example_synack.
Proof.
  eexists. eexists. split.
  { unfold example_paused_client.
    repeat (apply reachable_handle;
            [|vm_compute; intros E; discriminate E]).
    constructor. }
  split; [vm_compute; reflexivity|].
  split; [vm_compute; reflexivity|].
  split; [vm_compute; reflexivity|].
  split; [vm_compute; reflexivity|].
  split; [vm_compute; intros E; discriminate E|].
  split; [vm_compute; reflexivity | vm_compute; intros E; discriminate E].
Qed.

(** ** C8: the retransmit timer *)

(** On a transport that has not gone away, sending packets that fit the wire
    format and have a destination writes their encodings, in order. *)
Lemma send_all_writes packets :
  forall (sent : list (bytes * option Addr)) w,
    PTCP.transportGoneAway (ptcp w) = false ->
    Forall2 (fun packet out =>
               P.encode packet = Ok (fst out) /\
               P.destination packet = Some (snd out)) packets sent ->
    send_all packets w =
    (Ok tt,
     set_trace
       (trace w ++ map (fun out => transport_write (fst out) (snd out)) sent)
       w).
Proof.
  induction packets as [|packet rest IH]; intros sent w Hlive Hall.
  - inversion Hall; subst. cbn. rewrite app_nil_r, set_trace_same. reflexivity.
  - inversion Hall as [|? out ? outs [Henc Hdest] Hrest]; subst.
    cbn [send_all map].
    unfold bind at 1, PTCP_sendPacket at 1, bind at 1, get at 1.
    rewrite Hlive. unfold bind at 1, lift at 1. rewrite Henc, Hdest.
    unfold effect, modify.
    rewrite (IH outs) by (try exact Hrest; exact Hlive).
    cbn [trace set_trace]. rewrite <- app_assoc. reflexivity.
Qed.

(** C8, amended: a packet starts with a retransmit counter of 50, whether
    built by the constructor or by [create].  On each firing of the
    retransmit timer with a non-empty queue, while the datagram port has not
    gone away and the packets fit the wire format, the queue is walked in
    order: every packet before the first one whose counter reaches zero has
    its counter decremented and its [ackNum] set to [currentAckNum()], and
    its encoding, with that [ackNum], is written to the transport for its
    destination, in queue order; the first packet whose counter reaches zero
    has its counter decremented, [timeout] is fed to the automaton and the
    walk stops there, the packets behind it being left as they were; if no
    counter reaches zero, the timer is armed again. *)
Theorem retransmit_timer_resends_queue :
  (forall s d sq ak w f ck dl data a,
     P.retransmitCount (P.init s d sq ak w f ck dl data a) = 50) /\
  (forall s d sq ak data w syn ack fin rst stb dest,
     P.retransmitCount (P.create s d sq ak data w syn ack fin rst stb dest)
     = 50) /\
  (forall (c : C.t) (w : World) (pre rest : list P.t)
          (sent : list (bytes * option Addr)),
     let ackNum := (C.nextRecvSeqNum c + C.peerSendISN c) mod 2 ^ 32 in
     C.retransmissionQueue c = pre ++ rest ->
     pre ++ rest <> [] ->
     Forall (fun packet => P.retransmitCount packet - 1 <> 0) pre ->
     (forall packet, head rest = Some packet ->
        P.retransmitCount packet - 1 = 0) ->
     PTCP.transportGoneAway (ptcp w) = false ->
     Forall2 (fun packet out =>
                P.encode (refreshed ackNum packet) = Ok (fst out) /\
                P.destination packet = Some (snd out)) pre sent ->
     let w1 :=
       set_trace
         (trace w ++ map (fun out => transport_write (fst out) (snd out)) sent)
         w in
     _reallyRetransmit (c, w) =
     match rest with
     | [] =>
         _retransmitLater
           (C.set_retransmissionQueue (map (refreshed ackNum) pre)
              (C.set__retransmitter None c), w1)
     | packet :: behind =>
         machine_call "timeout"
           (C.set_retransmissionQueue
              (map (refreshed ackNum) pre ++ expired packet :: behind)
              (C.set__retransmitter None c), w1)
     end).
Proof.
  split; [reflexivity|]. split; [intros; rewrite create_eq; reflexivity|].
  intros c w pre rest sent ackNum Hrq Hne Hpre Hrest Hlive Hsent w1.
  assert (Hsend : send_all (map (refreshed ackNum) pre) w = (Ok tt, w1)).
  { apply send_all_writes; [exact Hlive|].
    apply Forall2_fmap_l. eapply Forall2_impl; [exact Hsent|].
    intros packet out [He Hd]. split; [exact He | exact Hd]. }
  unfold _reallyRetransmit.
  unfold bind at 1, update at 1. cbn [fst snd].
  unfold bind at 1, self at 1. cbn [fst].
  change (C.retransmissionQueue (C.set__retransmitter None c))
    with (C.retransmissionQueue c).
  rewrite Hrq. rewrite bool_decide_eq_false_2 by exact Hne. cbn [negb].
  unfold bind at 1.
  rewrite (retransmit_walk_resends ackNum pre Hpre [] rest _ w w1);
    [ | exact Hrq | reflexivity | exact Hsend ].
  cbn [app]. destruct rest as [|packet behind].
  - cbn [retransmit_walk]. unfold ret at 1. rewrite app_nil_r. reflexivity.
  - cbn [retransmit_walk].
    unfold bind at 1, update at 1. cbn [fst snd P.retransmitCount
                                         P.set_retransmitCount].
    unfold expired. rewrite (Hrest packet eq_refl). cbn [Z.eqb negb].
    rewrite <- (walk_timeout_tail (machine_call "timeout") _retransmitLater).
    reflexivity.
Qed.

Lemma retransmit_timer_resends_queue_witness :
  exists datagram,
    P.encode (refreshed 0 (P.create 8 1 1 1 [x68; x69] 489 false true false
                                    false false (Some example_peer)))
      = Ok datagram /\
    _reallyRetransmit (example_sender, world (started None [])) =
    machine_call "timeout"
      (C.set_retransmissionQueue
         (map (refreshed 0) example_pending
          ++ expired example_due :: example_behind)
         (C.set__retransmitter None example_sender),
       set_trace [transport_write datagram (Some example_peer)]
                 (world (started None []))).
Proof.
  eexists. split; [vm_compute; reflexivity|].
  apply (proj2 (proj2 retransmit_timer_resends_queue)
           example_sender (world (started None []))
           example_pending (example_due :: example_behind)
           [(_, Some example_peer)]).
  - reflexivity.
  - intros E. discriminate E.
  - repeat constructor. vm_compute. intros E. discriminate E.
  - intros packet [= <-]. reflexivity.
  - reflexivity.
  - repeat constructor.
Defined.

(** C8 as stated fails once the datagram port has gone away.  The
    multiplexer has dropped a client from its map because a datagram made
    it raise, and then lost its transport; the client's SYN is still queued
    with all fifty attempts and its retransmit timer still armed.  The timer
    fires: the packet's counter goes to 49, but [sendPacket] returns without
    writing anything, so the packet is not resent. *)
Lemma retransmit_after_transport_gone_sends_nothing :
  exists c packet sys' c',
    reachable example_orphan_client /\
    heap example_orphan_client !! 0%nat = Some c /\
    C.retransmissionQueue c = [packet] /\
    P.retransmitCount packet = 50 /\
    C._retransmitter c = Some 0%nat /\
    pending 0 (world example_orphan_client) = true /\
    handle (timer_fires 0) example_orphan_client = (Ok tt, sys') /\
    heap sys' !! 0%nat = Some c' /\
    map P.retransmitCount (C.retransmissionQueue c') = [49] /\
    trace (world sys') = trace (world example_orphan_client).
Proof.
  eexists. eexists. eexists. eexists.
  split.
  { unfold example_orphan_client, example_dropped_client.
    repeat (apply reachable_handle;
            [|vm_compute; intros E; discriminate E]).
    constructor. }
  split; [vm_compute; reflexivity|].
  split; [vm_compute; reflexivity|].
  split; [vm_compute; reflexivity|].
  split; [vm_compute; reflexivity|].
  split; [vm_compute; reflexivity|].
  split; [vm_compute; reflexivity|].
  split; [vm_compute; reflexivity|].
  split; vm_compute; reflexivity.
Qed.

(** ** C9: when a connection leaves the map *)









(** ** [PTCP.connect]: the active open *)

(** Running a method on a connection and a world that are given field by
    field: the combinators and the attribute accesses are unfolded, and
    nothing else. *)
Ltac run_method :=
  cbv beta iota zeta delta
      [bind ret raise lift get modify self update in_world when assert fst snd
       effect callLater update_ptcp
       C.oid C.hostPseudoPort C.peerPseudoPort C.factory C.retransmissionQueue
       C.peerAddressTuple C.oldestUnackedSendSeqNum C.nextSendSeqNum
       C.hostSendISN C.nextRecvSeqNum C.peerSendISN C.setPeerISN C.machine
       C.mtu C.recvWindow C.sendWindow C.sendWindowRemaining C.protocol
       C._outgoingBytes C._nagle C._retransmitter C.disconnecting
       C.disconnected C.producer C.producerPaused C.streamingProducer
       C._paused C._ackTimer C.wasEverListen C._timeWaitCall
       C._closeWaitLoseConnection
       C.set_retransmissionQueue C.set_nextSendSeqNum C.set_machine
       C.set__retransmitter C.set__ackTimer C.init
       ptcp reactor next_call trace oracle genConnID
       set_ptcp set_reactor set_next_call set_trace
       PTCP.transportGoneAway PTCP._connections PTCP.factory PTCP.stopped
       PTCP._allConnectionsClosed PTCP.set__connections
       run_outputs run_output];
  cbn [last app].

(** What [appActiveOpen] does to a connection fresh from its constructor,
    while the datagram port is there and the SYN fits the wire format. *)
Lemma active_open_fresh (w : World) (conn : nat) (src pseudoPort : Z)
    (factory : object) (addr : Addr) (datagram : bytes) :
  let syn := P.create src pseudoPort 0 0 [] C.class_mtu
                      true false false false false (Some addr) in
  PTCP.transportGoneAway (ptcp w) = false ->
  P.encode syn = Ok datagram ->
  machine_call "appActiveOpen"
    (C.init conn src pseudoPort (Some factory) (Some addr), w)
  = (Ok tt,
     (C.set__retransmitter (Some (next_call w))
        (C.set_retransmissionQueue [syn]
           (C.set_nextSendSeqNum 1
              (C.set_machine TCP.synSent
                 (C.init conn src pseudoPort (Some factory) (Some addr))))),
      set_trace (trace w ++ [transport_write datagram (Some addr)])
        (set_next_call (S (next_call w))
           (set_reactor
              (reactor w ++ [(next_call w, (conn, cb_reallyRetransmit))])
              w)))).
Proof.
  intros syn Hlive Hd. subst syn.
  destruct w as [[fac conns gone stopped waiting] calls next tr orc gen].
  cbn in Hlive. subst gone.
  change (machine_call "appActiveOpen") with (feed TCP.appActiveOpen).
  rewrite feed_eq.
  change (TCP.outputForInput
            (C.machine (C.init conn src pseudoPort (Some factory) (Some addr)))
            TCP.appActiveOpen) with (Some (TCP.synSent, [TCP.sendSyn])).
  cbn [run_outputs run_output].
  unfold originate, currentAckNum, _retransmitLater, PTCP_sendPacket.
  set (syn := P.create src pseudoPort 0 0 [] C.class_mtu
                       true false false false false (Some addr)) in *.
  assert (Hsl : P.segmentLength syn = 1)
    by (unfold syn; rewrite create_eq; reflexivity).
  assert (Hmr : P.mustRetransmit syn = true)
    by (unfold syn; rewrite create_eq; reflexivity).
  assert (Hds : P.destination syn = Some (Some addr))
    by (unfold syn; rewrite create_eq; reflexivity).
  assert (Hw : (C.class_mtu * 2 =? 0) = false) by reflexivity.
  repeat (run_method; rewrite ?Z.eqb_refl;
          change ((0 + 0) mod 2 ^ 32) with 0;
          fold syn; rewrite ?Hsl, ?Hmr, ?Hds, ?Hw, ?Hd).
  reflexivity.
Qed.

(** [connect], on a port that has not gone away and with a pseudo-port that
    fits its 16-bit field, makes a connection object, registers it under the
    key [(pseudoPort, sourcePseudoPort, (host, port))] where
    [sourcePseudoPort] is the next connection id modulo 2^16, and opens it:
    the connection is in SynSent with its SYN (sequence number 0) queued for
    retransmission and counted in [nextSendSeqNum], the retransmit timer is
    armed, and the SYN's datagram has been written to the transport for
    [(host, port)].  Nothing else changes. *)
Theorem connect_opens_connection (sys : System) (factory : object)
    (host : string) (port pseudoPort : Z) :
  PTCP.transportGoneAway (ptcp (world sys)) = false ->
  0 <= pseudoPort < 2 ^ 16 ->
  let w := world sys in
  let sourcePseudoPort := genConnID w mod MAX_PSEUDO_PORT in
  let conn := length (heap sys) in
  let syn := P.create sourcePseudoPort pseudoPort 0 0 [] C.class_mtu
                      true false false false false (Some (host, port)) in
  exists datagram,
    P.encode syn = Ok datagram /\
    PTCP_connect factory host port pseudoPort sys =
      (Ok conn,
       mkSystem
         (heap sys ++
          [C.set__retransmitter (Some (next_call w))
             (C.set_retransmissionQueue [syn]
                (C.set_nextSendSeqNum 1
                   (C.set_machine TCP.synSent
                      (C.init conn sourcePseudoPort pseudoPort (Some factory)
                              (Some (host, port))))))])
         (mkWorld
            (PTCP.set__connections
               (<[(pseudoPort, sourcePseudoPort, Some (host, port)) := conn]>
                  (PTCP._connections (ptcp w)))
               (ptcp w))
            (reactor w ++ [(next_call w, (conn, cb_reallyRetransmit))])
            (S (next_call w))
            (trace w ++ [transport_write datagram (Some (host, port))])
            (oracle w) (genConnID w + 1))).
Proof.
  intros Hlive Hport. cbv zeta.
  set (src := genConnID (world sys) mod MAX_PSEUDO_PORT).
  assert (Hsrc : 0 <= src < 2 ^ 16)
    by (apply Z.mod_pos_bound; reflexivity).
  assert (Henc : encodable
            (P.create src pseudoPort 0 0 [] C.class_mtu
                      true false false false false (Some (host, port)))).
  { rewrite create_eq. unfold encodable. cbn [P.sourcePseudoPort
      P.destPseudoPort P.seqNum P.ackNum P.window P.flags P.data].
    change C.class_mtu with 489. change (len []) with 0.
    repeat split; try lia; try (vm_compute; congruence). }
  apply encode_ok_iff in Henc as [datagram Hd].
  exists datagram. split; [exact Hd|].
  unfold PTCP_connect. fold src.
  unfold bind at 1, get at 1.
  unfold bind at 1, in_system at 1, modify at 1.
  unfold bind at 1, new_connection at 1. cbn [heap world].
  unfold bind at 1, set_connection at 1, in_system at 1, update_ptcp at 1,
    modify at 1.
  cbn [heap world].
  unfold bind at 1, on_conn at 1. cbn [heap world].
  rewrite list_lookup_middle by reflexivity.
  rewrite (active_open_fresh _ _ _ _ _ _ datagram);
    [ | destruct sys as [h [[]]]; exact Hlive | exact Hd ].
  unfold ret. cbn [heap world].
  rewrite insert_app_r_alt by reflexivity. rewrite Nat.sub_diag.
  cbn [insert list_insert].
  destruct sys as [h [[fac conns gone stopped waiting] calls next tr orc gen]].
  reflexivity.
Qed.

Lemma connect_opens_connection_witness :
  exists datagram c,
    PTCP_connect 3%nat "10.0.0.2" 5000 1 (started None []) =
      (Ok 0%nat,
       mkSystem [c]
         (mkWorld
            (PTCP.mk None {[ (1, 8, Some example_peer) := 0%nat ]}
                     false false 0)
            [(0%nat, (0%nat, cb_reallyRetransmit))] 1
            [transport_write datagram (Some example_peer)] [] 9)) /\
    C.machine c = TCP.synSent.
Proof.
  destruct (connect_opens_connection (started None []) 3%nat "10.0.0.2" 5000 1)
    as (datagram & Hd & Hrun).
  - reflexivity.
  - lia.
  - eexists. eexists. split; [rewrite Hrun; reflexivity | reflexivity].
Defined.

(** ** [PTCP.packetReceived]: the passive open *)

Ltac run_inbound :=
  cbv beta iota zeta delta
      [bind ret raise lift get modify self update in_world when assert fst snd
       effect callLater update_ptcp
       C.oid C.hostPseudoPort C.peerPseudoPort C.factory C.retransmissionQueue
       C.peerAddressTuple C.oldestUnackedSendSeqNum C.nextSendSeqNum
       C.hostSendISN C.nextRecvSeqNum C.peerSendISN C.setPeerISN C.machine
       C.mtu C.recvWindow C.sendWindow C.sendWindowRemaining C.protocol
       C._outgoingBytes C._nagle C._retransmitter C.disconnecting
       C.disconnected C.producer C.producerPaused C.streamingProducer
       C._paused C._ackTimer C.wasEverListen C._timeWaitCall
       C._closeWaitLoseConnection
       C.set_retransmissionQueue C.set_nextSendSeqNum C.set_machine
       C.set__retransmitter C.set__ackTimer C.set_wasEverListen
       C.set_setPeerISN C.set_peerSendISN C.set_nextRecvSeqNum
       C.set_peerAddressTuple C.init
       ptcp reactor next_call trace oracle genConnID
       set_ptcp set_reactor set_next_call set_trace
       PTCP.transportGoneAway PTCP._connections PTCP.factory PTCP.stopped
       PTCP._allConnectionsClosed PTCP.set__connections
       run_outputs run_output negb andb orb];
  cbn [last app].

(** A packet whose flags are exactly SYN. *)
Lemma bare_syn_flags packet :
  P.flags packet = _SYN ->
  P.syn packet = true /\ P.ack packet = false /\ P.fin packet = false /\
  P.stb packet = false.
Proof.
  intros Hf. unfold P.syn, P.ack, P.fin, P.stb, P.flag_get. rewrite Hf.
  repeat split.
Qed.

(** [appPassiveOpen] on a connection fresh from its constructor. *)
Lemma passive_open_fresh c w :
  C.machine c = TCP.closed ->
  machine_call "appPassiveOpen" (c, w)
  = (Ok tt, (C.set_wasEverListen true (C.set_machine TCP.listen c), w)).
Proof.
  intros Hm.
  change (machine_call "appPassiveOpen") with (feed TCP.appPassiveOpen).
  rewrite feed_eq, Hm. reflexivity.
Qed.

(** The first SYN, as the fresh listening connection handles it. *)
Lemma first_syn_received (w : World) (conn : nat) (factory : option object)
    (addr : Addr) (packet : P.t) (datagram : bytes) :
  let synack := P.create 1 (P.sourcePseudoPort packet) 0
                         ((1 + P.seqNum packet) mod 2 ^ 32) [] C.class_mtu
                         true true false false false (Some addr) in
  let fresh := C.init conn 1 (P.sourcePseudoPort packet) factory (Some addr) in
  PTCP.transportGoneAway (ptcp w) = false ->
  P.flags packet = _SYN ->
  P.dlen packet = 0 ->
  P.peerAddressTuple packet = Some addr ->
  ~ (1 <= P.relativeSeq packet < 1 + C.class_mtu) ->
  P.encode synack = Ok datagram ->
  packetReceived packet
    (C.set_wasEverListen true (C.set_machine TCP.listen fresh), w)
  = (Ok tt,
     (C.set__ackTimer (Some (S (next_call w)))
        (C.set__retransmitter (Some (next_call w))
           (C.set_retransmissionQueue [synack]
              (C.set_nextSendSeqNum 1
                 (C.set_machine TCP.synRcvd
                    (C.set_nextRecvSeqNum 1
                       (C.set_peerSendISN (P.seqNum packet)
                          (C.set_setPeerISN true
                             (C.set_wasEverListen true fresh)))))))),
      set_trace (trace w ++ [transport_write datagram (Some addr)])
        (set_next_call (S (S (next_call w)))
           (set_reactor
              (reactor w ++ [(next_call w, (conn, cb_reallyRetransmit));
                             (S (next_call w), (conn, cb_originateAck))])
              w)))).
Proof.
  intros synack fresh Hlive Hflags Hdlen Haddr Hseq Hd. subst fresh.
  destruct w as [[fac conns gone stopped waiting] calls next tr orc gen].
  cbn in Hlive. subst gone.
  destruct (bare_syn_flags packet Hflags) as (Hsyn & Hack & Hfin & Hstb).
  assert (Hsl : P.segmentLength packet = 1)
    by (unfold P.segmentLength; rewrite Hsyn, Hfin, Hdlen; reflexivity).
  assert (Hacc : segmentAcceptable 1 C.class_mtu (P.relativeSeq packet) 1
                 = Ok false).
  { unfold segmentAcceptable. change C.class_mtu with 489 in *.
    cbn [Z.eqb Pos.eqb andb Z.gtb Z.compare Pos.compare Pos.compare_cont].
    replace (P.relativeSeq packet + 1 - 1) with (P.relativeSeq packet) by lia.
    destruct (Z.leb_spec 1 (P.relativeSeq packet));
      destruct (Z.ltb_spec (P.relativeSeq packet) (1 + 489));
      try reflexivity; lia. }
  assert (Hsa : P.segmentLength synack = 1)
    by (unfold synack; rewrite create_eq; reflexivity).
  assert (Hmr : P.mustRetransmit synack = true)
    by (unfold synack; rewrite create_eq; reflexivity).
  assert (Hds : P.destination synack = Some (Some addr))
    by (unfold synack; rewrite create_eq; reflexivity).
  assert (Hw : (C.class_mtu * 2 =? 0) = false) by reflexivity.
  unfold packetReceived. rewrite Hstb.
  unfold syn_received, ack_received, segment_received, ackSoon.
  unfold originate, currentAckNum, _retransmitLater, PTCP_sendPacket.
  repeat (run_inbound;
          rewrite ?Hsyn, ?Hack, ?Hfin, ?Hdlen, ?Hsl, ?Haddr, ?Z.eqb_refl,
            ?(bool_decide_eq_true_2 _ (eq_refl (Some addr)));
          cbn [Z.eqb Pos.eqb];
          change ((0 + 0) mod 2 ^ 32) with 0; change (0 + 1) with 1;
          try (change (machine_call "syn") with (feed TCP.syn);
               rewrite feed_eq; cbn [C.machine];
               change (TCP.outputForInput TCP.listen TCP.syn)
                 with (Some (TCP.synRcvd, [TCP.sendSynAck]));
               cbn [run_outputs run_output];
               unfold originate, currentAckNum, _retransmitLater,
                 PTCP_sendPacket);
          fold synack; rewrite ?Hsa, ?Hmr, ?Hds, ?Hw, ?Hd, ?Hacc).
  rewrite <- app_assoc. reflexivity.
Qed.

(** A packet for a key that the map does not hold, with exactly the SYN
    flag, addressed to pseudo-port 1 and without payload, opens a
    connection on a port that has not gone away: the multiplexer makes a
    connection object with its own factory, registers it under the packet's
    key, and hands it the packet.  The connection records the peer's
    sequence number, goes through Listen to SynRcvd, and answers with a
    SYN+ACK (sequence number 0, acknowledging the peer's number plus one)
    that is queued for retransmission, with the retransmit timer armed, and
    written to the transport for the sender.  When the SYN's sequence number
    is outside 1..489, as the 0 every PTCP peer starts from is, the SYN is
    then found unacceptable as a segment and an acknowledgement is scheduled
    as well.  Nothing else changes. *)
Theorem first_syn_opens_connection (sys : System) (packet : P.t)
    (addr : Addr) :
  let w := world sys in
  let src := P.sourcePseudoPort packet in
  let packey : Key := (src, 1, Some addr) in
  let conn := length (heap sys) in
  let synack := P.create 1 src 0 ((1 + P.seqNum packet) mod 2 ^ 32) []
                         C.class_mtu true true false false false (Some addr) in
  let fresh := C.init conn 1 src (PTCP.factory (ptcp w)) (Some addr) in
  PTCP._connections (ptcp w) !! packey = None ->
  PTCP.transportGoneAway (ptcp w) = false ->
  P.flags packet = _SYN ->
  P.destPseudoPort packet = 1 ->
  P.dlen packet = 0 ->
  P.peerAddressTuple packet = Some addr ->
  0 <= src < 2 ^ 16 ->
  ~ (1 <= P.relativeSeq packet < 1 + C.class_mtu) ->
  exists datagram,
    P.encode synack = Ok datagram /\
    PTCP_packetReceived packet sys =
      (Ok tt,
       mkSystem
         (heap sys ++
          [C.set__ackTimer (Some (S (next_call w)))
             (C.set__retransmitter (Some (next_call w))
                (C.set_retransmissionQueue [synack]
                   (C.set_nextSendSeqNum 1
                      (C.set_machine TCP.synRcvd
                         (C.set_nextRecvSeqNum 1
                            (C.set_peerSendISN (P.seqNum packet)
                               (C.set_setPeerISN true
                                  (C.set_wasEverListen true fresh))))))))])
         (mkWorld
            (PTCP.set__connections
               (<[packey := conn]> (PTCP._connections (ptcp w))) (ptcp w))
            (reactor w ++ [(next_call w, (conn, cb_reallyRetransmit));
                           (S (next_call w), (conn, cb_originateAck))])
            (S (S (next_call w)))
            (trace w ++ [transport_write datagram (Some addr)])
            (oracle w) (genConnID w))).
Proof.
  intros w src packey conn synack fresh Hnone Hlive Hflags Hdest Hdlen Haddr
    Hsrc Hseq.
  assert (Henc : encodable synack).
  { unfold synack. rewrite create_eq. unfold encodable.
    cbn [P.sourcePseudoPort P.destPseudoPort P.seqNum P.ackNum P.window
         P.flags P.data].
    change C.class_mtu with 489. change (len []) with 0.
    pose proof (Z.mod_pos_bound (1 + P.seqNum packet) (2 ^ 32) eq_refl).
    repeat split; try lia; try (vm_compute; congruence). }
  apply encode_ok_iff in Henc as [datagram Hd].
  exists datagram. split; [exact Hd|].
  unfold PTCP_packetReceived.
  fold src. rewrite Haddr, Hdest. fold packey.
  unfold bind at 1, get at 1. fold w. rewrite Hnone, Hflags.
  change ((_SYN =? _SYN) && (1 =? 1)) with true. cbv iota.
  unfold bind at 1. unfold bind at 1, new_connection at 1. fold conn.
  cbn [heap world]. fold w. fold fresh.
  unfold bind at 1, on_conn at 1. cbn [heap world].
  rewrite list_lookup_middle by reflexivity.
  rewrite passive_open_fresh by reflexivity.
  unfold bind at 1, set_connection at 1, in_system at 1, update_ptcp at 1,
    modify at 1.
  cbn [heap world]. unfold ret at 1.
  unfold try_except, bind at 1, get at 1. cbn [heap world ptcp set_ptcp].
  cbn [PTCP._connections PTCP.set__connections].
  rewrite lookup_insert_eq.
  unfold on_conn. cbn [heap world].
  rewrite insert_app_r_alt by reflexivity. rewrite Nat.sub_diag.
  cbn [insert list_insert].
  rewrite list_lookup_middle by reflexivity.
  unfold fresh, src.
  rewrite (first_syn_received _ _ _ _ _ datagram);
    [ | destruct sys as [h [[]]]; exact Hlive | exact Hflags | exact Hdlen
      | exact Haddr | exact Hseq | exact Hd ].
  rewrite insert_app_r_alt by reflexivity. rewrite Nat.sub_diag.
  cbn [insert list_insert].
  destruct sys as [h [[fac conns gone stopped waiting] calls next tr orc gen]].
  reflexivity.
Qed.

Lemma first_syn_opens_connection_witness :
  exists datagram c,
    PTCP_packetReceived
      (P.init 8 1 0 0 489 1 0 0 [] (Some example_peer)) (started None []) =
      (Ok tt,
       mkSystem [c]
         (mkWorld
            (PTCP.mk None {[ (8, 1, Some example_peer) := 0%nat ]}
                     false false 0)
            [(0%nat, (0%nat, cb_reallyRetransmit));
             (1%nat, (0%nat, cb_originateAck))] 2
            [transport_write datagram (Some example_peer)] [] 8)) /\
    C.machine c = TCP.synRcvd.
Proof.
  destruct (first_syn_opens_connection (started None [])
              (P.init 8 1 0 0 489 1 0 0 [] (Some example_peer)) example_peer)
    as (datagram & Hd & Hrun).
  - reflexivity.
  - reflexivity.
  - reflexivity.
  - reflexivity.
  - reflexivity.
  - reflexivity.
  - cbn. lia.
  - vm_compute. intros [H1 H2]. apply H1. reflexivity.
  - eexists. eexists. split; [rewrite Hrun; reflexivity | reflexivity].
Defined.
